(** * aqua-verifier-go: the Aqua protocol client ([api/api.go])

    A shallow embedding of the client in [api/api.go] and of the parts of the
    Go standard library it calls ([strings], [time], [net/url],
    [encoding/json], [net/http]), followed by the properties of the client
    that are checked against its specification.

    Go strings are byte sequences: they are modelled by [string], whose
    characters ([ascii]) are bytes.  Go's [int] values are modelled in [Z];
    where the library computes in [uint64] or [int64] the wrap-around is
    written out. *)

From Stdlib Require Import ZArith List String Ascii Bool Lia.
Import ListNotations.

Local Open Scope string_scope.
Local Open Scope Z_scope.

(* ===================================================================== *)
(** * Part I: definitions                                                 *)
(* ===================================================================== *)

(** ** Bytes and strings *)

(** The double quote, byte 0x22. *)
Definition dquote : ascii := "034"%char.

(** The numeric value of a byte. *)
Definition byte_val (c : ascii) : Z := Z.of_N (N_of_ascii c).

(** The byte of a numeric value in [0, 255]. *)
Definition byte_of (z : Z) : ascii := ascii_of_N (Z.to_N z).

Definition len (s : string) : Z := Z.of_nat (String.length s).

(** [s[n:]] *)
Fixpoint drop (n : nat) (s : string) : string :=
  match n, s with
  | O, _ => s
  | S n', String _ s' => drop n' s'
  | S _, EmptyString => EmptyString
  end.

(** [s[:n]] *)
Fixpoint take (n : nat) (s : string) : string :=
  match n, s with
  | O, _ => EmptyString
  | S n', String c s' => String c (take n' s')
  | S _, EmptyString => EmptyString
  end.

(** ** Errors

    Go's [error] values, by the type that implements them. *)

(** The message of a [*time.ParseError], structured instead of formatted. *)
Inductive parse_message :=
| msg_none
| msg_extra_text (value : string)
| msg_out_of_range (what : string).

(** The cause wrapped in a [*url.Error]. *)
Inductive url_cause :=
| url_errorString (msg : string)
| url_EscapeError (s : string)
| url_InvalidHostError (s : string)
| url_invalid_port (colonPort : string).

(** Errors of [encoding/json] and of the reader below it. *)
Inductive json_cause :=
| json_SyntaxError (msg : string)
| json_UnmarshalTypeError (value : string) (type : string)
| io_EOF
| io_ErrUnexpectedEOF.

Inductive error :=
| errors_New (msg : string)
| url_Error (Op : string) (URL : string) (Err : url_cause)
| time_ParseError (Layout Value LayoutElem ValueElem : string)
                  (Message : parse_message)
| json_error (c : json_cause)
| other_error (descr : string).

Inductive result (A : Type) :=
| Ok (a : A)
| Err (e : error).
Arguments Ok {A} a.
Arguments Err {A} e.

(** ** Package [strings] *)

Module strings.

(** [strings.ReplaceAll(s, old, "")] for a one-byte [old]: every occurrence
    of the byte is deleted. *)
Fixpoint ReplaceAll_byte (s : string) (old : ascii) : string :=
  match s with
  | EmptyString => EmptyString
  | String c s' =>
      if Ascii.eqb c old then ReplaceAll_byte s' old
      else String c (ReplaceAll_byte s' old)
  end.

(** [strings.HasPrefix] *)
Fixpoint HasPrefix (s prefix : string) : bool :=
  match prefix, s with
  | EmptyString, _ => true
  | String p prefix', String c s' => Ascii.eqb c p && HasPrefix s' prefix'
  | String _ _, EmptyString => false
  end.

(** [strings.Index(s, substr)]: the index of the first instance of [substr]
    in [s], [None] for -1. *)
Fixpoint Index (s substr : string) : option nat :=
  if HasPrefix s substr then Some O
  else
    match s with
    | EmptyString => None
    | String _ s' => option_map S (Index s' substr)
    end.

(** [strings.LastIndex(s, substr)] for a one-byte [substr]. *)
Fixpoint LastIndex_byte (s : string) (c : ascii) : option nat :=
  match s with
  | EmptyString => None
  | String c0 s' =>
      match LastIndex_byte s' c with
      | Some i => Some (S i)
      | None => if Ascii.eqb c0 c then Some O else None
      end
  end.

(** [strings.Contains(s, substr)] *)
Definition Contains (s substr : string) : bool :=
  match Index s substr with Some _ => true | None => false end.

(** [strings.Count(s, substr)] for a one-byte [substr]. *)
Fixpoint Count_byte (s : string) (c : ascii) : Z :=
  match s with
  | EmptyString => 0
  | String c0 s' => (if Ascii.eqb c0 c then 1 else 0) + Count_byte s' c
  end.

(** [strings.Cut(s, sep)]: [s] around the first instance of [sep]. *)
Definition Cut (s sep : string) : string * string * bool :=
  match Index s sep with
  | Some i => (take i s, drop (i + String.length sep) s, true)
  | None => (s, EmptyString, false)
  end.

(** [strings.HasSuffix] *)
Definition HasSuffix (s suffix : string) : bool :=
  (String.length suffix <=? String.length s)%nat
  && String.eqb (drop (String.length s - String.length suffix) s) suffix.

(** [strings.TrimSuffix] *)
Definition TrimSuffix (s suffix : string) : string :=
  if HasSuffix s suffix
  then take (String.length s - String.length suffix) s
  else s.

(** [strings.ToLower] on ASCII letters; the other bytes are kept (the
    strings it is applied to here hold ASCII only). *)
Definition lower_byte (c : ascii) : ascii :=
  if (65 <=? byte_val c) && (byte_val c <=? 90)
  then byte_of (byte_val c + 32) else c.

Fixpoint ToLower (s : string) : string :=
  match s with
  | EmptyString => EmptyString
  | String c s' => String (lower_byte c) (ToLower s')
  end.

End strings.

(** ** Package [time]

    [time.Parse] and [Time.Format], as far as the layout ["20060102150405"]
    exercises them, with the calendar arithmetic of [time.Date] and
    [absDate] (Go 1.17 to 1.22). *)

Module time.

Definition secondsPerMinute : Z := 60.
Definition secondsPerHour : Z := 60 * secondsPerMinute.
Definition secondsPerDay : Z := 24 * secondsPerHour.
Definition daysPer400Years : Z := 365 * 400 + 97.
Definition daysPer100Years : Z := 365 * 100 + 24.
Definition daysPer4Years : Z := 365 * 4 + 1.

Definition absoluteZeroYear : Z := -292277022399.
Definition internalYear : Z := 1.
(** [(absoluteZeroYear - internalYear) * 365.2425 * secondsPerDay] *)
Definition absoluteToInternal : Z :=
  (absoluteZeroYear - internalYear) * 3652425 / 10000 * secondsPerDay.
Definition internalToAbsolute : Z := - absoluteToInternal.
Definition unixToInternal : Z :=
  (1969 * 365 + 1969 / 4 - 1969 / 100 + 1969 / 400) * secondsPerDay.
Definition internalToUnix : Z := - unixToInternal.

(** Conversions to [uint64] and [int64]. *)
Definition u64 (z : Z) : Z := z mod 2 ^ 64.
Definition i64 (z : Z) : Z := (z + 2 ^ 63) mod 2 ^ 64 - 2 ^ 63.

Inductive Location := UTC.

(** [Time] without a monotonic clock reading: [wall] holds the nanoseconds,
    [ext] the seconds since January 1, year 1. *)
Record Time := mkTime { wall : Z; ext : Z; loc : Location }.

(** [daysBefore[m]] counts the days in a non-leap year before month [m+1]. *)
Definition daysBefore (m : Z) : Z :=
  match m with
  | 0 => 0
  | 1 => 31
  | 2 => 31 + 28
  | 3 => 31 + 28 + 31
  | 4 => 31 + 28 + 31 + 30
  | 5 => 31 + 28 + 31 + 30 + 31
  | 6 => 31 + 28 + 31 + 30 + 31 + 30
  | 7 => 31 + 28 + 31 + 30 + 31 + 30 + 31
  | 8 => 31 + 28 + 31 + 30 + 31 + 30 + 31 + 31
  | 9 => 31 + 28 + 31 + 30 + 31 + 30 + 31 + 31 + 30
  | 10 => 31 + 28 + 31 + 30 + 31 + 30 + 31 + 31 + 30 + 31
  | 11 => 31 + 28 + 31 + 30 + 31 + 30 + 31 + 31 + 30 + 31 + 30
  | _ => 31 + 28 + 31 + 30 + 31 + 30 + 31 + 31 + 30 + 31 + 30 + 31
  end.

Definition February : Z := 2.
Definition March : Z := 3.

Definition isLeap (year : Z) : bool :=
  (Z.rem year 4 =? 0)
  && (negb (Z.rem year 100 =? 0) || (Z.rem year 400 =? 0)).

Definition daysIn (m : Z) (year : Z) : Z :=
  if (m =? February) && isLeap year then 29
  else daysBefore m - daysBefore (m - 1).

(** [norm] returns [nhi, nlo] such that [hi * base + lo == nhi * base + nlo]
    and [0 <= nlo < base]. *)
Definition norm (hi lo base : Z) : Z * Z :=
  let '(hi, lo) :=
    if lo <? 0 then
      let n := Z.quot (- lo - 1) base + 1 in (hi - n, lo + n * base)
    else (hi, lo) in
  if lo >=? base then
    let n := Z.quot lo base in (hi + n, lo - n * base)
  else (hi, lo).

(** [daysSinceEpoch] takes a year and returns the number of days from the
    absolute epoch to the start of that year. *)
Definition daysSinceEpoch (year : Z) : Z :=
  let y := u64 (year - absoluteZeroYear) in
  (* Add in days from 400-year cycles. *)
  let n := y / 400 in
  let y := y - 400 * n in
  let d := daysPer400Years * n in
  (* Add in 100-year cycles. *)
  let n := y / 100 in
  let y := y - 100 * n in
  let d := d + daysPer100Years * n in
  (* Add in 4-year cycles. *)
  let n := y / 4 in
  let y := y - 4 * n in
  let d := d + daysPer4Years * n in
  (* Add in non-leap years. *)
  let n := y in
  u64 (d + 365 * n).

Definition unixTime (sec nsec : Z) (l : Location) : Time :=
  mkTime (u64 nsec) (i64 (sec + unixToInternal)) l.

(** [time.Date] *)
Definition Date (year month day hour min sec nsec : Z) (l : Location)
  : Time :=
  (* Normalize month, overflowing into year. *)
  let m := month - 1 in
  let '(year, m) := norm year m 12 in
  let month := m + 1 in
  (* Normalize nsec, sec, min, hour, overflowing into day. *)
  let '(sec, nsec) := norm sec nsec 1000000000 in
  let '(min, sec) := norm min sec 60 in
  let '(hour, min) := norm hour min 60 in
  let '(day, hour) := norm day hour 24 in
  (* Compute days since the absolute epoch. *)
  let d := daysSinceEpoch year in
  (* Add in days before this month. *)
  let d := u64 (d + daysBefore (month - 1)) in
  let d := if isLeap year && (month >=? March) then u64 (d + 1) else d in
  (* Add in days before today. *)
  let d := u64 (d + u64 (day - 1)) in
  (* Add in time elapsed today. *)
  let abs := u64 (d * secondsPerDay) in
  let abs :=
    u64 (abs + u64 (hour * secondsPerHour + min * secondsPerMinute + sec)) in
  let unix := i64 (i64 abs + (absoluteToInternal + internalToUnix)) in
  unixTime unix nsec l.

Definition unixSec (t : Time) : Z := i64 (ext t + internalToUnix).

(** [Time.abs]: the time as an absolute time, adjusted by the zone offset
    (zero for UTC). *)
Definition abs (t : Time) : Z :=
  u64 (unixSec t + (unixToInternal + internalToAbsolute)).

(** [absDate] with [full = true]; returns [(year, month, day, yday)]. *)
Definition absDate (abs : Z) : Z * Z * Z * Z :=
  (* Split into time and day. *)
  let d := abs / secondsPerDay in
  (* Account for 400 year cycles. *)
  let n := d / daysPer400Years in
  let y := 400 * n in
  let d := d - daysPer400Years * n in
  (* Cut off 100-year cycles.  The last cycle has one extra leap year, so
     on the last day of that year d / daysPer100Years is 4. *)
  let n := d / daysPer100Years in
  let n := n - Z.shiftr n 2 in
  let y := y + 100 * n in
  let d := d - daysPer100Years * n in
  (* Cut off 4-year cycles. *)
  let n := d / daysPer4Years in
  let y := y + 4 * n in
  let d := d - daysPer4Years * n in
  (* Cut off years within a 4-year cycle. *)
  let n := d / 365 in
  let n := n - Z.shiftr n 2 in
  let y := y + n in
  let d := d - 365 * n in
  let year := i64 (i64 y + absoluteZeroYear) in
  let yday := d in
  let day := yday in
  let after_leap (day : Z) :=
    (* Estimate month on assumption that every month has 31 days.  The
       estimate may be too low by at most one month, so adjust. *)
    let month := Z.quot day 31 in
    let end_ := daysBefore (month + 1) in
    let '(month, begin_) :=
      if day >=? end_ then (month + 1, end_)
      else (month, daysBefore month) in
    let month := month + 1 in
    (year, month, day - begin_ + 1, yday) in
  if isLeap year then
    if day >? 31 + 29 - 1 then after_leap (day - 1)
    else if day =? 31 + 29 - 1 then (year, February, 29, yday)
    else after_leap day
  else after_leap day.

(** [absClock] *)
Definition absClock (abs : Z) : Z * Z * Z :=
  let sec := abs mod secondsPerDay in
  let hour := Z.quot sec secondsPerHour in
  let sec := sec - hour * secondsPerHour in
  let min := Z.quot sec secondsPerMinute in
  let sec := sec - min * secondsPerMinute in
  (hour, min, sec).

(** *** Parsing *)

(** ['0' <= c && c <= '9'] *)
Definition is_digit (c : ascii) : bool :=
  (48 <=? byte_val c) && (byte_val c <=? 57).

(** [c - '0'] *)
Definition dval (c : ascii) : Z := byte_val c - 48.

(** [isDigit(s, i)] reports whether [s[i]] is in range and is a decimal
    digit. *)
Definition isDigit (s : string) (i : nat) : bool :=
  match String.get i s with
  | Some c => is_digit c
  | None => false
  end.

Definition commaOrPeriod (c : ascii) : bool :=
  (byte_val c =? 46) || (byte_val c =? 44).

(** The digit value [s[i] - '0']. *)
Definition digit_at (s : string) (i : nat) : Z :=
  match String.get i s with
  | Some c => dval c
  | None => 0
  end.

(** [getnum] parses [s[0:1]] or [s[0:2]] (fixed forces the latter) as a
    decimal integer and returns the integer and the remainder of the
    string; [None] is [errBad]. *)
Definition getnum (s : string) (fixed : bool) : option (Z * string) :=
  if negb (isDigit s 0) then None
  else if negb (isDigit s 1) then
    if fixed then None else Some (digit_at s 0, drop 1 s)
  else Some (digit_at s 0 * 10 + digit_at s 1, drop 2 s).

(** [leadingInt] consumes the leading [0-9]* of [s]; [None] is
    [errLeadingInt], the overflow of the accumulator. *)
Fixpoint leadingInt_from (x : Z) (s : string) : option (Z * string) :=
  match s with
  | EmptyString => Some (x, s)
  | String c s' =>
      if negb (is_digit c) then Some (x, s)
      else if x >? 2 ^ 63 / 10 then None
      else
        let x := x * 10 + dval c in
        if x >? 2 ^ 63 then None else leadingInt_from x s'
  end.

Definition leadingInt (s : string) : option (Z * string) :=
  leadingInt_from 0 s.

(** [atoi]; [None] is [errAtoi]. *)
Definition atoi (s : string) : option Z :=
  let '(neg, s) :=
    match s with
    | String c s' =>
        if (byte_val c =? 45) || (byte_val c =? 43)
        then (byte_val c =? 45, s')
        else (false, s)
    | EmptyString => (false, s)
    end in
  match leadingInt s with
  | Some (q, EmptyString) =>
      let x := i64 q in Some (if neg then i64 (- x) else x)
  | _ => None
  end.

(** The outcome of [parseNanoseconds]. *)
Inductive nanos :=
| nanos_ok (ns : Z)
| nanos_range (what : string)
| nanos_bad.

Definition parseNanoseconds (value : string) (nbytes : nat) : nanos :=
  match value with
  | EmptyString => nanos_bad
  | String c0 _ =>
      if negb (commaOrPeriod c0) then nanos_bad
      else
        let '(value, nbytes) :=
          if (10 <? nbytes)%nat then (take 10 value, 10%nat)
          else (value, nbytes) in
        match atoi (take (nbytes - 1) (drop 1 value)) with
        | None => nanos_bad
        | Some ns =>
            if ns <? 0 then nanos_range "fractional second"
            else
              (* scale by the number of missing digits *)
              nanos_ok (ns * 10 ^ Z.of_nat (10 - nbytes))
        end
  end.

(** The chunks of a layout.  ["20060102150405"] splits, by [nextStdChunk],
    into the six chunks of [layout_20060102150405], each with an empty
    literal prefix and nothing after the last. *)
Inductive std :=
| stdLongYear      (* "2006" *)
| stdZeroMonth     (* "01" *)
| stdZeroDay       (* "02" *)
| stdHour          (* "15" *)
| stdZeroMinute    (* "04" *)
| stdZeroSecond.   (* "05" *)

Definition stdstr (s : std) : string :=
  match s with
  | stdLongYear => "2006"
  | stdZeroMonth => "01"
  | stdZeroDay => "02"
  | stdHour => "15"
  | stdZeroMinute => "04"
  | stdZeroSecond => "05"
  end.

Definition layout_20060102150405 : list std :=
  [stdLongYear; stdZeroMonth; stdZeroDay; stdHour; stdZeroMinute;
   stdZeroSecond].

(** The variables [Parse] fills in while it walks the layout. *)
Record fields := mkFields {
  f_year : Z; f_month : Z; f_day : Z;
  f_hour : Z; f_min : Z; f_sec : Z; f_nsec : Z
}.

Inductive chunk_result :=
| chunk_ok (f : fields) (value : string)
| chunk_range (what : string) (value : string)
| chunk_bad (hold : string).

(** The number of bytes of the fractional second: the separator and the
    digits that follow it ([n := 2; for ; n < len(value) && isDigit(value,
    n); n++]). *)
Fixpoint frac_len (fuel : nat) (value : string) (n : nat) : nat :=
  match fuel with
  | O => n
  | S fuel' =>
      if (Z.of_nat n <? len value) && isDigit value n
      then frac_len fuel' value (S n)
      else n
  end.

(** One turn of the loop of [Parse]: the [switch std & stdMask]. *)
Definition parse_chunk (s : std) (f : fields) (value : string)
  : chunk_result :=
  let hold := value in
  match s with
  | stdLongYear =>
      if (len value <? 4) || negb (isDigit value 0) then chunk_bad hold
      else
        match atoi (take 4 value) with
        | Some y =>
            chunk_ok (mkFields y (f_month f) (f_day f) (f_hour f)
                        (f_min f) (f_sec f) (f_nsec f)) (drop 4 value)
        | None => chunk_bad hold
        end
  | stdZeroMonth =>
      match getnum value true with
      | Some (m, value) =>
          if (m <=? 0) || (12 <? m) then chunk_range "month" value
          else
            chunk_ok (mkFields (f_year f) m (f_day f) (f_hour f)
                        (f_min f) (f_sec f) (f_nsec f)) value
      | None => chunk_bad hold
      end
  | stdZeroDay =>
      (* any two-digit day is allowed here; the month, day, year
         combination is validated after parsing *)
      match getnum value true with
      | Some (d, value) =>
          chunk_ok (mkFields (f_year f) (f_month f) d (f_hour f)
                      (f_min f) (f_sec f) (f_nsec f)) value
      | None => chunk_bad hold
      end
  | stdHour =>
      match getnum value false with
      | Some (h, value) =>
          if (h <? 0) || (24 <=? h) then chunk_range "hour" value
          else
            chunk_ok (mkFields (f_year f) (f_month f) (f_day f) h
                        (f_min f) (f_sec f) (f_nsec f)) value
      | None => chunk_bad hold
      end
  | stdZeroMinute =>
      match getnum value true with
      | Some (m, value) =>
          if (m <? 0) || (60 <=? m) then chunk_range "minute" value
          else
            chunk_ok (mkFields (f_year f) (f_month f) (f_day f) (f_hour f)
                        m (f_sec f) (f_nsec f)) value
      | None => chunk_bad hold
      end
  | stdZeroSecond =>
      match getnum value true with
      | Some (sec, value) =>
          if (sec <? 0) || (60 <=? sec) then chunk_range "second" value
          else
            let f := mkFields (f_year f) (f_month f) (f_day f) (f_hour f)
                       (f_min f) sec (f_nsec f) in
            (* Special case: do we have a fractional second but no
               fractional second in the format?  (The layout ends after
               this chunk, so the format has none.) *)
            match value with
            | String c0 _ =>
                if (2 <=? len value) && commaOrPeriod c0
                   && isDigit value 1 then
                  let n := frac_len (String.length value) value 2 in
                  match parseNanoseconds value n with
                  | nanos_ok ns =>
                      chunk_ok (mkFields (f_year f) (f_month f) (f_day f)
                                  (f_hour f) (f_min f) (f_sec f) ns)
                        (drop n value)
                  | nanos_range what => chunk_range what (drop n value)
                  | nanos_bad => chunk_bad hold
                  end
                else chunk_ok f value
            | EmptyString => chunk_ok f value
            end
      | None => chunk_bad hold
      end
  end.

(** The loop of [Parse] over the chunks of the layout. *)
Fixpoint parse_loop (alayout avalue : string) (layout : list std)
  (f : fields) (value : string) : result (fields * string) :=
  match layout with
  | [] =>
      if negb (len value =? 0) then
        Err (time_ParseError alayout avalue "" value (msg_extra_text value))
      else Ok (f, value)
  | s :: layout' =>
      match parse_chunk s f value with
      | chunk_ok f' value' => parse_loop alayout avalue layout' f' value'
      | chunk_range what value' =>
          Err (time_ParseError alayout avalue (stdstr s) value'
                 (msg_out_of_range what))
      | chunk_bad hold =>
          Err (time_ParseError alayout avalue (stdstr s) hold msg_none)
      end
  end.

(** [time.Parse("20060102150405", value)]: without zone information in
    the layout the time is interpreted as UTC. *)
Definition Parse_20060102150405 (value : string) : result Time :=
  let alayout := "20060102150405" in
  match parse_loop alayout value layout_20060102150405
          (mkFields 0 (-1) (-1) 0 0 0 0) value with
  | Err e => Err e
  | Ok (f, value') =>
      (* Validate the day of the month. *)
      if (f_day f <? 1) || (f_day f >? daysIn (f_month f) (f_year f)) then
        Err (time_ParseError alayout value "" value'
               (msg_out_of_range "day"))
      else
        Ok (Date (f_year f) (f_month f) (f_day f) (f_hour f) (f_min f)
              (f_sec f) (f_nsec f) UTC)
  end.

(** *** Formatting *)

(** The decimal digits of [u], least significant first ([buf] has room
    for 20). *)
Fixpoint digits_rev (fuel : nat) (u : Z) : list ascii :=
  match fuel with
  | O => []
  | S fuel' =>
      if u >=? 10 then
        let q := u / 10 in
        byte_of (48 + (u - q * 10)) :: digits_rev fuel' q
      else [byte_of (48 + u)]
  end.

Fixpoint zeros (n : nat) : string :=
  match n with
  | O => EmptyString
  | S n' => String "0" (zeros n')
  end.

(** [appendInt] appends the decimal form of [x] to [b], zero-padded to
    [width]. *)
Definition appendInt (b : string) (x : Z) (width : nat) : string :=
  let '(b, u) :=
    if x <? 0 then (String.append b "-", u64 (- x)) else (b, u64 x) in
  let ds := rev (digits_rev 20 u) in
  String.append b
    (String.append (zeros (width - List.length ds))
       (string_of_list_ascii ds)).

Definition format_chunk (b : string) (s : std)
  (date : Z * Z * Z * Z) (clock : Z * Z * Z) : string :=
  let '(year, month, day, _) := date in
  let '(hour, min, sec) := clock in
  match s with
  | stdLongYear => appendInt b year 4
  | stdZeroMonth => appendInt b month 2
  | stdZeroDay => appendInt b day 2
  | stdHour => appendInt b hour 2
  | stdZeroMinute => appendInt b min 2
  | stdZeroSecond => appendInt b sec 2
  end.

(** [t.Format("20060102150405")] *)
Definition Format_20060102150405 (t : Time) : string :=
  let a := abs t in
  fold_left (fun b s => format_chunk b s (absDate a) (absClock a))
    layout_20060102150405 EmptyString.

(** [t.Date()], [t.Clock()] and [t.Nanosecond()]. *)
Definition Time_Date (t : Time) : Z * Z * Z :=
  let '(year, month, day, _) := absDate (abs t) in (year, month, day).
Definition Time_Clock (t : Time) : Z * Z * Z := absClock (abs t).
Definition Time_Nanosecond (t : Time) : Z := Z.land (wall t) (2 ^ 30 - 1).

End time.

(** ** Package [net/url]

    [url.Parse] and [URL.String] (Go 1.19 to 1.22). *)

Module url.

Inductive encoding :=
| encodePath
| encodePathSegment
| encodeHost
| encodeZone
| encodeUserPassword
| encodeQueryComponent
| encodeFragment.

Definition encoding_eqb (a b : encoding) : bool :=
  match a, b with
  | encodePath, encodePath | encodePathSegment, encodePathSegment
  | encodeHost, encodeHost | encodeZone, encodeZone
  | encodeUserPassword, encodeUserPassword
  | encodeQueryComponent, encodeQueryComponent
  | encodeFragment, encodeFragment => true
  | _, _ => false
  end.

(** [c] is one of the bytes of [set]. *)
Fixpoint byte_in (c : ascii) (set : string) : bool :=
  match set with
  | EmptyString => false
  | String c0 set' => Ascii.eqb c c0 || byte_in c set'
  end.

Definition is_lower (c : ascii) : bool :=
  (97 <=? byte_val c) && (byte_val c <=? 122).
Definition is_upper (c : ascii) : bool :=
  (65 <=? byte_val c) && (byte_val c <=? 90).
Definition is_alnum (c : ascii) : bool :=
  is_lower c || is_upper c || time.is_digit c.

Definition ishex (c : ascii) : bool :=
  time.is_digit c
  || ((97 <=? byte_val c) && (byte_val c <=? 102))
  || ((65 <=? byte_val c) && (byte_val c <=? 70)).

Definition unhex (c : ascii) : Z :=
  if time.is_digit c then byte_val c - 48
  else if (97 <=? byte_val c) && (byte_val c <=? 102)
       then byte_val c - 97 + 10
  else if (65 <=? byte_val c) && (byte_val c <=? 70)
       then byte_val c - 65 + 10
  else 0.

(** [shouldEscape] reports whether the byte must be escaped when it appears
    in the given part of a URL. *)
Definition shouldEscape (c : ascii) (mode : encoding) : bool :=
  (* §2.3 Unreserved characters (alphanum) *)
  if is_alnum c then false
  else if (encoding_eqb mode encodeHost || encoding_eqb mode encodeZone)
          && (byte_in c "!$&'()*+,;=:[]<>" || Ascii.eqb c dquote)
  then
    (* §3.2.2 Host allows sub-delims, the colon, square and angle
       brackets, and the double quote *)
    false
  else if byte_in c "-_.~" then
    (* §2.3 Unreserved characters (mark) *)
    false
  else if byte_in c "$&+,/:;=?@" then
    (* §2.2 Reserved characters (reserved) *)
    match mode with
    | encodePath => Ascii.eqb c "?"
    | encodePathSegment => byte_in c "/;,?"
    | encodeUserPassword => byte_in c "@/?:"
    | encodeQueryComponent => true
    | encodeFragment => false
    | encodeHost | encodeZone => true
    end
  else if encoding_eqb mode encodeFragment && byte_in c "!()*" then false
  else
    (* Everything else must be escaped. *)
    true.

(** The first pass of [unescape]: check that the [%] escapes are
    well-formed; [Some] is the error returned. *)
Fixpoint unescape_check (s : string) (mode : encoding) : option url_cause :=
  match s with
  | EmptyString => None
  | String c rest =>
      if Ascii.eqb c "%" then
        match rest with
        | String h1 (String h2 rest') =>
            if negb (ishex h1) || negb (ishex h2) then
              Some (url_EscapeError (take 3 s))
            else if encoding_eqb mode encodeHost && (unhex h1 <? 8)
                    && negb (String.eqb (take 3 s) "%25") then
              (* in the host component %-encoding can only be used for
                 non-ASCII bytes, and %25 for a percent sign in IPv6
                 scoped-address literals *)
              Some (url_EscapeError (take 3 s))
            else if encoding_eqb mode encodeZone
                    && negb (String.eqb (take 3 s) "%25")
                    && negb (unhex h1 * 16 + unhex h2 =? 32)
                    && shouldEscape (byte_of (unhex h1 * 16 + unhex h2))
                         encodeHost then
              Some (url_EscapeError (take 3 s))
            else unescape_check rest' mode
        | _ => Some (url_EscapeError (take 3 s))
        end
      else if negb (Ascii.eqb c "+")
              && (encoding_eqb mode encodeHost
                  || encoding_eqb mode encodeZone)
              && (byte_val c <? 128) && shouldEscape c encodeHost then
        Some (url_InvalidHostError (String c EmptyString))
      else unescape_check rest mode
  end.

(** The second pass of [unescape]: replace each [%AB] by the byte 0xAB (and
    [+] by a space in a query component). *)
Fixpoint unescape_bytes (s : string) (mode : encoding) : string :=
  match s with
  | EmptyString => EmptyString
  | String c rest =>
      if Ascii.eqb c "%" then
        match rest with
        | String h1 (String h2 rest') =>
            String (byte_of (unhex h1 * 16 + unhex h2))
              (unescape_bytes rest' mode)
        | _ => s
        end
      else if Ascii.eqb c "+" && encoding_eqb mode encodeQueryComponent then
        String " " (unescape_bytes rest mode)
      else String c (unescape_bytes rest mode)
  end.

(** [unescape] unescapes a string; the mode specifies which section of the
    URL string is being unescaped. *)
Definition unescape (s : string) (mode : encoding) : string + url_cause :=
  match unescape_check s mode with
  | Some e => inr e
  | None => inl (unescape_bytes s mode)
  end.

Definition upperhex (n : Z) : ascii :=
  if n <? 10 then byte_of (48 + n) else byte_of (65 + (n - 10)).

(** [escape] *)
Fixpoint escape (s : string) (mode : encoding) : string :=
  match s with
  | EmptyString => EmptyString
  | String c s' =>
      if Ascii.eqb c " " && encoding_eqb mode encodeQueryComponent then
        String "+" (escape s' mode)
      else if shouldEscape c mode then
        String "%" (String (upperhex (Z.shiftr (byte_val c) 4))
          (String (upperhex (Z.land (byte_val c) 15)) (escape s' mode)))
      else String c (escape s' mode)
  end.

(** [Userinfo] *)
Record Userinfo := mkUserinfo {
  username : string;
  password : string;
  passwordSet : bool
}.

(** [URL] *)
Record URL := mkURL {
  Scheme : string;
  Opaque : string;
  User : option Userinfo;
  Host : string;
  Path : string;
  RawPath : string;
  OmitHost : bool;
  ForceQuery : bool;
  RawQuery : string;
  Fragment : string;
  RawFragment : string
}.

(** [new(URL)] *)
Definition empty_URL : URL :=
  mkURL "" "" None "" "" "" false false "" "" "".

(** [getScheme]: [(scheme, path)] of [scheme:path], or the error
    ["missing protocol scheme"]; [i] is the index of the first byte of
    [s] in [rawURL]. *)
Fixpoint getScheme_loop (rawURL : string) (i : nat) (s : string)
  : (string * string) + url_cause :=
  match s with
  | EmptyString => inl (EmptyString, rawURL)
  | String c s' =>
      if is_lower c || is_upper c then getScheme_loop rawURL (S i) s'
      else if time.is_digit c || byte_in c "+-." then
        if (i =? 0)%nat then inl (EmptyString, rawURL)
        else getScheme_loop rawURL (S i) s'
      else if Ascii.eqb c ":" then
        if (i =? 0)%nat then inr (url_errorString "missing protocol scheme")
        else inl (take i rawURL, s')
      else
        (* we have encountered an invalid character, so there is no valid
           scheme *)
        inl (EmptyString, rawURL)
  end.

Definition getScheme (rawURL : string) : (string * string) + url_cause :=
  getScheme_loop rawURL O rawURL.

(** [stringContainsCTLByte] *)
Fixpoint stringContainsCTLByte (s : string) : bool :=
  match s with
  | EmptyString => false
  | String c s' =>
      (byte_val c <? 32) || (byte_val c =? 127) || stringContainsCTLByte s'
  end.

(** [validOptionalPort] reports whether [port] is either an empty string or
    matches [:[0-9]*]. *)
Fixpoint all_port_digits (s : string) : bool :=
  match s with
  | EmptyString => true
  | String c s' => time.is_digit c && all_port_digits s'
  end.

Definition validOptionalPort (port : string) : bool :=
  match port with
  | EmptyString => true
  | String c rest => Ascii.eqb c ":" && all_port_digits rest
  end.

(** [validUserinfo] *)
Fixpoint validUserinfo (s : string) : bool :=
  match s with
  | EmptyString => true
  | String r s' =>
      (is_alnum r || byte_in r "-._:~!$&'()*+,;=%@") && validUserinfo s'
  end.

(** [parseHost] *)
Definition parseHost (host : string) : string + url_cause :=
  let plain (host : string) := unescape host encodeHost in
  if strings.HasPrefix host "[" then
    (* Parse an IP-Literal in RFC 3986 and RFC 6874. *)
    match strings.LastIndex_byte host "]" with
    | None => inr (url_errorString "missing ']' in host")
    | Some i =>
        let colonPort := drop (i + 1) host in
        if negb (validOptionalPort colonPort) then
          inr (url_invalid_port colonPort)
        else
          (* %25 introduces the zone identifier *)
          match strings.Index (take i host) "%25" with
          | Some zone =>
              match unescape (take zone host) encodeHost with
              | inr e => inr e
              | inl host1 =>
                  match unescape (take (i - zone) (drop zone host))
                          encodeZone with
                  | inr e => inr e
                  | inl host2 =>
                      match unescape (drop i host) encodeHost with
                      | inr e => inr e
                      | inl host3 =>
                          inl (String.append host1
                                 (String.append host2 host3))
                      end
                  end
              end
          | None => plain host
          end
    end
  else
    match strings.LastIndex_byte host ":" with
    | Some i =>
        let colonPort := drop i host in
        if negb (validOptionalPort colonPort) then
          inr (url_invalid_port colonPort)
        else plain host
    | None => plain host
    end.

(** [parseAuthority] *)
Definition parseAuthority (authority : string)
  : (option Userinfo * string) + url_cause :=
  let i := strings.LastIndex_byte authority "@" in
  let host_part :=
    match i with
    | None => authority
    | Some i => drop (i + 1) authority
    end in
  match parseHost host_part with
  | inr e => inr e
  | inl host =>
      match i with
      | None => inl (None, host)
      | Some i =>
          let userinfo := take i authority in
          if negb (validUserinfo userinfo) then
            inr (url_errorString "net/url: invalid userinfo")
          else if negb (strings.Contains userinfo ":") then
            match unescape userinfo encodeUserPassword with
            | inr e => inr e
            | inl userinfo => inl (Some (mkUserinfo userinfo "" false), host)
            end
          else
            let '(username, password, _) := strings.Cut userinfo ":" in
            match unescape username encodeUserPassword with
            | inr e => inr e
            | inl username =>
                match unescape password encodeUserPassword with
                | inr e => inr e
                | inl password =>
                    inl (Some (mkUserinfo username password true), host)
                end
            end
      end
  end.

(** [(u *URL) setPath] sets the [Path] and [RawPath] fields. *)
Definition setPath (u : URL) (p : string) : URL + url_cause :=
  match unescape p encodePath with
  | inr e => inr e
  | inl path =>
      let rawPath :=
        if String.eqb p (escape path encodePath)
        then EmptyString (* Default encoding is fine. *)
        else p in
      inl (mkURL (Scheme u) (Opaque u) (User u) (Host u) path rawPath
             (OmitHost u) (ForceQuery u) (RawQuery u) (Fragment u)
             (RawFragment u))
  end.

(** [(u *URL) setFragment] *)
Definition setFragment (u : URL) (f : string) : URL + url_cause :=
  match unescape f encodeFragment with
  | inr e => inr e
  | inl frag =>
      let rawFragment :=
        if String.eqb f (escape frag encodeFragment)
        then EmptyString else f in
      inl (mkURL (Scheme u) (Opaque u) (User u) (Host u) (Path u)
             (RawPath u) (OmitHost u) (ForceQuery u) (RawQuery u) frag
             rawFragment)
  end.

(** [parse(rawURL, viaRequest = false)] *)
Definition parse (rawURL : string) : URL + url_cause :=
  if stringContainsCTLByte rawURL then
    inr (url_errorString "net/url: invalid control character in URL")
  else if String.eqb rawURL "*" then
    inl (mkURL "" "" None "" "*" "" false false "" "" "")
  else
    (* Split off possible leading "http:", "mailto:", etc. *)
    match getScheme rawURL with
    | inr e => inr e
    | inl (scheme, rest) =>
        let scheme := strings.ToLower scheme in
        let '(rest, forceQuery, rawQuery) :=
          if strings.HasSuffix rest "?"
             && (strings.Count_byte rest "?" =? 1)
          then (take (String.length rest - 1) rest, true, EmptyString)
          else
            let '(rest, rawQuery, _) := strings.Cut rest "?" in
            (rest, false, rawQuery) in
        let url :=
          mkURL scheme "" None "" "" "" false forceQuery rawQuery "" "" in
        if negb (strings.HasPrefix rest "/")
           && negb (String.eqb scheme "") then
          (* We consider rootless paths per RFC 3986 as opaque. *)
          inl (mkURL scheme rest None "" "" "" false forceQuery rawQuery
                 "" "")
        else if negb (strings.HasPrefix rest "/")
                && (let '(segment, _, _) := strings.Cut rest "/" in
                    strings.Contains segment ":") then
          (* First path segment has colon. Not allowed in relative URL. *)
          inr (url_errorString
                 "first path segment in URL cannot contain colon")
        else if (negb (String.eqb scheme "")
                 || negb (strings.HasPrefix rest "///"))
                && strings.HasPrefix rest "//" then
          let authority := drop 2 rest in
          let '(authority, rest) :=
            match strings.Index authority "/" with
            | Some i => (take i authority, drop i authority)
            | None => (authority, EmptyString)
            end in
          match parseAuthority authority with
          | inr e => inr e
          | inl (user, host) =>
              setPath
                (mkURL scheme "" user host "" "" false forceQuery rawQuery
                   "" "") rest
          end
        else if negb (String.eqb scheme "")
                && strings.HasPrefix rest "/" then
          (* OmitHost is set to true when rawURL has an empty host
             (authority). *)
          setPath
            (mkURL scheme "" None "" "" "" true forceQuery rawQuery "" "")
            rest
        else setPath url rest
    end.

(** [url.Parse] parses a raw url into a [URL] structure. *)
Definition Parse (rawURL : string) : result URL :=
  (* Cut off #frag *)
  let '(u, frag, _) := strings.Cut rawURL "#" in
  match parse u with
  | inr err => Err (url_Error "parse" u err)
  | inl url =>
      if String.eqb frag "" then Ok url
      else
        match setFragment url frag with
        | inr err => Err (url_Error "parse" rawURL err)
        | inl url => Ok url
        end
  end.

(** [validEncoded] reports whether [s] is a valid encoded path or fragment,
    according to mode. *)
Fixpoint validEncoded (s : string) (mode : encoding) : bool :=
  match s with
  | EmptyString => true
  | String c s' =>
      (byte_in c "!$&'()*+,;=:@[]%" || negb (shouldEscape c mode))
      && validEncoded s' mode
  end.

(** [(u *URL) EscapedPath] *)
Definition EscapedPath (u : URL) : string :=
  let fallback :=
    if String.eqb (Path u) "*" then "*" (* don't escape *)
    else escape (Path u) encodePath in
  if negb (String.eqb (RawPath u) "") && validEncoded (RawPath u) encodePath
  then
    match unescape (RawPath u) encodePath with
    | inl p => if String.eqb p (Path u) then RawPath u else fallback
    | inr _ => fallback
    end
  else fallback.

(** [(u *URL) EscapedFragment] *)
Definition EscapedFragment (u : URL) : string :=
  let fallback := escape (Fragment u) encodeFragment in
  if negb (String.eqb (RawFragment u) "")
     && validEncoded (RawFragment u) encodeFragment
  then
    match unescape (RawFragment u) encodeFragment with
    | inl f => if String.eqb f (Fragment u) then RawFragment u else fallback
    | inr _ => fallback
    end
  else fallback.

(** [(u *Userinfo) String] *)
Definition Userinfo_String (u : Userinfo) : string :=
  let s := escape (username u) encodeUserPassword in
  if passwordSet u
  then String.append s
         (String.append ":" (escape (password u) encodeUserPassword))
  else s.

(** [(u *URL) String] reassembles the URL into a valid URL string. *)
Definition URL_String (u : URL) : string :=
  let buf :=
    if negb (String.eqb (Scheme u) "")
    then String.append (Scheme u) ":" else EmptyString in
  let buf :=
    if negb (String.eqb (Opaque u) "") then String.append buf (Opaque u)
    else
      let buf :=
        if negb (String.eqb (Scheme u) "") || negb (String.eqb (Host u) "")
           || (match User u with Some _ => true | None => false end)
        then
          if OmitHost u && String.eqb (Host u) ""
             && (match User u with Some _ => false | None => true end)
          then buf (* omit empty host *)
          else
            let buf :=
              if negb (String.eqb (Host u) "")
                 || negb (String.eqb (Path u) "")
                 || (match User u with Some _ => true | None => false end)
              then String.append buf "//" else buf in
            let buf :=
              match User u with
              | Some ui =>
                  String.append buf (String.append (Userinfo_String ui) "@")
              | None => buf
              end in
            if negb (String.eqb (Host u) "")
            then String.append buf (escape (Host u) encodeHost)
            else buf
        else buf in
      let path := EscapedPath u in
      let buf :=
        if negb (String.eqb path "") && negb (strings.HasPrefix path "/")
           && negb (String.eqb (Host u) "")
        then String.append buf "/" else buf in
      let buf :=
        if String.eqb buf "" then
          (* a relative path whose first segment has a colon *)
          let '(segment, _, _) := strings.Cut path "/" in
          if strings.Contains segment ":"
          then String.append buf "./" else buf
        else buf in
      String.append buf path in
  let buf :=
    if ForceQuery u || negb (String.eqb (RawQuery u) "")
    then String.append (String.append buf "?") (RawQuery u) else buf in
  if negb (String.eqb (Fragment u) "")
  then String.append (String.append buf "#") (EscapedFragment u)
  else buf.

End url.

(** ** Package [encoding/json]

    The scanner of JSON values, and [Decoder.Decode] into a
    [[]*RevisionHash].  Decoding into the struct types of the protocol is a
    parameter of the client (see [api]). *)

Module json.

(** A scanned JSON value; a string keeps its literal between the quotes. *)
#[warnings="-register-all"]
Inductive value :=
| Null
| Bool (b : bool)
| Number (lit : string)
| JString (raw : string)
| Array (elems : list value)
| Object (members : list (string * value)).

(** The outcome of scanning a prefix of the input. *)
Inductive scan (A : Type) :=
| scanned (a : A) (rest : string)
| syntax_error (msg : string)
| unexpected_end.
Arguments scanned {A} a rest.
Arguments syntax_error {A} msg.
Arguments unexpected_end {A}.

(** This limits the max nesting depth to prevent stack overflow. *)
Definition maxNestingDepth : Z := 10000.

Definition isSpace (c : ascii) : bool :=
  (byte_val c <=? 32)
  && ((byte_val c =? 32) || (byte_val c =? 9) || (byte_val c =? 13)
      || (byte_val c =? 10)).

Fixpoint skip_space (s : string) : string :=
  match s with
  | String c s' => if isSpace c then skip_space s' else s
  | EmptyString => s
  end.

(** Four hexadecimal digits and their value. *)
Definition hex4 (s : string) : option (Z * string) :=
  match s with
  | String h1 (String h2 (String h3 (String h4 rest))) =>
      if url.ishex h1 && url.ishex h2 && url.ishex h3 && url.ishex h4
      then Some (((url.unhex h1 * 16 + url.unhex h2) * 16 + url.unhex h3)
                   * 16 + url.unhex h4, rest)
      else None
  | _ => None
  end.

(** The rest of a string literal, after its opening quote: the literal up
    to the closing quote, and what follows it. *)
Fixpoint scan_string (s : string) : scan string :=
  match s with
  | EmptyString => unexpected_end
  | String c s' =>
      if Ascii.eqb c dquote then scanned EmptyString s'
      else if Ascii.eqb c "\" then
        match s' with
        | EmptyString => unexpected_end
        | String e s'' =>
            if Ascii.eqb e dquote || url.byte_in e "\/bfnrt" then
              match scan_string s'' with
              | scanned lit rest => scanned (String c (String e lit)) rest
              | syntax_error msg => syntax_error msg
              | unexpected_end => unexpected_end
              end
            else if Ascii.eqb e "u" then
              match s'' with
              | String h1 (String h2 (String h3 (String h4 s4))) =>
                  if url.ishex h1 && url.ishex h2 && url.ishex h3
                     && url.ishex h4 then
                    match scan_string s4 with
                    | scanned lit rest =>
                        scanned
                          (String c (String e (String h1 (String h2
                             (String h3 (String h4 lit)))))) rest
                    | syntax_error msg => syntax_error msg
                    | unexpected_end => unexpected_end
                    end
                  else syntax_error "in \u hexadecimal character escape"
              | String h1 (String h2 (String h3 EmptyString)) =>
                  if url.ishex h1 && url.ishex h2 && url.ishex h3
                  then unexpected_end
                  else syntax_error "in \u hexadecimal character escape"
              | String h1 (String h2 EmptyString) =>
                  if url.ishex h1 && url.ishex h2 then unexpected_end
                  else syntax_error "in \u hexadecimal character escape"
              | String h1 EmptyString =>
                  if url.ishex h1 then unexpected_end
                  else syntax_error "in \u hexadecimal character escape"
              | EmptyString => unexpected_end
              end
            else syntax_error "in string escape code"
        end
      else if byte_val c <? 32 then syntax_error "in string literal"
      else
        match scan_string s' with
        | scanned lit rest => scanned (String c lit) rest
        | syntax_error msg => syntax_error msg
        | unexpected_end => unexpected_end
        end
  end.

(** A run of digits. *)
Fixpoint scan_digits (s : string) : string * string :=
  match s with
  | String c s' =>
      if time.is_digit c then
        let '(ds, rest) := scan_digits s' in (String c ds, rest)
      else (EmptyString, s)
  | EmptyString => (EmptyString, s)
  end.

(** The exponent of a number, if any, after its integer part and
    fraction. *)
Definition scan_exponent (s : string) : scan string :=
  match s with
  | String e s' =>
      if url.byte_in e "eE" then
        let '(sign, s'') :=
          match s' with
          | String g t =>
              if url.byte_in g "+-" then (String g EmptyString, t)
              else (EmptyString, s')
          | EmptyString => (EmptyString, s')
          end in
        match s'' with
        | EmptyString => unexpected_end
        | String d _ =>
            if time.is_digit d then
              let '(ds, rest) := scan_digits s'' in
              scanned (String e (String.append sign ds)) rest
            else syntax_error "in exponent of numeric literal"
        end
      else scanned EmptyString s
  | EmptyString => scanned EmptyString s
  end.

(** The fraction and exponent of a number, after its integer part. *)
Definition scan_fraction (s : string) : scan string :=
  match s with
  | String dot s' =>
      if Ascii.eqb dot "." then
        match s' with
        | EmptyString => unexpected_end
        | String d _ =>
            if time.is_digit d then
              let '(ds, rest) := scan_digits s' in
              match scan_exponent rest with
              | scanned ex rest' =>
                  scanned (String dot (String.append ds ex)) rest'
              | syntax_error msg => syntax_error msg
              | unexpected_end => unexpected_end
              end
            else syntax_error "after decimal point in numeric literal"
        end
      else scan_exponent s
  | EmptyString => scanned EmptyString s
  end.

(** A number without its sign: [0] or a run of digits that does not start
    with [0], then the fraction and exponent. *)
Definition scan_unsigned (s : string) : scan string :=
  match s with
  | EmptyString => unexpected_end
  | String c s' =>
      if Ascii.eqb c "0" then
        match scan_fraction s' with
        | scanned fr rest => scanned (String c fr) rest
        | syntax_error msg => syntax_error msg
        | unexpected_end => unexpected_end
        end
      else if time.is_digit c then
        let '(ds, rest) := scan_digits s in
        match scan_fraction rest with
        | scanned fr rest' => scanned (String.append ds fr) rest'
        | syntax_error msg => syntax_error msg
        | unexpected_end => unexpected_end
        end
      else syntax_error "in numeric literal"
  end.

(** The rest of the literals [true], [false] and [null]. *)
Fixpoint scan_literal (expected : string) (s : string) : scan unit :=
  match expected with
  | EmptyString => scanned tt s
  | String e expected' =>
      match s with
      | EmptyString => unexpected_end
      | String c s' =>
          if Ascii.eqb c e then scan_literal expected' s'
          else syntax_error "in literal"
      end
  end.

(** A value, the elements of an array after its first, and the members of
    an object after its first; [depth] counts the arrays and objects that
    are open. *)
Fixpoint scan_value (fuel : nat) (depth : Z) (s : string) {struct fuel}
  : scan value :=
  match fuel with
  | O => unexpected_end
  | S fuel' =>
      match skip_space s with
      | EmptyString => unexpected_end
      | String c s' =>
          if Ascii.eqb c "[" then
            if maxNestingDepth <? depth + 1
            then syntax_error "exceeded max depth"
            else
              match skip_space s' with
              | EmptyString => unexpected_end
              | String c1 s1 =>
                  if Ascii.eqb c1 "]" then scanned (Array []) s1
                  else
                    match scan_value fuel' (depth + 1) s' with
                    | scanned v rest =>
                        match scan_elements fuel' (depth + 1) rest with
                        | scanned vs rest' => scanned (Array (v :: vs)) rest'
                        | syntax_error msg => syntax_error msg
                        | unexpected_end => unexpected_end
                        end
                    | syntax_error msg => syntax_error msg
                    | unexpected_end => unexpected_end
                    end
              end
          else if Ascii.eqb c "{" then
            if maxNestingDepth <? depth + 1
            then syntax_error "exceeded max depth"
            else
              match skip_space s' with
              | EmptyString => unexpected_end
              | String c1 s1 =>
                  if Ascii.eqb c1 "}" then scanned (Object []) s1
                  else
                    match scan_member fuel' (depth + 1) s' with
                    | scanned m rest =>
                        match scan_members fuel' (depth + 1) rest with
                        | scanned ms rest' =>
                            scanned (Object (m :: ms)) rest'
                        | syntax_error msg => syntax_error msg
                        | unexpected_end => unexpected_end
                        end
                    | syntax_error msg => syntax_error msg
                    | unexpected_end => unexpected_end
                    end
              end
          else if Ascii.eqb c dquote then
            match scan_string s' with
            | scanned lit rest => scanned (JString lit) rest
            | syntax_error msg => syntax_error msg
            | unexpected_end => unexpected_end
            end
          else if Ascii.eqb c "-" then
            match scan_unsigned s' with
            | scanned lit rest => scanned (Number (String c lit)) rest
            | syntax_error msg => syntax_error msg
            | unexpected_end => unexpected_end
            end
          else if time.is_digit c then
            match scan_unsigned (String c s') with
            | scanned lit rest => scanned (Number lit) rest
            | syntax_error msg => syntax_error msg
            | unexpected_end => unexpected_end
            end
          else if Ascii.eqb c "t" then
            match scan_literal "rue" s' with
            | scanned _ rest => scanned (Bool true) rest
            | syntax_error msg => syntax_error msg
            | unexpected_end => unexpected_end
            end
          else if Ascii.eqb c "f" then
            match scan_literal "alse" s' with
            | scanned _ rest => scanned (Bool false) rest
            | syntax_error msg => syntax_error msg
            | unexpected_end => unexpected_end
            end
          else if Ascii.eqb c "n" then
            match scan_literal "ull" s' with
            | scanned _ rest => scanned Null rest
            | syntax_error msg => syntax_error msg
            | unexpected_end => unexpected_end
            end
          else syntax_error "looking for beginning of value"
      end
  end

with scan_elements (fuel : nat) (depth : Z) (s : string) {struct fuel}
  : scan (list value) :=
  match fuel with
  | O => unexpected_end
  | S fuel' =>
      match skip_space s with
      | EmptyString => unexpected_end
      | String c s' =>
          if Ascii.eqb c "]" then scanned [] s'
          else if Ascii.eqb c "," then
            match scan_value fuel' depth s' with
            | scanned v rest =>
                match scan_elements fuel' depth rest with
                | scanned vs rest' => scanned (v :: vs) rest'
                | syntax_error msg => syntax_error msg
                | unexpected_end => unexpected_end
                end
            | syntax_error msg => syntax_error msg
            | unexpected_end => unexpected_end
            end
          else syntax_error "after array element"
      end
  end

with scan_member (fuel : nat) (depth : Z) (s : string) {struct fuel}
  : scan (string * value) :=
  match fuel with
  | O => unexpected_end
  | S fuel' =>
      match skip_space s with
      | EmptyString => unexpected_end
      | String c s' =>
          if Ascii.eqb c dquote then
            match scan_string s' with
            | scanned key rest =>
                match skip_space rest with
                | EmptyString => unexpected_end
                | String c1 s1 =>
                    if Ascii.eqb c1 ":" then
                      match scan_value fuel' depth s1 with
                      | scanned v rest' => scanned (key, v) rest'
                      | syntax_error msg => syntax_error msg
                      | unexpected_end => unexpected_end
                      end
                    else syntax_error "after object key"
                end
            | syntax_error msg => syntax_error msg
            | unexpected_end => unexpected_end
            end
          else syntax_error "looking for beginning of object key string"
      end
  end

with scan_members (fuel : nat) (depth : Z) (s : string) {struct fuel}
  : scan (list (string * value)) :=
  match fuel with
  | O => unexpected_end
  | S fuel' =>
      match skip_space s with
      | EmptyString => unexpected_end
      | String c s' =>
          if Ascii.eqb c "}" then scanned [] s'
          else if Ascii.eqb c "," then
            match scan_member fuel' depth s' with
            | scanned m rest =>
                match scan_members fuel' depth rest with
                | scanned ms rest' => scanned (m :: ms) rest'
                | syntax_error msg => syntax_error msg
                | unexpected_end => unexpected_end
                end
            | syntax_error msg => syntax_error msg
            | unexpected_end => unexpected_end
            end
          else syntax_error "after object key:value pair"
      end
  end.

(** [Decoder.readValue] on a stream that delivers [body] and then ends:
    the first JSON value of the stream; what follows it is left in the
    buffer.  Each step of the scanner consumes a byte, so the length of the
    body bounds the recursion. *)
Definition readValue (body : string) : result value :=
  match skip_space body with
  | EmptyString => Err (json_error io_EOF)
  | _ =>
      match scan_value (S (String.length body)) 0 body with
      | scanned v _ => Ok v
      | syntax_error msg => Err (json_error (json_SyntaxError msg))
      | unexpected_end => Err (json_error io_ErrUnexpectedEOF)
      end
  end.

(** *** Unquoting string literals *)

Definition byte_between (lo : Z) (c : ascii) (hi : Z) : bool :=
  (lo <=? byte_val c) && (byte_val c <=? hi).

(** [utf8.EncodeRune]; surrogates and values above U+10FFFF are written as
    U+FFFD. *)
Definition EncodeRune (r : Z) : string :=
  let r :=
    if (r <? 0) || (1114111 <? r) || ((55296 <=? r) && (r <=? 57343))
    then 65533 else r in
  if r <=? 127 then String (byte_of r) EmptyString
  else if r <=? 2047 then
    String (byte_of (192 + Z.shiftr r 6))
      (String (byte_of (128 + Z.land r 63)) EmptyString)
  else if r <=? 65535 then
    String (byte_of (224 + Z.shiftr r 12))
      (String (byte_of (128 + Z.land (Z.shiftr r 6) 63))
         (String (byte_of (128 + Z.land r 63)) EmptyString))
  else
    String (byte_of (240 + Z.shiftr r 18))
      (String (byte_of (128 + Z.land (Z.shiftr r 12) 63))
         (String (byte_of (128 + Z.land (Z.shiftr r 6) 63))
            (String (byte_of (128 + Z.land r 63)) EmptyString))).

(** The rune of a [\uXXXX] escape that is followed by [next]: a surrogate
    pair is one rune, and the number of bytes of [next] it takes is 6. *)
Definition u_escape (rr : Z) (next : string) : Z * bool :=
  if (55296 <=? rr) && (rr <? 57344) then
    (* utf16.IsSurrogate *)
    let rr1 :=
      match next with
      | String b (String u hex) =>
          if Ascii.eqb b "\" && Ascii.eqb u "u" then
            match hex4 hex with Some (r, _) => r | None => -1 end
          else -1
      | _ => -1
      end in
    if (rr <? 56320) && (56320 <=? rr1) && (rr1 <? 57344) then
      (* A valid pair; consume. *)
      ((rr - 55296) * 1024 + (rr1 - 56320) + 65536, true)
    else
      (* Invalid surrogate; fall back to replacement rune. *)
      (65533, false)
  else (rr, false).

(** The number of bytes of the UTF-8 encoding at the head of [s], 1 where
    it is not well-formed ([utf8.DecodeRune] then gives U+FFFD). *)
Definition rune_size (s : string) : nat * bool :=
  match s with
  | String c0 (String c1 rest1) =>
      let cont (c : ascii) := byte_between 128 c 191 in
      if byte_between 194 c0 223 && cont c1 then (2%nat, true)
      else
        match rest1 with
        | String c2 rest2 =>
            let second3 :=
              if byte_val c0 =? 224 then byte_between 160 c1 191
              else if byte_val c0 =? 237 then byte_between 128 c1 159
              else byte_between 225 c0 239 && cont c1 in
            if second3 && cont c2 then (3%nat, true)
            else
              match rest2 with
              | String c3 _ =>
                  let second4 :=
                    if byte_val c0 =? 240 then byte_between 144 c1 191
                    else if byte_val c0 =? 244 then byte_between 128 c1 143
                    else byte_between 241 c0 243 && cont c1 in
                  if second4 && cont c2 && cont c3 then (4%nat, true)
                  else (1%nat, false)
              | EmptyString => (1%nat, false)
              end
        | EmptyString => (1%nat, false)
        end
  | _ => (1%nat, false)
  end.

(** [unquoteBytes] on a scanned literal: escapes are replaced and the
    result is coerced to well-formed UTF-8.  [skip] counts the bytes still
    to pass over (of an escape already replaced) or to copy (of an encoding
    found well-formed). *)
Fixpoint unquote_from (skip : nat) (copy : bool) (s : string) : string :=
  match s with
  | EmptyString => EmptyString
  | String c s' =>
      match skip with
      | S skip' =>
          if copy then String c (unquote_from skip' copy s')
          else unquote_from skip' copy s'
      | O =>
          if Ascii.eqb c "\" then
            match s' with
            | String e s'' =>
                if Ascii.eqb e "u" then
                  match hex4 s'' with
                  | Some (rr, next) =>
                      let '(r, paired) := u_escape rr next in
                      String.append (EncodeRune r)
                        (unquote_from (if paired then 11 else 5) false s')
                  | None => EmptyString
                  end
                else
                  let b :=
                    if Ascii.eqb e "b" then byte_of 8
                    else if Ascii.eqb e "f" then byte_of 12
                    else if Ascii.eqb e "n" then byte_of 10
                    else if Ascii.eqb e "r" then byte_of 13
                    else if Ascii.eqb e "t" then byte_of 9
                    else e in
                  String b (unquote_from 1 false s')
            | EmptyString => EmptyString
            end
          else if byte_val c <? 128 then String c (unquote_from 0 false s')
          else
            let '(size, ok) := rune_size s in
            if ok then String c (unquote_from (size - 1) true s')
            else String.append (EncodeRune 65533) (unquote_from 0 false s')
      end
  end.

Definition unquote (lit : string) : string := unquote_from 0 false lit.

(** *** Decoding into a [[]*RevisionHash] *)

(** The name of the kind of a value in an [UnmarshalTypeError]. *)
Definition kind_name (v : value) : string :=
  match v with
  | Null => "null"
  | Bool _ => "bool"
  | Number _ => "number"
  | JString _ => "string"
  | Array _ => "array"
  | Object _ => "object"
  end.

(** One element into a [*RevisionHash] (a pointer to a string type):
    [null] is the nil pointer, a string is stored, every other value is a
    type error. *)
Definition unmarshal_hash (v : value) : result (option string) :=
  match v with
  | Null => Ok None
  | JString lit => Ok (Some (unquote lit))
  | _ =>
      Err (json_error
             (json_UnmarshalTypeError (kind_name v) "api.RevisionHash"))
  end.

(** The elements of an array in turn; the decoder goes on after a type
    error and reports the first one. *)
Fixpoint unmarshal_hashes (vs : list value)
  : result (list (option string)) :=
  match vs with
  | [] => Ok []
  | v :: vs' =>
      match unmarshal_hash v, unmarshal_hashes vs' with
      | Err e, _ => Err e
      | Ok _, Err e => Err e
      | Ok h, Ok hs => Ok (h :: hs)
      end
  end.

(** [json.NewDecoder(body).Decode(&r)] for [r] a [[]*RevisionHash]: the
    new value of [r], where [None] is the nil slice.  An array sets the
    slice to its elements (an empty array to an empty, non-nil slice),
    [null] sets it to nil, any other value is a type error. *)
Definition Decode_hashes (body : string)
  : result (option (list (option string))) :=
  match readValue body with
  | Err e => Err e
  | Ok (Array vs) =>
      match unmarshal_hashes vs with
      | Ok hs => Ok (Some hs)
      | Err e => Err e
      end
  | Ok Null => Ok None
  | Ok v =>
      Err (json_error
             (json_UnmarshalTypeError (kind_name v) "[]*api.RevisionHash"))
  end.

End json.

(** ** Package [net/http]

    Requests, responses and headers.  What [Client.Do] answers to a request
    is a parameter of the client (see [Client_Do]). *)

Module http.

Definition StatusOK : Z := 200.

(** [httpguts.IsTokenRune], [validHeaderFieldByte]: the bytes of an RFC 7230
    token. *)
Definition isToken (c : ascii) : bool :=
  url.is_alnum c || url.byte_in c "!#$%&'*+-.^_`|~".

Fixpoint all_token (s : string) : bool :=
  match s with
  | EmptyString => true
  | String c s' => isToken c && all_token s'
  end.

(** [validMethod] *)
Definition validMethod (method : string) : bool :=
  (0 <? len method) && all_token method.

(** The canonical form of a valid header key: the first letter and any
    letter following a hyphen are upper case, the rest are lower case. *)
Fixpoint canonical_from (upper : bool) (s : string) : string :=
  match s with
  | EmptyString => EmptyString
  | String c s' =>
      let c :=
        if upper && url.is_lower c then byte_of (byte_val c - 32)
        else if negb upper && url.is_upper c then byte_of (byte_val c + 32)
        else c in
      String c (canonical_from (Ascii.eqb c "-") s')
  end.

(** [textproto.CanonicalMIMEHeaderKey]: a key with a byte that is not
    valid in a header field is returned unchanged. *)
Definition CanonicalMIMEHeaderKey (s : string) : string :=
  if all_token s then canonical_from true s else s.

(** [Header] is a [map[string][]string]. *)
Definition Header : Type := list (string * list string).

(** [h[key]] *)
Fixpoint Header_lookup (h : Header) (key : string) : list string :=
  match h with
  | [] => []
  | (k, vs) :: h' => if String.eqb k key then vs else Header_lookup h' key
  end.

(** [h[key] = vs] *)
Fixpoint Header_store (h : Header) (key : string) (vs : list string)
  : Header :=
  match h with
  | [] => [(key, vs)]
  | (k, vs0) :: h' =>
      if String.eqb k key then (k, vs) :: h'
      else (k, vs0) :: Header_store h' key vs
  end.

(** [(h Header) Add] adds the key, value pair to the header; it appends to
    any existing values associated with key. *)
Definition Header_Add (h : Header) (key value : string) : Header :=
  let key := CanonicalMIMEHeaderKey key in
  Header_store h key (Header_lookup h key ++ [value])%list.

(** [(h Header) Values] *)
Definition Header_Values (h : Header) (key : string) : list string :=
  Header_lookup h (CanonicalMIMEHeaderKey key).

(** [Request], as far as the client fills it in. *)
Record Request := mkRequest {
  Method : string;
  URL : url.URL;
  Header_ : Header;
  Host : string
}.

(** [Response]; the body is what reading [Body] to its end delivers. *)
Record Response := mkResponse {
  StatusCode : Z;
  Body : string
}.

(** [Client]; the zero value is the default client. *)
Inductive Client := zero_Client.

(** [hasPort], [removeEmptyPort] *)
Definition hasPort (s : string) : bool :=
  match strings.LastIndex_byte s ":", strings.LastIndex_byte s "]" with
  | Some i, Some j => (j <? i)%nat
  | Some _, None => true
  | None, _ => false
  end.

Definition removeEmptyPort (host : string) : string :=
  if hasPort host then strings.TrimSuffix host ":" else host.

(** [http.NewRequest(method, url, nil)] *)
Definition NewRequest (method urlStr : string) : result Request :=
  let method := if String.eqb method "" then "GET" else method in
  if negb (validMethod method) then
    Err (other_error "net/http: invalid method")
  else
    match url.Parse urlStr with
    | Err err => Err err
    | Ok u =>
        (* The host's colon:port should be normalized. *)
        let host := removeEmptyPort (url.Host u) in
        let u :=
          url.mkURL (url.Scheme u) (url.Opaque u) (url.User u) host
            (url.Path u) (url.RawPath u) (url.OmitHost u)
            (url.ForceQuery u) (url.RawQuery u) (url.Fragment u)
            (url.RawFragment u) in
        Ok (mkRequest method u [] host)
    end.

(** [req.Header.Add(key, value)] *)
Definition Request_Header_Add (req : Request) (key value : string)
  : Request :=
  mkRequest (Method req) (URL req) (Header_Add (Header_ req) key value)
    (Host req).

End http.

(** ** [api/api.go]: the timestamp *)

(** [Timestamp] embeds a [time.Time]. *)
Record Timestamp := mkTimestamp { Time : time.Time }.

(** [(p *Timestamp) UnmarshalJSON(bytes)]: the new value of [*p] and the
    error returned. *)
Definition UnmarshalJSON (p : Timestamp) (bytes : string)
  : Timestamp * option error :=
  (* remove quotes and parse the timestamp using the reference time
     corresponding to the api endpoint format *)
  match time.Parse_20060102150405 (strings.ReplaceAll_byte bytes dquote) with
  | Err err => (p, Some err)
  | Ok t => (mkTimestamp t, None)
  end.

(** ** Effects

    What a function of the client does besides returning: the requests it
    sends and the lines it logs, in order, and whether it returns or
    panics. *)

Inductive event :=
| ev_request (req : http.Request)
| ev_log (err : error).

Inductive outcome (A : Type) :=
| returns (a : A)
| panics (v : string).
Arguments returns {A} a.
Arguments panics {A} v.

Definition M (A : Type) : Type := outcome A * list event.

Definition ret {A : Type} (a : A) : M A := (returns a, []).

Definition bind {A B : Type} (m : M A) (k : A -> M B) : M B :=
  match m with
  | (returns a, t) => let '(o, t') := k a in (o, (t ++ t')%list)
  | (panics v, t) => (panics v, t)
  end.

Notation "x <- m ;; k" := (bind m (fun x => k))
  (at level 61, m at next level, right associativity).
Notation "m ;;; k" := (bind m (fun _ => k))
  (at level 61, right associativity).

(** [panic(v)] *)
Definition panic {A : Type} (v : string) : M A := (panics v, []).

(** [log.Println(err)] *)
Definition log_Println (err : error) : M unit := (returns tt, [ev_log err]).

(** The result the function returned, and its trace. *)
Definition result_of {A : Type} (m : M A) : outcome A := fst m.
Definition trace {A : Type} (m : M A) : list event := snd m.

(** The requests among the events of a trace. *)
Fixpoint requests (t : list event) : list http.Request :=
  match t with
  | [] => []
  | ev_request req :: t' => req :: requests t'
  | ev_log _ :: t' => requests t'
  end.

(** ** [api/api.go] *)

(** API endpoint definitions *)
Definition endpoint_get_hash_chain_info : string :=
  "/data_accounting/get_hash_chain_info/".
Definition endpoint_get_revision_hashes : string :=
  "/data_accounting/get_revision_hashes/".
Definition endpoint_get_revision : string :=
  "/data_accounting/get_revision/".
Definition endpoint_get_server_info : string :=
  "/data_accounting/get_server_info".

(** [AquaProtocol] holds the endpoint specific parameters and
    authentication token for an API session. *)
Record AquaProtocol := mkAquaProtocol {
  apiClient : http.Client;
  apiEndpoint : string;
  authToken : string;
  server : string
}.

(** [ServerInfo] *)
Record ServerInfo := mkServerInfo { ApiVersion : string }.

(** [Namespace] *)
Record Namespace := mkNamespace {
  Namespace_Case : bool;
  Namespace_Title : string
}.

(** [SiteInfo]; [Namespaces] is a [map[int]*Namespace], here the list of
    its entries. *)
Record SiteInfo := mkSiteInfo {
  SiteName : string;
  DbName : string;
  Base : string;
  Generator : string;
  SiteInfo_Case : string;
  Namespaces : list (Z * option Namespace)
}.

(** [RevisionInfo] holds the api response to
    [endpoint_get_hash_chain_info]. *)
Record RevisionInfo := mkRevisionInfo {
  GenesisHash : string;
  CurrentRevision : string;
  RevisionInfo_DomainId : string;
  RevisionInfo_Content : string;
  LatestVerificationHash : string;
  RevisionInfo_SiteInfo : option SiteInfo;
  RevisionInfo_Title : string;
  RevisionInfo_Namespace : Z;
  ChainHeight : Z
}.

(** [VerificationContext] *)
Record VerificationContext := mkVerificationContext {
  HasPreviousSignature : bool;
  HasPreviousWitness : bool
}.

(** [ContentData] *)
Record ContentData := mkContentData {
  Main : string;
  TransclusionHashes : string
}.

(** [RevisionContent] *)
Record RevisionContent := mkRevisionContent {
  RevId : Z;
  RevisionContent_Content : option ContentData;
  ContentHash : string
}.

(** [RevisionMetadata] *)
Record RevisionMetadata := mkRevisionMetadata {
  RevisionMetadata_DomainId : string;
  RevisionMetadata_Timestamp : Timestamp;
  PreviousVerificationHash : string;
  MetadataHash : string;
  VerificationHash : string
}.

(** [RevisionHash] holds the response to [endpoint_get_revision_hashes]. *)
Definition RevisionHash : Type := string.

(** [RevisionSignature] *)
Record RevisionSignature := mkRevisionSignature {
  Signature : string;
  WalletAddress : string;
  SignatureHash : string
}.

(** [RevisionWitness] *)
Record RevisionWitness := mkRevisionWitness {
  DomainManifestGenesisHash : string;
  MerkleRoot : string;
  WitnessNetwork : string;
  Transaction : string;
  WitnessHash : string
}.

(** [RevisionMerkleTreeProof] has no fields. *)
Inductive RevisionMerkleTreeProof := mkRevisionMerkleTreeProof.

(** [Revision] holds the api response to [endpoint_get_revision]. *)
Record Revision := mkRevision {
  Revision_Context : option VerificationContext;
  Revision_Content : option RevisionContent;
  Revision_Metadata : option RevisionMetadata;
  Revision_Signature : option RevisionSignature;
  Revision_Witness : option RevisionWitness;
  MerkleTreeProof : option RevisionMerkleTreeProof
}.

(** [GetApiURL] returns the api endpoint base URL given a server
    hostname. *)
Definition GetApiURL (a : AquaProtocol) (path : string)
  : option url.URL * option error :=
  match url.Parse (String.append (apiEndpoint a) path) with
  | Err err => (None, Some err)
  | Ok u => (Some u, None)
  end.

(** [NewAPI] returns an initialized [AquaProtocol] using the server and
    authentication token. *)
Definition NewAPI (endpoint token : string)
  : option AquaProtocol * option error :=
  match url.Parse endpoint with
  | Err e => (None, Some e)
  | Ok _ =>
      (Some (mkAquaProtocol http.zero_Client endpoint token ""), None)
  end.

Section Client.

(** What [http.Client.Do] answers to a request: the response, or the error
    of the transport. *)
Variable network : http.Request -> result http.Response.

(** [json.NewDecoder(body).Decode(r)] for [r] a [*RevisionInfo], a
    [*Revision] and a [*ServerInfo]: the record decoded, or the error. *)
Variable Decode_RevisionInfo : string -> result RevisionInfo.
Variable Decode_Revision : string -> result Revision.
Variable Decode_ServerInfo : string -> result ServerInfo.

(** [(c *Client) Do(req)] sends the request. *)
Definition Client_Do (c : http.Client) (req : http.Request)
  : M (result http.Response) :=
  (returns (network req), [ev_request req]).

(** [fetch] makes a request with the Authorization token initialized for
    this api session and returns an [*http.Response] or error. *)
Definition fetch (a : AquaProtocol) (u : url.URL)
  : M (option http.Response * option error) :=
  match http.NewRequest "GET" (url.URL_String u) with
  | Err err => ret (None, Some err)
  | Ok req =>
      let req :=
        http.Request_Header_Add req "Content-Type" "application/json" in
      let req :=
        http.Request_Header_Add req "Authorization"
          (String.append "Bearer" (authToken a)) in
      r <- Client_Do (apiClient a) req ;;
      match r with
      | Err err => ret (None, Some err)
      | Ok resp =>
          if negb (http.StatusCode resp =? http.StatusOK) then
            ret (Some resp, Some (errors_New "Request Not 200 OK"))
          else ret (Some resp, None)
      end
  end.

(** The steps the four operations share: [GetApiURL], [fetch], and the
    decoding of the body, each with its [if err != nil { return nil, err }].
    A nil pointer where the code dereferences one is a panic. *)
Definition nil_dereference : string :=
  "runtime error: invalid memory address or nil pointer dereference".

(** [GetHashChainInfo] returns you all context for the requested
    hash_chain. *)
Definition GetHashChainInfo (a : AquaProtocol) (id_type id : string)
  : M (option RevisionInfo * option error) :=
  if negb (String.eqb id_type "genesis_hash")
     && negb (String.eqb id_type "title") then
    (* the return that follows the panic is never reached *)
    panic "wtf"
  else
    match GetApiURL a
            (String.append
               (String.append
                  (String.append endpoint_get_hash_chain_info id_type) "/")
               id) with
    | (_, Some err) => ret (None, Some err)
    | (None, None) => panic nil_dereference
    | (Some u, None) =>
        r <- fetch a u ;;
        match r with
        | (_, Some err) => ret (None, Some err)
        | (None, None) => panic nil_dereference
        | (Some resp, None) =>
            match Decode_RevisionInfo (http.Body resp) with
            | Err err => log_Println err ;;; ret (None, Some err)
            | Ok r => ret (Some r, None)
            end
        end
    end.

(** [GetRevisionHashes] returns the revision requested if it exists and or
    a list of any newer revision then the one requested.  The slice
    returned is [None] when it is nil. *)
Definition GetRevisionHashes (a : AquaProtocol) (verification_hash : string)
  : M (option (list (option RevisionHash)) * option error) :=
  match GetApiURL a
          (String.append endpoint_get_revision_hashes verification_hash) with
  | (_, Some err) => ret (None, Some err)
  | (None, None) => panic nil_dereference
  | (Some u, None) =>
      r <- fetch a u ;;
      match r with
      | (_, Some err) => ret (None, Some err)
      | (None, None) => panic nil_dereference
      | (Some resp, None) =>
          match json.Decode_hashes (http.Body resp) with
          | Err err => ret (None, Some err)
          | Ok r => ret (r, None)
          end
      end
  end.

(** [GetRevision] returns all data revision and revision verification
    data. *)
Definition GetRevision (a : AquaProtocol) (verification_hash : string)
  : M (option Revision * option error) :=
  match GetApiURL a
          (String.append endpoint_get_revision verification_hash) with
  | (_, Some err) => ret (None, Some err)
  | (None, None) => panic nil_dereference
  | (Some u, None) =>
      r <- fetch a u ;;
      match r with
      | (_, Some err) => ret (None, Some err)
      | (None, None) => panic nil_dereference
      | (Some resp, None) =>
          match Decode_Revision (http.Body resp) with
          | Err err => ret (None, Some err)
          | Ok r => ret (Some r, None)
          end
      end
  end.

(** [GetServerInfo] returns a serverInfo from the endpoint
    [endpoint_get_server_info]. *)
Definition GetServerInfo (a : AquaProtocol)
  : M (option ServerInfo * option error) :=
  match GetApiURL a endpoint_get_server_info with
  | (_, Some err) => ret (None, Some err)
  | (None, None) => panic nil_dereference
  | (Some u, None) =>
      r <- fetch a u ;;
      match r with
      | (_, Some err) => ret (None, Some err)
      | (None, None) => panic nil_dereference
      | (Some resp, None) =>
          match Decode_ServerInfo (http.Body resp) with
          | Err err => ret (None, Some err)
          | Ok s => ret (Some s, None)
          end
      end
  end.

End Client.

(** ** Notions of the statements and proofs about [time] *)

Module TimeSpec.
Import time.

(** Whether year [400 * N + 100 * a + 4 * b + c] after the absolute zero year
    (which is 1 modulo 400) is a leap year. *)
Definition leap_abc (a b c : Z) : bool :=
  (c =? 3) && (negb (b =? 24) || (a =? 3)).

(** [absDate], split into the cut-off of the years and the month and day of
    the year. *)
Definition cut (d : Z) : Z * Z :=
  let n := d / daysPer400Years in
  let y := 400 * n in
  let d := d - daysPer400Years * n in
  let n := d / daysPer100Years in
  let n := n - Z.shiftr n 2 in
  let y := y + 100 * n in
  let d := d - daysPer100Years * n in
  let n := d / daysPer4Years in
  let y := y + 4 * n in
  let d := d - daysPer4Years * n in
  let n := d / 365 in
  let n := n - Z.shiftr n 2 in
  let y := y + n in
  let d := d - 365 * n in
  (y, d).

Definition month_day (year yday : Z) : Z * Z * Z * Z :=
  let day := yday in
  let after_leap (day : Z) :=
    let month := Z.quot day 31 in
    let end_ := daysBefore (month + 1) in
    let '(month, begin_) :=
      if day >=? end_ then (month + 1, end_)
      else (month, daysBefore month) in
    let month := month + 1 in
    (year, month, day - begin_ + 1, yday) in
  if isLeap year then
    if day >? 31 + 29 - 1 then after_leap (day - 1)
    else if day =? 31 + 29 - 1 then (year, February, 29, yday)
    else after_leap day
  else after_leap day.

(** The day of the year of a date. *)
Definition yday_of (leap : bool) (month day : Z) : Z :=
  daysBefore (month - 1) + (if leap && (month >=? March) then 1 else 0)
  + (day - 1).

(** [daysIn] and the month and day of [absDate], by the leap flag of the
    year. *)
Definition daysIn' (leap : bool) (m : Z) : Z :=
  if (m =? February) && leap then 29 else daysBefore m - daysBefore (m - 1).

Definition month_day' (leap : bool) (yday : Z) : Z * Z :=
  let day := yday in
  let after_leap (day : Z) :=
    let month := Z.quot day 31 in
    let end_ := daysBefore (month + 1) in
    let '(month, begin_) :=
      if day >=? end_ then (month + 1, end_)
      else (month, daysBefore month) in
    let month := month + 1 in
    (month, day - begin_ + 1) in
  if leap then
    if day >? 31 + 29 - 1 then after_leap (day - 1)
    else if day =? 31 + 29 - 1 then (February, 29)
    else after_leap day
  else after_leap day.

(** The month and day of a day of the year past the leap day. *)
Definition after_leap (day : Z) : Z * Z :=
  let month := Z.quot day 31 in
  let end_ := daysBefore (month + 1) in
  let '(month, begin_) :=
    if day >=? end_ then (month + 1, end_)
    else (month, daysBefore month) in
  let month := month + 1 in
  (month, day - begin_ + 1).

(** The absolute time of a civil date and time of day. *)
Definition civil_abs (year month day hour min sec : Z) : Z :=
  (daysSinceEpoch year + yday_of (isLeap year) month day) * 86400
  + (hour * 3600 + min * 60 + sec).

Record civil_ok (year month day hour min sec nsec : Z) : Prop := {
  ok_year : 0 <= year <= 9999;
  ok_month : 1 <= month <= 12;
  ok_day : 1 <= day <= daysIn month year;
  ok_hour : 0 <= hour < 24;
  ok_min : 0 <= min < 60;
  ok_sec : 0 <= sec < 60;
  ok_nsec : 0 <= nsec < 1000000000
}.

(** The values of two and of four digits. *)
Definition two (c d : ascii) : Z := dval c * 10 + dval d.

Definition num4 (c0 c1 c2 c3 : ascii) : Z :=
  ((dval c0 * 10 + dval c1) * 10 + dval c2) * 10 + dval c3.

(** A string of digits and its value. *)
Fixpoint all_digits (s : string) : bool :=
  match s with
  | EmptyString => true
  | String c s' => is_digit c && all_digits s'
  end.

Fixpoint num_from (x : Z) (s : string) : Z :=
  match s with
  | EmptyString => x
  | String c s' => num_from (x * 10 + dval c) s'
  end.

Definition num (s : string) : Z := num_from 0 s.

(** The number of leading digits of a string. *)
Fixpoint span_digits (s : string) : nat :=
  match s with
  | String c s' => if is_digit c then S (span_digits s') else O
  | EmptyString => O
  end.

(** The nanoseconds of the fractional second that may follow the fourteen
    digits: a comma or period and one or more digits. *)
Definition frac_nanos (rest : string) : option Z :=
  match rest with
  | EmptyString => Some 0
  | String sep ds =>
      if commaOrPeriod sep && (0 <? len ds) && all_digits ds
      then Some (num (take 9 ds) * 10 ^ (9 - Z.min 9 (len ds)))
      else None
  end.

(** The second and nanosecond of [fields] set. *)
Definition set_sec (f : fields) (sec nsec : Z) : fields :=
  mkFields (f_year f) (f_month f) (f_day f) (f_hour f) (f_min f) sec nsec.

(** What a well-formed timestamp denotes: fourteen digits [YYYYMMDDHHMMSS]
    of a valid date and time of day, then nothing or a fractional second. *)
Definition stamp_time (s : string) : option Time :=
  match s with
  | String c0 (String c1 (String c2 (String c3 (String c4 (String c5
    (String c6 (String c7 (String c8 (String c9 (String c10 (String c11
    (String c12 (String c13 rest))))))))))))) =>
      if forallb is_digit
           [c0; c1; c2; c3; c4; c5; c6; c7; c8; c9; c10; c11; c12; c13]
      then
        let year := num4 c0 c1 c2 c3 in
        let month := two c4 c5 in
        let day := two c6 c7 in
        let hour := two c8 c9 in
        let min := two c10 c11 in
        let sec := two c12 c13 in
        match frac_nanos rest with
        | Some nsec =>
            if (1 <=? month) && (month <=? 12)
               && (1 <=? day) && (day <=? daysIn month year)
               && (hour <? 24) && (min <? 60) && (sec <? 60)
            then Some (Date year month day hour min sec nsec UTC)
            else None
        | None => None
        end
      else None
  | _ => None
  end.

(** The digit of a value below ten. *)
Definition dc (n : Z) : ascii := byte_of (48 + n).

End TimeSpec.

(** A JSON string token: the text between double quotes. *)
Definition quoted (s : string) : string :=
  String dquote (String.append s (String dquote EmptyString)).

(** ** Notions of the proofs about [net/url] *)

Module URLSpec.
Import url.

(** [parse], split where the query is cut off. *)
Definition split_query (rest : string) : string * bool * string :=
  if strings.HasSuffix rest "?" && (strings.Count_byte rest "?" =? 1)
  then (take (String.length rest - 1) rest, true, EmptyString)
  else
    let '(rest, rawQuery, _) := strings.Cut rest "?" in
    (rest, false, rawQuery).

Definition parse_tail (scheme rest : string) (forceQuery : bool)
  (rawQuery : string) : URL + url_cause :=
  let url :=
    mkURL scheme "" None "" "" "" false forceQuery rawQuery "" "" in
  if negb (strings.HasPrefix rest "/") && negb (String.eqb scheme "") then
    inl (mkURL scheme rest None "" "" "" false forceQuery rawQuery "" "")
  else if negb (strings.HasPrefix rest "/")
          && (let '(segment, _, _) := strings.Cut rest "/" in
              strings.Contains segment ":") then
    inr (url_errorString "first path segment in URL cannot contain colon")
  else if (negb (String.eqb scheme "")
           || negb (strings.HasPrefix rest "///"))
          && strings.HasPrefix rest "//" then
    let authority := drop 2 rest in
    let '(authority, rest) :=
      match strings.Index authority "/" with
      | Some i => (take i authority, drop i authority)
      | None => (authority, EmptyString)
      end in
    match parseAuthority authority with
    | inr e => inr e
    | inl (user, host) =>
        setPath
          (mkURL scheme "" user host "" "" false forceQuery rawQuery "" "")
          rest
    end
  else if negb (String.eqb scheme "") && strings.HasPrefix rest "/" then
    setPath (mkURL scheme "" None "" "" "" true forceQuery rawQuery "" "")
      rest
  else setPath url rest.

(** A string that starts with a slash. *)
Definition slashed (x : string) : Prop := exists t, x = String "/" t.

(** The outcome is an error. *)
Definition fails {A : Type} (r : A + url_cause) : Prop :=
  exists e, r = inr e.

End URLSpec.

(** ** Notions of the statements and proofs about the client *)

(** The request [fetch] sends for a request built by [http.NewRequest]:
    the two headers added. *)
Definition with_headers (a : AquaProtocol) (req : http.Request)
  : http.Request :=
  http.Request_Header_Add
    (http.Request_Header_Add req "Content-Type" "application/json")
    "Authorization" (String.append "Bearer" (authToken a)).

(** The steps the four operations share, from the path to the decoding of
    the body. *)
Definition via_fetch {A : Type}
  (network : http.Request -> result http.Response)
  (a : AquaProtocol) (path : string)
  (decode : string -> M (option A * option error))
  : M (option A * option error) :=
  match GetApiURL a path with
  | (_, Some err) => ret (None, Some err)
  | (None, None) => panic nil_dereference
  | (Some u, None) =>
      r <- fetch network a u ;;
      match r with
      | (_, Some err) => ret (None, Some err)
      | (None, None) => panic nil_dereference
      | (Some resp, None) => decode (http.Body resp)
      end
  end.

(** The decoding of a body that the operations end with. *)
Definition decoded {A : Type} (Decode : string -> result A) (body : string)
  : M (option A * option error) :=
  match Decode body with
  | Err err => ret (None, Some err)
  | Ok r => ret (Some r, None)
  end.

Definition decoded_logged {A : Type} (Decode : string -> result A)
  (body : string) : M (option A * option error) :=
  match Decode body with
  | Err err => log_Println err ;;; ret (None, Some err)
  | Ok r => ret (Some r, None)
  end.

Definition decoded_hashes (body : string)
  : M (option (list (option RevisionHash)) * option error) :=
  match json.Decode_hashes body with
  | Err err => ret (None, Some err)
  | Ok r => ret (r, None)
  end.

(** The operation returns the [*url.Error] of parsing [composed], with no
    value, and sends nothing. *)
Definition returns_url_error {A : Type} (composed : string)
  (m : M (option A * option error)) : Prop :=
  exists e u c,
    url.Parse composed = Err e /\ e = url_Error "parse" u c
    /\ m = (returns (None, Some e), []).

(** JSON white space only. *)
Fixpoint all_space (s : string) : bool :=
  match s with
  | EmptyString => true
  | String c s' => json.isSpace c && all_space s'
  end.

(** A client for the examples, and a server that answers every request
    with the given status and body. *)
Definition example_client : AquaProtocol :=
  mkAquaProtocol http.zero_Client "http://localhost:9352/rest.php" "s3cr3t"
    "".

Definition answers (status : Z) (body : string) (req : http.Request)
  : result http.Response :=
  Ok (http.mkResponse status body).

Definition no_RevisionInfo (body : string) : result RevisionInfo :=
  Err (other_error "not decoded").
Definition no_Revision (body : string) : result Revision :=
  Err (other_error "not decoded").
Definition no_ServerInfo (body : string) : result ServerInfo :=
  Err (other_error "not decoded").

(** The request the example client sends for a path of the service. *)
Definition example_request (path : string) : http.Request :=
  http.mkRequest "GET"
    (url.mkURL "http" "" None "localhost:9352" path "" false false "" "" "")
    [("Content-Type", ["application/json"]);
     ("Authorization", ["Bearers3cr3t"])]
    "localhost:9352".

(** A token with quotes around and inside it, for 2024-01-15 09:30:00. *)
Definition interior_quotes : string :=
  String.append (quoted "2024") (quoted "0115093000").

(** ** Notions of the further properties *)

(** The errors logged among the events of a trace. *)
Fixpoint logs (t : list event) : list error :=
  match t with
  | [] => []
  | ev_log err :: t' => err :: logs t'
  | ev_request _ :: t' => logs t'
  end.

(** The two headers of a request of the client. *)
Definition client_headers (a : AquaProtocol) : http.Header :=
  [("Content-Type", ["application/json"]);
   ("Authorization", [String.append "Bearer" (authToken a)])].

(** A byte that stands for itself in a JSON string literal: ASCII, not a
    control character, not the double quote and not the backslash. *)
Definition plain_byte (c : ascii) : bool :=
  (32 <=? byte_val c) && (byte_val c <? 128)
  && negb (byte_val c =? 34) && negb (byte_val c =? 92).

Fixpoint plain (s : string) : bool :=
  match s with
  | EmptyString => true
  | String c s' => plain_byte c && plain s'
  end.

(** The JSON text of a list of revision hashes, [None] for [null]. *)
Definition hash_text (h : option RevisionHash) : string :=
  match h with
  | Some s => quoted s
  | None => "null"
  end.

Fixpoint hashes_tail_text (hs : list (option RevisionHash)) : string :=
  match hs with
  | [] => "]"
  | h :: hs' => String.append "," (String.append (hash_text h)
                                     (hashes_tail_text hs'))
  end.

Definition hashes_text (hs : list (option RevisionHash)) : string :=
  match hs with
  | [] => "[]"
  | h :: hs' =>
      String.append "[" (String.append (hash_text h) (hashes_tail_text hs'))
  end.

Definition plain_hash (h : option RevisionHash) : bool :=
  match h with
  | Some s => plain s
  | None => true
  end.

(** The requests of a trace: none, or one GET request that carries the two
    headers of the client and no other. *)
Definition one_request_at_most (a : AquaProtocol) (t : list event) : Prop :=
  requests t = []
  \/ exists req,
       requests t = [req] /\ http.Method req = "GET"
       /\ http.Header_ req = client_headers a.

(** The pair an operation returns for what its decoder made of the body. *)
Definition verdict {A : Type} (r : result A) : option A * option error :=
  match r with
  | Ok v => (Some v, None)
  | Err err => (None, Some err)
  end.

Definition verdict_hashes (r : result (option (list (option RevisionHash))))
  : option (list (option RevisionHash)) * option error :=
  match r with
  | Ok hs => (hs, None)
  | Err err => (None, Some err)
  end.

(** A transport that refuses every request. *)
Definition refuses (e : error) (req : http.Request) : result http.Response :=
  Err e.

(** The scanned value of a revision hash. *)
Definition hash_value (h : option RevisionHash) : json.value :=
  match h with
  | Some s => json.JString s
  | None => json.Null
  end.

(** Where an operation goes: the string its URL is parsed from.  When that
    string does not parse the error is returned and nothing is sent, and a
    request that is sent is the GET request for it. *)
Definition goes_to {A : Type} (composed : string)
  (m : M (option A * option error)) : Prop :=
  (forall e,
     url.Parse composed = Err e -> m = (returns (None, Some e), []))
  /\ (forall req,
        In req (requests (trace m)) ->
        exists u req0,
          url.Parse composed = Ok u
          /\ http.NewRequest "GET" (url.URL_String u) = Ok req0
          /\ http.Method req = "GET"
          /\ http.URL req = http.URL req0
          /\ http.Host req = http.Host req0).

(** Strings all of whose bytes are of a kind. *)
Fixpoint all_bytes (p : ascii -> bool) (s : string) : bool :=
  match s with
  | EmptyString => true
  | String c s' => p c && all_bytes p s'
  end.

(** The bytes of a plain host name: letters, digits, the hyphen and the
    period; and of a plain path: letters, digits, the hyphen, the
    underscore, the period, the tilde and the slash. *)
Definition name_byte (c : ascii) : bool :=
  url.is_alnum c || url.byte_in c "-.".

Definition path_byte (c : ascii) : bool :=
  url.is_alnum c || url.byte_in c "-_.~/".

(** A scheme of lower-case letters, a host name, a port that is absent or a
    colon and digits, and a path that is empty or starts with a slash. *)
Definition plain_scheme (s : string) : bool :=
  negb (String.eqb s "") && all_bytes url.is_lower s.

Definition plain_name (s : string) : bool :=
  negb (String.eqb s "") && all_bytes name_byte s.

Definition plain_port (s : string) : bool :=
  match s with
  | EmptyString => true
  | String c ds =>
      Ascii.eqb c ":" && negb (String.eqb ds "") && all_bytes time.is_digit ds
  end.

Definition plain_path (s : string) : bool :=
  (String.eqb s "" || strings.HasPrefix s "/") && all_bytes path_byte s.

(** The URL [scheme://host/path] with nothing else set, and the request of
    the client for it. *)
Definition plain_URL (scheme host path : string) : url.URL :=
  url.mkURL scheme "" None host path "" false false "" "" "".

Definition plain_request (a : AquaProtocol) (scheme host path : string)
  : http.Request :=
  http.mkRequest "GET" (plain_URL scheme host path) (client_headers a) host.

(** The bytes that [unescape] and [escape] leave as they are in a part of a
    URL. *)
Definition kept_in (mode : url.encoding) (c : ascii) : bool :=
  negb (Ascii.eqb c "%") && negb (url.shouldEscape c mode).

(** The bytes of a plain URL: no control character and none of the
    delimiters of the query, the fragment, the user and an IP literal. *)
Definition no_delimiter (c : ascii) : bool :=
  negb ((byte_val c <? 32) || (byte_val c =? 127))
  && negb (url.byte_in c "?#@[]%").

(** The bytes of a query that [url.Parse] takes as it is: no control
    character and no number sign. *)
Definition query_byte (c : ascii) : bool :=
  negb ((byte_val c <? 32) || (byte_val c =? 127))
  && negb (Ascii.eqb c "#").

(** The URL [scheme://host/path?query] with nothing else set, and the
    request of the client for it. *)
Definition query_URL (scheme host path query : string) : url.URL :=
  url.mkURL scheme "" None host path "" false false query "" "".

Definition query_request (a : AquaProtocol)
  (scheme host path query : string) : http.Request :=
  http.mkRequest "GET" (query_URL scheme host path query) (client_headers a)
    host.

(** The text of a URL with a query. *)
Definition query_text (scheme name port p q : string) : string :=
  String.append scheme
    (String ":" (String "/" (String "/"
       (String.append (String.append (String.append name port) p)
          (String "?" q))))).

(* ===================================================================== *)
(** * Part II: properties                                                 *)
(* ===================================================================== *)





(** ** Calendar arithmetic, parsing and formatting in [time] *)

Module TimeFacts.
Import time TimeSpec.

(** *** Machine integers in range *)

Lemma u64_small z : 0 <= z < 2 ^ 64 -> u64 z = z.
Proof. intros H. unfold u64. apply Z.mod_small; exact H. Qed.

Lemma i64_small z : - 2 ^ 63 <= z < 2 ^ 63 -> i64 z = z.
Proof. intros H. unfold i64. rewrite Z.mod_small; lia. Qed.

Lemma i64_add_l a b : i64 (i64 a + b) = i64 (a + b).
Proof.
  unfold i64.
  replace (((a + 2 ^ 63) mod 2 ^ 64 - 2 ^ 63 + b + 2 ^ 63))
    with ((a + 2 ^ 63) mod 2 ^ 64 + b) by lia.
  rewrite Zplus_mod_idemp_l. f_equal. f_equal. lia.
Qed.

Lemma u64_i64_add a b : u64 (i64 a + b) = u64 (a + b).
Proof.
  unfold u64, i64.
  replace ((a + 2 ^ 63) mod 2 ^ 64 - 2 ^ 63 + b)
    with ((a + 2 ^ 63) mod 2 ^ 64 + (b - 2 ^ 63)) by lia.
  rewrite Zplus_mod_idemp_l. f_equal. lia.
Qed.

Lemma norm_id hi lo base : 0 <= lo < base -> norm hi lo base = (hi, lo).
Proof.
  intros H. unfold norm.
  destruct (lo <? 0) eqn:E1; [lia|].
  destruct (lo >=? base) eqn:E2; [lia|]. reflexivity.
Qed.

(** *** From days to years: the cut-off of whole years in [absDate] *)

Lemma cut_years N a b c yd :
  0 <= N -> 0 <= a < 4 -> 0 <= b < 25 -> 0 <= c < 4 ->
  0 <= yd < (if leap_abc a b c then 366 else 365) ->
  let d := 146097 * N + 36524 * a + 1461 * b + 365 * c + yd in
  let n1 := d / 146097 in
  let d1 := d - 146097 * n1 in
  let n2 := d1 / 36524 in
  let n2' := n2 - n2 / 4 in
  let d2 := d1 - 36524 * n2' in
  let n3 := d2 / 1461 in
  let d3 := d2 - 1461 * n3 in
  let n4 := d3 / 365 in
  let n4' := n4 - n4 / 4 in
  n1 = N /\ n2' = a /\ n3 = b /\ n4' = c /\ d3 - 365 * n4' = yd.
Proof.
  intros HN Ha Hb Hc Hyd. cbv zeta.
  assert (Hyd' : 0 <= yd < 366) by (destruct (leap_abc a b c); lia).
  assert (Hl : yd = 365 -> c = 3 /\ (b <> 24 \/ a = 3)).
  { intros E. unfold leap_abc in Hyd.
    destruct (c =? 3) eqn:E1; simpl in Hyd; [|lia].
    destruct (b =? 24) eqn:E2; simpl in Hyd; [|lia].
    destruct (a =? 3) eqn:E3; simpl in Hyd; lia. }
  clear Hyd.
  assert (E1 : (146097 * N + 36524 * a + 1461 * b + 365 * c + yd) / 146097 = N).
  { symmetry. apply Z.div_unique with (r := 36524 * a + 1461 * b + 365 * c + yd); lia. }
  rewrite E1.
  replace (146097 * N + 36524 * a + 1461 * b + 365 * c + yd - 146097 * N)
    with (36524 * a + 1461 * b + 365 * c + yd) by lia.
  set (d1 := 36524 * a + 1461 * b + 365 * c + yd).
  assert (E2 : d1 / 36524 - d1 / 36524 / 4 = a).
  { subst d1. Z.to_euclidean_division_equations. lia. }
  rewrite E2.
  replace (d1 - 36524 * a) with (1461 * b + 365 * c + yd) by (subst d1; lia).
  set (d2 := 1461 * b + 365 * c + yd).
  assert (E3 : d2 / 1461 = b).
  { subst d2. Z.to_euclidean_division_equations. lia. }
  rewrite E3.
  replace (d2 - 1461 * b) with (365 * c + yd) by (subst d2; lia).
  assert (E4 : (365 * c + yd) / 365 - (365 * c + yd) / 365 / 4 = c).
  { Z.to_euclidean_division_equations. lia. }
  rewrite E4. repeat split; lia.
Qed.

Lemma absDate_split a :
  absDate a =
    let '(y, d) := cut (a / secondsPerDay) in
    month_day (i64 (i64 y + absoluteZeroYear)) d.
Proof. unfold absDate, cut, month_day. cbv zeta. reflexivity. Qed.

Lemma cut_spec N a b c yd :
  0 <= N -> 0 <= a < 4 -> 0 <= b < 25 -> 0 <= c < 4 ->
  0 <= yd < (if leap_abc a b c then 366 else 365) ->
  cut (146097 * N + 36524 * a + 1461 * b + 365 * c + yd)
  = (400 * N + 100 * a + 4 * b + c, yd).
Proof.
  intros HN Ha Hb Hc Hyd.
  pose proof (cut_years N a b c yd HN Ha Hb Hc Hyd) as H. cbv zeta in H.
  destruct H as (E1 & E2 & E3 & E4 & E5).
  unfold cut. rewrite !Z.shiftr_div_pow2 by lia.
  change (2 ^ 2) with 4.
  change daysPer400Years with 146097. change daysPer100Years with 36524.
  change daysPer4Years with 1461.
  cbv zeta. rewrite E1 in *. rewrite E2 in *. rewrite E3 in *.
  rewrite E4 in *. rewrite E5. reflexivity.
Qed.

(** *** From the day of the year to month and day *)

Lemma month_day_eq year yday :
  month_day year yday =
    (year, fst (month_day' (isLeap year) yday),
     snd (month_day' (isLeap year) yday), yday).
Proof.
  unfold month_day, month_day'.
  destruct (isLeap year); cbv zeta.
  - destruct (yday >? 31 + 29 - 1).
    + destruct (yday - 1 >=? _); reflexivity.
    + destruct (yday =? 31 + 29 - 1); [reflexivity|].
      destruct (yday >=? _); reflexivity.
  - destruct (yday >=? _); reflexivity.
Qed.

Lemma months m : 1 <= m <= 12 ->
  m = 1 \/ m = 2 \/ m = 3 \/ m = 4 \/ m = 5 \/ m = 6 \/ m = 7 \/ m = 8
  \/ m = 9 \/ m = 10 \/ m = 11 \/ m = 12.
Proof. lia. Qed.

Ltac calc_days :=
  repeat match goal with
    | |- context [daysBefore ?x] =>
        let v := eval vm_compute in (daysBefore x) in
        change (daysBefore x) with v
    | |- context [daysIn' ?l ?x] =>
        let v := eval vm_compute in (daysIn' l x) in
        change (daysIn' l x) with v
    end.

Ltac each_month H :=
  let M := fresh "M" in
  pose proof (months _ H) as M;
  repeat (destruct M as [M|M]; [subst|]); [..|subst].

Lemma yday_bound leap month day :
  1 <= month <= 12 -> 1 <= day <= daysIn' leap month ->
  0 <= yday_of leap month day < (if leap then 366 else 365).
Proof.
  intros Hm. each_month Hm; destruct leap; calc_days;
    unfold yday_of; calc_days; vm_compute (andb _ _); lia.
Qed.

Lemma after_leap_spec m d :
  1 <= m <= 12 -> daysBefore (m - 1) <= d < daysBefore m ->
  after_leap d = (m, d - daysBefore (m - 1) + 1).
Proof.
  intros Hm. each_month Hm; calc_days; intros Hd.
  all: assert (Q : Z.quot d 31 = 0 \/ Z.quot d 31 = 1 \/ Z.quot d 31 = 2
                   \/ Z.quot d 31 = 3 \/ Z.quot d 31 = 4
                   \/ Z.quot d 31 = 5 \/ Z.quot d 31 = 6
                   \/ Z.quot d 31 = 7 \/ Z.quot d 31 = 8
                   \/ Z.quot d 31 = 9 \/ Z.quot d 31 = 10
                   \/ Z.quot d 31 = 11)
         by (Z.to_euclidean_division_equations; lia).
  all: repeat (destruct Q as [Q|Q]).
  all: try (exfalso; revert Q; Z.to_euclidean_division_equations; lia).
  all: unfold after_leap; rewrite Q; cbv zeta; calc_days.
  all: match goal with
       | |- context [?x >=? ?e] =>
           destruct (Z.geb_spec x e); try lia; f_equal; lia
       end.
Qed.

Lemma month_day'_spec leap month day :
  1 <= month <= 12 -> 1 <= day <= daysIn' leap month ->
  month_day' leap (yday_of leap month day) = (month, day).
Proof.
  intros Hm Hd.
  change (month_day' leap (yday_of leap month day))
    with (let yday := yday_of leap month day in
          if leap then
            if yday >? 31 + 29 - 1 then after_leap (yday - 1)
            else if yday =? 31 + 29 - 1 then (February, 29)
            else after_leap yday
          else after_leap yday).
  cbv zeta. revert Hd.
  destruct leap;
    each_month Hm; calc_days; unfold yday_of; calc_days;
    vm_compute (andb _ _); cbv iota; intros Hd;
    rewrite ?Z.gtb_ltb.
  all: repeat match goal with
         | |- context [?a <? ?b] => destruct (Z.ltb_spec a b); try lia
         | |- context [?a =? ?b] => destruct (Z.eqb_spec a b); try lia
         end.
  all: try (unfold February; f_equal; lia).
  all: match goal with
       | |- after_leap ?d = (?m, _) =>
           rewrite (after_leap_spec m d) by (calc_days; lia);
           calc_days; f_equal; lia
       end.
Qed.

(** *** From years to days, and [Date] followed by [absDate] *)

Lemma isLeap_abc year N a b c :
  0 <= year -> 0 <= a < 4 -> 0 <= b < 25 -> 0 <= c < 4 ->
  year - absoluteZeroYear = 400 * N + 100 * a + 4 * b + c ->
  isLeap year = leap_abc a b c.
Proof.
  intros Hy Ha Hb Hc E. unfold absoluteZeroYear in E.
  unfold isLeap, leap_abc.
  rewrite !Z.rem_mod_nonneg by lia.
  assert (E4 : year mod 4 = (c + 1) mod 4).
  { replace year with (c + 1 + (100 * N + 25 * a + b - 73069255600) * 4)
      by lia. apply Z_mod_plus_full. }
  assert (E100 : year mod 100 = (4 * b + c + 1) mod 100).
  { replace year with (4 * b + c + 1 + (4 * N + a - 2922770224) * 100)
      by lia. apply Z_mod_plus_full. }
  assert (E400 : year mod 400 = (100 * a + 4 * b + c + 1) mod 400).
  { replace year with (100 * a + 4 * b + c + 1 + (N - 730692556) * 400)
      by lia. apply Z_mod_plus_full. }
  rewrite E4, E100, E400.
  destruct (Z.eqb_spec c 3) as [C|C].
  - subst c. change ((3 + 1) mod 4) with 0. cbn [Z.eqb andb].
    destruct (Z.eqb_spec b 24) as [B|B].
    + subst b. change ((4 * 24 + 3 + 1) mod 100) with 0. cbn [Z.eqb negb orb].
      destruct (Z.eqb_spec a 3) as [A|A].
      * subst a. reflexivity.
      * apply Z.eqb_neq. Z.to_euclidean_division_equations. lia.
    + cbn [negb orb].
      replace ((4 * b + 3 + 1) mod 100 =? 0) with false; [reflexivity|].
      symmetry. apply Z.eqb_neq. Z.to_euclidean_division_equations. lia.
  - replace ((c + 1) mod 4 =? 0) with false; [reflexivity|].
    symmetry. apply Z.eqb_neq. Z.to_euclidean_division_equations. lia.
Qed.

Lemma daysSinceEpoch_spec year :
  0 <= year <= 9999 ->
  exists N a b c,
    730692555 <= N <= 730692581 /\
    0 <= a < 4 /\ 0 <= b < 25 /\ 0 <= c < 4 /\
    daysSinceEpoch year = 146097 * N + 36524 * a + 1461 * b + 365 * c /\
    year - absoluteZeroYear = 400 * N + 100 * a + 4 * b + c.
Proof.
  intros Hy. unfold daysSinceEpoch.
  rewrite (u64_small (year - absoluteZeroYear))
    by (unfold absoluteZeroYear; lia).
  set (Y := year - absoluteZeroYear).
  assert (HY : 292277022399 <= Y <= 292277032398)
    by (subst Y; unfold absoluteZeroYear; lia).
  clearbody Y. cbv zeta.
  change daysPer400Years with 146097. change daysPer100Years with 36524.
  change daysPer4Years with 1461.
  set (N := Y / 400). set (y1 := Y - 400 * N).
  set (a := y1 / 100). set (y2 := y1 - 100 * a).
  set (b := y2 / 4). set (c := y2 - 4 * b).
  assert (HN : 730692555 <= N <= 730692581 /\ 0 <= y1 < 400)
    by (subst y1 N; Z.to_euclidean_division_equations; lia).
  assert (Ha : 0 <= a < 4 /\ 0 <= y2 < 100)
    by (subst y2 a; Z.to_euclidean_division_equations; lia).
  assert (Hb : 0 <= b < 25 /\ 0 <= c < 4)
    by (subst c b; Z.to_euclidean_division_equations; lia).
  exists N, a, b, c. rewrite u64_small by lia.
  repeat split; try lia.
Qed.

Lemma daysIn_eq month year : daysIn month year = daysIn' (isLeap year) month.
Proof. reflexivity. Qed.

Lemma civil_abs_bounds year month day hour min sec nsec :
  civil_ok year month day hour min sec nsec ->
  9223371953956944000 <= civil_abs year month day hour min sec
    < 9223372294772025600.
Proof.
  intros [Hy Hm Hd Hh Hmi Hs Hn]. unfold civil_abs.
  destruct (daysSinceEpoch_spec year Hy)
    as (N & a & b & c & HN & Ha & Hb & Hc & E & _).
  rewrite daysIn_eq in Hd.
  pose proof (yday_bound _ _ _ Hm Hd) as Hyd.
  assert (0 <= yday_of (isLeap year) month day < 366)
    by (destruct (isLeap year); lia).
  rewrite E. lia.
Qed.

Lemma Date_civil year month day hour min sec nsec :
  civil_ok year month day hour min sec nsec ->
  Date year month day hour min sec nsec UTC
  = mkTime nsec (civil_abs year month day hour min sec + absoluteToInternal)
      UTC.
Proof.
  intros Hok. pose proof (civil_abs_bounds _ _ _ _ _ _ _ Hok) as HA.
  destruct Hok as [Hy Hm Hd Hh Hmi Hs Hn]. unfold Date.
  rewrite (norm_id year (month - 1) 12) by lia.
  rewrite (norm_id sec nsec 1000000000) by lia.
  rewrite (norm_id min sec 60) by lia.
  rewrite (norm_id hour min 60) by lia.
  rewrite (norm_id day hour 24) by lia.
  replace (month - 1 + 1) with month by lia.
  destruct (daysSinceEpoch_spec year Hy)
    as (N & a & b & c & HN & Ha & Hb & Hc & E & _).
  rewrite daysIn_eq in Hd.
  pose proof (yday_bound _ _ _ Hm Hd) as Hyd.
  assert (Hyd' : 0 <= yday_of (isLeap year) month day < 366)
    by (destruct (isLeap year); lia).
  unfold civil_abs in *. unfold yday_of in *.
  set (D := daysSinceEpoch year) in *.
  set (B := daysBefore (month - 1)) in *.
  assert (HB : 0 <= B <= 334).
  { subst B. clear - Hm. each_month Hm; calc_days; lia. }
  change secondsPerDay with 86400. change secondsPerHour with 3600.
  change secondsPerMinute with 60.
  rewrite (u64_small (D + B)) by lia.
  set (L := isLeap year && (month >=? March)) in *.
  assert (EL : (if L then u64 (D + B + 1) else D + B)
               = D + B + (if L then 1 else 0)).
  { destruct L; [rewrite u64_small by lia|]; lia. }
  rewrite EL.
  rewrite (u64_small (day - 1)) by (destruct L; lia).
  rewrite (u64_small (D + B + _ + (day - 1))) by (destruct L; lia).
  rewrite (u64_small ((D + B + _ + (day - 1)) * 86400))
    by (destruct L; lia).
  rewrite (u64_small (hour * 3600 + min * 60 + sec)) by lia.
  rewrite (u64_small (_ * 86400 + _)) by (destruct L; lia).
  unfold unixTime. rewrite (u64_small nsec) by lia.
  f_equal.
  rewrite i64_add_l, <- Z.add_assoc, i64_add_l.
  unfold absoluteToInternal, internalToUnix, unixToInternal in *.
  change secondsPerDay with 86400.
  change absoluteZeroYear with (-292277022399).
  change internalYear with 1.
  change ((-292277022399 - 1) * 3652425 / 10000 * 86400)
    with (-9223371966579724800) in *.
  change ((1969 * 365 + 1969 / 4 - 1969 / 100 + 1969 / 400) * 86400)
    with 62135596800.
  rewrite i64_small; lia.
Qed.

Lemma abs_civil year month day hour min sec nsec :
  civil_ok year month day hour min sec nsec ->
  abs (Date year month day hour min sec nsec UTC)
  = civil_abs year month day hour min sec.
Proof.
  intros Hok. rewrite (Date_civil _ _ _ _ _ _ _ Hok).
  pose proof (civil_abs_bounds _ _ _ _ _ _ _ Hok) as HA.
  unfold abs, unixSec. cbn [ext].
  rewrite u64_i64_add.
  unfold internalToAbsolute, absoluteToInternal, internalToUnix,
    unixToInternal.
  change secondsPerDay with 86400.
  change absoluteZeroYear with (-292277022399).
  change internalYear with 1.
  change ((-292277022399 - 1) * 3652425 / 10000 * 86400)
    with (-9223371966579724800).
  change ((1969 * 365 + 1969 / 4 - 1969 / 100 + 1969 / 400) * 86400)
    with 62135596800.
  rewrite u64_small; lia.
Qed.

Lemma absDate_civil year month day hour min sec nsec :
  civil_ok year month day hour min sec nsec ->
  absDate (civil_abs year month day hour min sec)
  = (year, month, day, yday_of (isLeap year) month day).
Proof.
  intros [Hy Hm Hd Hh Hmi Hs Hn].
  rewrite absDate_split. unfold civil_abs.
  destruct (daysSinceEpoch_spec year Hy)
    as (N & a & b & c & HN & Ha & Hb & Hc & E & EY).
  pose proof (isLeap_abc year N a b c (proj1 Hy) Ha Hb Hc EY) as EL.
  rewrite daysIn_eq in Hd.
  pose proof (yday_bound _ _ _ Hm Hd) as Hyd.
  set (yd := yday_of (isLeap year) month day) in *.
  change secondsPerDay with 86400.
  assert (Ed : ((daysSinceEpoch year + yd) * 86400
                + (hour * 3600 + min * 60 + sec)) / 86400
               = daysSinceEpoch year + yd).
  { symmetry. apply Z.div_unique with (r := hour * 3600 + min * 60 + sec);
      lia. }
  rewrite Ed, E.
  rewrite EL in Hyd.
  rewrite (cut_spec N a b c yd) by lia.
  rewrite <- EY.
  rewrite i64_add_l.
  replace (year - absoluteZeroYear + absoluteZeroYear) with year by lia.
  rewrite i64_small by lia.
  rewrite month_day_eq. subst yd.
  rewrite month_day'_spec by assumption. reflexivity.
Qed.

Lemma absClock_civil year month day hour min sec nsec :
  civil_ok year month day hour min sec nsec ->
  absClock (civil_abs year month day hour min sec) = (hour, min, sec).
Proof.
  intros Hok. pose proof (civil_abs_bounds _ _ _ _ _ _ _ Hok) as HA.
  destruct Hok as [Hy Hm Hd Hh Hmi Hs Hn].
  unfold absClock, civil_abs in *.
  change secondsPerDay with 86400. change secondsPerHour with 3600.
  change secondsPerMinute with 60.
  set (D := daysSinceEpoch year + yday_of (isLeap year) month day) in *.
  assert (Em : (D * 86400 + (hour * 3600 + min * 60 + sec)) mod 86400
               = hour * 3600 + min * 60 + sec).
  { rewrite Z.add_comm, Z_mod_plus_full. apply Z.mod_small. lia. }
  rewrite Em. cbv zeta.
  assert (Eh : Z.quot (hour * 3600 + min * 60 + sec) 3600 = hour)
    by (Z.to_euclidean_division_equations; lia).
  rewrite Eh.
  replace (hour * 3600 + min * 60 + sec - hour * 3600) with (min * 60 + sec)
    by lia.
  assert (Emi : Z.quot (min * 60 + sec) 60 = min)
    by (Z.to_euclidean_division_equations; lia).
  rewrite Emi. f_equal. lia.
Qed.

(** *** Digits and numbers *)

Lemma byte_val_range c : 0 <= byte_val c < 256.
Proof.
  unfold byte_val. pose proof (N_ascii_bounded c) as H. lia.
Qed.

Lemma byte_of_val c : byte_of (byte_val c) = c.
Proof.
  unfold byte_of, byte_val. rewrite N2Z.id. apply ascii_N_embedding.
Qed.

Lemma is_digit_range c :
  is_digit c = true <-> 48 <= byte_val c <= 57.
Proof. unfold is_digit. lia. Qed.

Lemma dval_range c : is_digit c = true -> 0 <= dval c <= 9.
Proof. rewrite is_digit_range. unfold dval. lia. Qed.

Lemma digit_char c : is_digit c = true -> byte_of (48 + dval c) = c.
Proof.
  intros _. unfold dval. replace (48 + (byte_val c - 48)) with (byte_val c)
    by lia. apply byte_of_val.
Qed.

Lemma len_cons c s : len (String c s) = 1 + len s.
Proof. unfold len. cbn [String.length]. lia. Qed.

Lemma len_nonneg s : 0 <= len s.
Proof. unfold len. lia. Qed.

Lemma len_nil : len EmptyString = 0.
Proof. reflexivity. Qed.

Lemma getnum_two c0 c1 r fixed :
  is_digit c0 = true -> is_digit c1 = true ->
  getnum (String c0 (String c1 r)) fixed = Some (two c0 c1, r).
Proof.
  intros H0 H1. unfold getnum, isDigit, digit_at. cbn [String.get drop].
  rewrite H0, H1. reflexivity.
Qed.

Lemma getnum_fixed_inv s n r :
  getnum s true = Some (n, r) ->
  exists c0 c1, s = String c0 (String c1 r)
    /\ is_digit c0 = true /\ is_digit c1 = true /\ n = two c0 c1.
Proof.
  unfold getnum, isDigit, digit_at.
  destruct s as [|c0 [|c1 s]]; cbn [String.get drop negb]; try discriminate.
  - destruct (is_digit c0); discriminate.
  - destruct (is_digit c0) eqn:H0; cbn [negb]; try discriminate.
    destruct (is_digit c1) eqn:H1; cbn [negb]; try discriminate.
    intros H. inversion H; subst. exists c0, c1. auto.
Qed.

Lemma getnum_free_inv s n r :
  getnum s false = Some (n, r) ->
  (exists c0 c1, s = String c0 (String c1 r)
     /\ is_digit c0 = true /\ is_digit c1 = true /\ n = two c0 c1)
  \/ isDigit r 0 = false.
Proof.
  unfold getnum, isDigit, digit_at.
  destruct s as [|c0 [|c1 s]]; cbn [String.get drop negb]; try discriminate.
  - destruct (is_digit c0); cbn [negb]; try discriminate.
    intros H. inversion H; subst. right. reflexivity.
  - destruct (is_digit c0) eqn:H0; cbn [negb]; try discriminate.
    destruct (is_digit c1) eqn:H1; cbn [negb].
    + intros H. inversion H; subst. left. exists c0, c1. auto.
    + intros H. inversion H; subst. right. cbn [String.get]. exact H1.
Qed.

Lemma getnum_fixed_needs_digit s :
  isDigit s 0 = false -> getnum s true = None.
Proof. intros H. unfold getnum. rewrite H. reflexivity. Qed.

(** [leadingInt] on digits. *)
Lemma leadingInt_digit x c s :
  is_digit c = true -> 0 <= x <= 99999999 ->
  leadingInt_from x (String c s) = leadingInt_from (x * 10 + dval c) s.
Proof.
  intros H Hx. pose proof (dval_range c H) as Hd.
  cbn [leadingInt_from]. rewrite H. cbn [negb].
  change (2 ^ 63 / 10) with 922337203685477580.
  change (2 ^ 63) with 9223372036854775808.
  destruct (Z.gtb_spec x 922337203685477580); [lia|].
  destruct (Z.gtb_spec (x * 10 + dval c) 9223372036854775808); [lia|].
  reflexivity.
Qed.

Lemma leadingInt_nondigit x c s :
  is_digit c = false ->
  leadingInt_from x (String c s) = Some (x, String c s).
Proof. intros H. cbn [leadingInt_from]. rewrite H. reflexivity. Qed.

Lemma digit_not_sign c :
  is_digit c = true -> (byte_val c =? 45) || (byte_val c =? 43) = false.
Proof. rewrite is_digit_range. lia. Qed.

Lemma atoi4 c0 c1 c2 c3 :
  is_digit c0 = true -> is_digit c1 = true -> is_digit c2 = true ->
  is_digit c3 = true ->
  atoi (String c0 (String c1 (String c2 (String c3 EmptyString))))
  = Some (num4 c0 c1 c2 c3).
Proof.
  intros H0 H1 H2 H3.
  pose proof (dval_range _ H0). pose proof (dval_range _ H1).
  pose proof (dval_range _ H2). pose proof (dval_range _ H3).
  unfold atoi. rewrite (digit_not_sign _ H0). unfold leadingInt.
  rewrite leadingInt_digit by (auto; lia).
  rewrite leadingInt_digit by (auto; lia).
  rewrite leadingInt_digit by (auto; lia).
  rewrite leadingInt_digit by (auto; lia).
  cbn [leadingInt_from]. unfold num4. rewrite i64_small; [reflexivity|].
  change (2 ^ 63) with 9223372036854775808. lia.
Qed.

Lemma atoi4_inv c0 c1 c2 c3 y :
  is_digit c0 = true ->
  atoi (String c0 (String c1 (String c2 (String c3 EmptyString)))) = Some y ->
  is_digit c1 = true /\ is_digit c2 = true /\ is_digit c3 = true.
Proof.
  intros D0. pose proof (dval_range _ D0) as R0.
  unfold atoi. rewrite (digit_not_sign _ D0). unfold leadingInt.
  rewrite leadingInt_digit by (auto; lia).
  destruct (is_digit c1) eqn:D1;
    [|rewrite leadingInt_nondigit by auto; discriminate].
  pose proof (dval_range _ D1) as R1.
  rewrite leadingInt_digit by (auto; lia).
  destruct (is_digit c2) eqn:D2;
    [|rewrite leadingInt_nondigit by auto; discriminate].
  pose proof (dval_range _ D2) as R2.
  rewrite leadingInt_digit by (auto; lia).
  destruct (is_digit c3) eqn:D3;
    [|rewrite leadingInt_nondigit by auto; discriminate].
  auto.
Qed.

(** *** The fractional second *)

Lemma drop_get n : forall s c,
  String.get n s = Some c -> drop n s = String c (drop (S n) s).
Proof.
  induction n as [|n IH]; intros [|c0 s] c H; cbn in H; try discriminate.
  - inversion H; subst. reflexivity.
  - cbn [drop]. rewrite (IH s c H). reflexivity.
Qed.

Lemma drop_get_none n : forall s,
  String.get n s = None -> drop n s = EmptyString.
Proof.
  induction n as [|n IH]; intros [|c0 s] H; cbn in H; try discriminate;
    try reflexivity.
  cbn [drop]. apply IH, H.
Qed.

Lemma get_lt n : forall s c,
  String.get n s = Some c -> Z.of_nat n < len s.
Proof.
  induction n as [|n IH]; intros [|c0 s] c H; cbn in H; try discriminate.
  - rewrite len_cons. pose proof (len_nonneg s). lia.
  - rewrite len_cons. pose proof (IH s c H). lia.
Qed.

Lemma frac_len_span fuel : forall value n,
  (span_digits (drop n value) <= fuel)%nat ->
  frac_len fuel value n = (n + span_digits (drop n value))%nat.
Proof.
  induction fuel as [|fuel IH]; intros value n Hf; cbn [frac_len].
  - lia.
  - unfold isDigit. destruct (String.get n value) as [c|] eqn:G.
    + pose proof (get_lt _ _ _ G) as Hlt.
      rewrite (drop_get _ _ _ G) in *. cbn [span_digits] in *.
      destruct (Z.ltb_spec (Z.of_nat n) (len value)); [|lia].
      cbn [andb]. destruct (is_digit c).
      * rewrite IH by lia. lia.
      * lia.
    + rewrite (drop_get_none _ _ G). cbn [span_digits].
      rewrite andb_false_r. lia.
Qed.

Lemma span_all s : all_digits s = true -> span_digits s = String.length s.
Proof.
  induction s as [|c s IH]; cbn; [reflexivity|].
  intros H. apply andb_prop in H. destruct H as [Hc Hs].
  rewrite Hc, IH by assumption. reflexivity.
Qed.

Lemma drop_span_all s :
  drop (span_digits s) s = EmptyString -> all_digits s = true.
Proof.
  induction s as [|c s IH]; cbn; [reflexivity|].
  destruct (is_digit c); cbn [drop andb]; [exact IH|discriminate].
Qed.

Lemma drop_length s : drop (String.length s) s = EmptyString.
Proof. induction s as [|c s IH]; cbn; auto. Qed.

Lemma take_length s : take (String.length s) s = s.
Proof. induction s as [|c s IH]; cbn; [|rewrite IH]; auto. Qed.

Lemma take_take n : forall s, take n (take n s) = take n s.
Proof. induction n as [|n IH]; intros [|c s]; cbn; [..|rewrite IH]; auto. Qed.

Lemma take_all n : forall s, (String.length s <= n)%nat -> take n s = s.
Proof.
  induction n as [|n IH]; intros [|c s] H; cbn in *; try reflexivity;
    [lia|]. rewrite IH by lia. reflexivity.
Qed.

Lemma take_length_le n : forall s, (String.length (take n s) <= n)%nat.
Proof.
  induction n as [|n IH]; intros [|c s]; cbn; try lia.
  pose proof (IH s). lia.
Qed.

Lemma all_digits_take n : forall s,
  all_digits s = true -> all_digits (take n s) = true.
Proof.
  induction n as [|n IH]; intros [|c s] H; cbn in *; try reflexivity.
  apply andb_prop in H. destruct H as [Hc Hs].
  rewrite Hc, IH by assumption. reflexivity.
Qed.

(** [leadingInt] on a string of at most nine digits. *)
Lemma leadingInt_all s : forall x,
  all_digits s = true -> 0 <= x ->
  (x + 1) * 10 ^ Z.of_nat (String.length s) <= 1000000000 ->
  leadingInt_from x s = Some (num_from x s, EmptyString)
  /\ x <= num_from x s
  /\ num_from x s + 1 <= (x + 1) * 10 ^ Z.of_nat (String.length s).
Proof.
  induction s as [|c s IH]; intros x Hd Hx Hb.
  - cbn. split; [reflexivity|]. lia.
  - cbn [all_digits] in Hd. apply andb_prop in Hd. destruct Hd as [Hc Hs].
    pose proof (dval_range _ Hc) as Hr.
    cbn [String.length] in Hb. rewrite Nat2Z.inj_succ, Z.pow_succ_r in Hb
      by lia.
    assert (Hp : 1 <= 10 ^ Z.of_nat (String.length s))
      by (pose proof (Z.pow_pos_nonneg 10 (Z.of_nat (String.length s)));
          lia).
    rewrite leadingInt_digit by (auto; nia).
    cbn [num_from String.length].
    rewrite Nat2Z.inj_succ, Z.pow_succ_r by lia.
    destruct (IH (x * 10 + dval c) Hs) as (E & Hlo & Hhi); [lia|nia|].
    split; [exact E|]. split; [lia|nia].
Qed.

Lemma atoi_digits s :
  all_digits s = true -> (String.length s <= 9)%nat ->
  atoi s = Some (num s)
  /\ 0 <= num s < 10 ^ Z.of_nat (String.length s).
Proof.
  intros Hd Hl.
  assert (Hb : (0 + 1) * 10 ^ Z.of_nat (String.length s) <= 1000000000).
  { change 1000000000 with (10 ^ 9). rewrite Z.mul_1_l.
    apply Z.pow_le_mono_r; lia. }
  destruct (leadingInt_all s 0 Hd (Z.le_refl 0) Hb) as (E & Hlo & Hhi).
  fold (num s) in *.
  assert (Hs : match s with
               | String c s' =>
                   if (byte_val c =? 45) || (byte_val c =? 43)
                   then (byte_val c =? 45, s') else (false, s)
               | EmptyString => (false, s)
               end = (false, s)).
  { destruct s as [|c s']; [reflexivity|].
    cbn [all_digits] in Hd. apply andb_prop in Hd.
    rewrite (digit_not_sign c (proj1 Hd)). reflexivity. }
  unfold atoi. rewrite Hs. unfold leadingInt. rewrite E.
  rewrite i64_small by (change (2 ^ 63) with 9223372036854775808; lia).
  split; [reflexivity|lia].
Qed.

(** *** The chunks of the layout, one by one *)

Lemma year_chunk_inv f v f' v' :
  parse_chunk stdLongYear f v = chunk_ok f' v' ->
  exists c0 c1 c2 c3,
    v = String c0 (String c1 (String c2 (String c3 v')))
    /\ is_digit c0 = true /\ is_digit c1 = true /\ is_digit c2 = true
    /\ is_digit c3 = true
    /\ f' = mkFields (num4 c0 c1 c2 c3) (f_month f) (f_day f) (f_hour f)
              (f_min f) (f_sec f) (f_nsec f).
Proof.
  cbn [parse_chunk].
  destruct v as [|c0 [|c1 [|c2 [|c3 v]]]];
    try (rewrite ?len_cons, len_nil; cbn [Z.add Z.ltb Z.compare Pos.compare
           Pos.compare_cont Pos.add Pos.succ orb]; discriminate).
  rewrite !len_cons. pose proof (len_nonneg v).
  destruct (Z.ltb_spec (1 + (1 + (1 + (1 + len v)))) 4); [lia|].
  cbn [orb]. unfold isDigit. cbn [String.get take drop].
  destruct (is_digit c0) eqn:D0; cbn [negb]; [|discriminate].
  destruct (atoi _) as [y|] eqn:E; [|discriminate].
  destruct (atoi4_inv _ _ _ _ _ D0 E) as (D1 & D2 & D3).
  rewrite atoi4 in E by assumption. inversion E; subst y.
  intros K. inversion K; subst. exists c0, c1, c2, c3. auto 10.
Qed.

Lemma year_chunk_ok f c0 c1 c2 c3 v :
  is_digit c0 = true -> is_digit c1 = true -> is_digit c2 = true ->
  is_digit c3 = true ->
  parse_chunk stdLongYear f (String c0 (String c1 (String c2 (String c3 v))))
  = chunk_ok (mkFields (num4 c0 c1 c2 c3) (f_month f) (f_day f) (f_hour f)
                (f_min f) (f_sec f) (f_nsec f)) v.
Proof.
  intros D0 D1 D2 D3. cbn [parse_chunk].
  rewrite !len_cons. pose proof (len_nonneg v).
  destruct (Z.ltb_spec (1 + (1 + (1 + (1 + len v)))) 4); [lia|].
  cbn [orb]. unfold isDigit. cbn [String.get take drop].
  rewrite D0. cbn [negb]. rewrite atoi4 by assumption. reflexivity.
Qed.

Lemma two_range c0 c1 :
  is_digit c0 = true -> is_digit c1 = true -> 0 <= two c0 c1 <= 99.
Proof.
  intros D0 D1. pose proof (dval_range _ D0). pose proof (dval_range _ D1).
  unfold two. lia.
Qed.

Lemma num4_range c0 c1 c2 c3 :
  is_digit c0 = true -> is_digit c1 = true -> is_digit c2 = true ->
  is_digit c3 = true -> 0 <= num4 c0 c1 c2 c3 <= 9999.
Proof.
  intros D0 D1 D2 D3.
  pose proof (dval_range _ D0). pose proof (dval_range _ D1).
  pose proof (dval_range _ D2). pose proof (dval_range _ D3).
  unfold num4. lia.
Qed.

Ltac chunk_inv_fixed :=
  let g := fresh "g" in let n := fresh "n" in let r := fresh "r" in
  let c0 := fresh "c" in let c1 := fresh "c" in
  let E := fresh "E" in let D0 := fresh "D" in let D1 := fresh "D" in
  let H := fresh "H" in let R := fresh "R" in
  cbn [parse_chunk];
  match goal with
  | |- context [getnum ?v ?b] => destruct (getnum v b) as [[n r]|] eqn:g
  end; [|discriminate];
  apply getnum_fixed_inv in g; destruct g as (c0 & c1 & E & D0 & D1 & ->);
  pose proof (two_range _ _ D0 D1) as R;
  match goal with
  | |- context [if ?b then _ else _] =>
      destruct b eqn:?; [discriminate|]
  | _ => idtac
  end;
  intros H; inversion H; subst; exists c0, c1;
  repeat split; auto; lia.

Lemma month_chunk_inv f v f' v' :
  parse_chunk stdZeroMonth f v = chunk_ok f' v' ->
  exists c0 c1,
    v = String c0 (String c1 v')
    /\ is_digit c0 = true /\ is_digit c1 = true
    /\ 1 <= two c0 c1 <= 12
    /\ f' = mkFields (f_year f) (two c0 c1) (f_day f) (f_hour f)
              (f_min f) (f_sec f) (f_nsec f).
Proof. chunk_inv_fixed. Qed.

Lemma day_chunk_inv f v f' v' :
  parse_chunk stdZeroDay f v = chunk_ok f' v' ->
  exists c0 c1,
    v = String c0 (String c1 v')
    /\ is_digit c0 = true /\ is_digit c1 = true
    /\ f' = mkFields (f_year f) (f_month f) (two c0 c1) (f_hour f)
              (f_min f) (f_sec f) (f_nsec f).
Proof. chunk_inv_fixed. Qed.

Lemma minute_chunk_inv f v f' v' :
  parse_chunk stdZeroMinute f v = chunk_ok f' v' ->
  exists c0 c1,
    v = String c0 (String c1 v')
    /\ is_digit c0 = true /\ is_digit c1 = true
    /\ 0 <= two c0 c1 < 60
    /\ f' = mkFields (f_year f) (f_month f) (f_day f) (f_hour f)
              (two c0 c1) (f_sec f) (f_nsec f).
Proof. chunk_inv_fixed. Qed.

(** The hour may have one digit, but then no digit follows it. *)
Lemma hour_chunk_inv f v f' v' :
  parse_chunk stdHour f v = chunk_ok f' v' ->
  (exists c0 c1,
     v = String c0 (String c1 v')
     /\ is_digit c0 = true /\ is_digit c1 = true
     /\ 0 <= two c0 c1 < 24
     /\ f' = mkFields (f_year f) (f_month f) (f_day f) (two c0 c1)
               (f_min f) (f_sec f) (f_nsec f))
  \/ isDigit v' 0 = false.
Proof.
  cbn [parse_chunk].
  destruct (getnum v false) as [[n r]|] eqn:g; [|discriminate].
  destruct ((n <? 0) || (24 <=? n)) eqn:R; [discriminate|].
  intros H. inversion H; subst.
  apply getnum_free_inv in g. destruct g as [(c0 & c1 & E & D0 & D1 & ->)|g].
  - left. exists c0, c1. repeat split; auto; lia.
  - right. exact g.
Qed.

Lemma parseNanoseconds_all sep ds :
  commaOrPeriod sep = true -> all_digits ds = true ->
  parseNanoseconds (String sep ds) (S (String.length ds))
  = nanos_ok (num (take 9 ds) * 10 ^ (9 - Z.min 9 (len ds))).
Proof.
  intros Hsep Hds. unfold parseNanoseconds. rewrite Hsep. cbn [negb].
  destruct (Nat.ltb_spec 10 (S (String.length ds))) as [L|L].
  - (* more than nine digits: only the first nine count *)
    change (take 10 (String sep ds)) with (String sep (take 9 ds)).
    cbn [drop]. change (10 - 1)%nat with 9%nat. rewrite take_take.
    destruct (atoi_digits (take 9 ds) (all_digits_take 9 ds Hds)
                (take_length_le 9 ds)) as (E & Hlo & Hhi).
    rewrite E. destruct (Z.ltb_spec (num (take 9 ds)) 0); [lia|].
    do 2 f_equal. unfold len. rewrite Z.min_l by lia. reflexivity.
  - cbn [drop].
    replace (S (String.length ds) - 1)%nat with (String.length ds) by lia.
    rewrite take_length.
    rewrite (take_all 9 ds) by lia.
    destruct (atoi_digits ds Hds) as (E & Hlo & Hhi); [lia|].
    rewrite E. destruct (Z.ltb_spec (num ds) 0); [lia|].
    do 2 f_equal. unfold len. rewrite Z.min_r by lia. f_equal. lia.
Qed.

Lemma isDigit_0 c s : isDigit (String c s) 0 = is_digit c.
Proof. reflexivity. Qed.

Lemma isDigit_S c s n : isDigit (String c s) (S n) = isDigit s n.
Proof. reflexivity. Qed.

Lemma isDigit_0_span s : isDigit s 0 = true -> (0 < span_digits s)%nat.
Proof.
  destruct s as [|c s]; [discriminate|]. rewrite isDigit_0. cbn.
  intros ->. lia.
Qed.

Lemma span_le s : (span_digits s <= String.length s)%nat.
Proof.
  induction s as [|c s IH]; cbn; [lia|]. destruct (is_digit c); lia.
Qed.

(** The bytes [Parse] takes for the fractional second. *)
Lemma frac_len_value sep ds :
  isDigit ds 0 = true ->
  frac_len (String.length (String sep ds)) (String sep ds) 2
  = S (span_digits ds).
Proof.
  intros H. destruct ds as [|d ds]; [discriminate|].
  rewrite isDigit_0 in H.
  rewrite frac_len_span; cbn [drop span_digits String.length].
  - rewrite H. lia.
  - pose proof (span_le ds). lia.
Qed.

Lemma second_chunk_ok f c0 c1 rest ns :
  is_digit c0 = true -> is_digit c1 = true -> 0 <= two c0 c1 < 60 ->
  f_nsec f = 0 -> frac_nanos rest = Some ns ->
  parse_chunk stdZeroSecond f (String c0 (String c1 rest))
  = chunk_ok (set_sec f (two c0 c1) ns) EmptyString.
Proof.
  intros D0 D1 R Hn Hfrac. cbn [parse_chunk].
  rewrite getnum_two by assumption.
  destruct (Z.ltb_spec (two c0 c1) 0); [lia|].
  destruct (Z.leb_spec 60 (two c0 c1)); [lia|]. cbn [orb].
  destruct rest as [|sep ds].
  - cbn in Hfrac. inversion Hfrac; subst ns. unfold set_sec.
    rewrite <- Hn. destruct f; reflexivity.
  - cbn [frac_nanos] in Hfrac.
    destruct (commaOrPeriod sep) eqn:Hsep; [|discriminate].
    destruct (Z.ltb_spec 0 (len ds)) as [Hl|]; [|discriminate].
    destruct (all_digits ds) eqn:Hds; [|discriminate].
    cbn [andb] in Hfrac. inversion Hfrac; subst ns. clear Hfrac.
    assert (Hd0 : isDigit ds 0 = true).
    { destruct ds as [|d ds]; [rewrite len_nil in Hl; lia|].
      cbn [all_digits] in Hds. apply andb_prop in Hds. apply Hds. }
    rewrite isDigit_S, Hd0, len_cons.
    destruct (Z.leb_spec 2 (1 + len ds)); [|lia]. cbn [andb].
    rewrite frac_len_value by assumption.
    rewrite span_all by assumption.
    rewrite parseNanoseconds_all by assumption.
    cbn [drop f_year f_month f_day f_hour f_min f_sec].
    rewrite drop_length. reflexivity.
Qed.

Lemma second_chunk_inv f v f' :
  f_nsec f = 0 ->
  parse_chunk stdZeroSecond f v = chunk_ok f' EmptyString ->
  exists c0 c1 rest ns,
    v = String c0 (String c1 rest)
    /\ is_digit c0 = true /\ is_digit c1 = true
    /\ 0 <= two c0 c1 < 60
    /\ frac_nanos rest = Some ns
    /\ f' = set_sec f (two c0 c1) ns.
Proof.
  intros Hn. cbn [parse_chunk].
  destruct (getnum v true) as [[n rest]|] eqn:g; [|discriminate].
  apply getnum_fixed_inv in g. destruct g as (c0 & c1 & E & D0 & D1 & ->).
  pose proof (two_range _ _ D0 D1) as R.
  destruct ((two c0 c1 <? 0) || (60 <=? two c0 c1)) eqn:Rg; [discriminate|].
  assert (R' : 0 <= two c0 c1 < 60) by lia.
  destruct rest as [|sep ds].
  - intros H. inversion H; subst. exists c0, c1, EmptyString, 0.
    repeat split; auto; try lia. unfold set_sec. rewrite <- Hn. reflexivity.
  - destruct ((2 <=? len (String sep ds)) && commaOrPeriod sep
              && isDigit (String sep ds) 1) eqn:C.
    + apply andb_prop in C. destruct C as [C Hd0].
      apply andb_prop in C. destruct C as [_ Hsep].
      rewrite isDigit_S in Hd0.
      rewrite frac_len_value by assumption.
      destruct (parseNanoseconds _ _) as [ns| |] eqn:P; try discriminate.
      cbn [drop]. intros H. inversion H as [[Hf Hdrop]]. clear H.
      pose proof (drop_span_all _ Hdrop) as Hds.
      rewrite span_all in P by assumption.
      rewrite parseNanoseconds_all in P by assumption.
      inversion P; subst ns. clear P.
      exists c0, c1, (String sep ds), (num (take 9 ds) * 10 ^ (9 - Z.min 9 (len ds))).
      repeat split; auto; try lia.
      cbn [frac_nanos]. rewrite Hsep, Hds.
      pose proof (isDigit_0_span _ Hd0). pose proof (span_le ds).
      destruct (Z.ltb_spec 0 (len ds)); [reflexivity|unfold len in *; lia].
    + discriminate.
Qed.

(** *** [Parse] decodes exactly the well-formed timestamps *)

Lemma parse_loop_cons_inv A V c l f v r :
  parse_loop A V (c :: l) f v = Ok r ->
  exists f' v',
    parse_chunk c f v = chunk_ok f' v' /\ parse_loop A V l f' v' = Ok r.
Proof.
  cbn [parse_loop]. destruct (parse_chunk c f v) as [f' v'| |];
    try discriminate. eauto.
Qed.

Lemma parse_loop_nil_inv A V f v r :
  parse_loop A V [] f v = Ok r -> v = EmptyString /\ r = (f, EmptyString).
Proof.
  cbn [parse_loop]. destruct v as [|c v].
  - cbn. intros H. inversion H. auto.
  - rewrite len_cons. pose proof (len_nonneg v).
    destruct (Z.eqb_spec (1 + len v) 0); [lia|]. discriminate.
Qed.

Lemma parse_loop_cons A V c l f v f' v' :
  parse_chunk c f v = chunk_ok f' v' ->
  parse_loop A V (c :: l) f v = parse_loop A V l f' v'.
Proof. intros H. cbn [parse_loop]. rewrite H. reflexivity. Qed.

Lemma month_chunk_ok f c0 c1 v :
  is_digit c0 = true -> is_digit c1 = true -> 1 <= two c0 c1 <= 12 ->
  parse_chunk stdZeroMonth f (String c0 (String c1 v))
  = chunk_ok (mkFields (f_year f) (two c0 c1) (f_day f) (f_hour f)
                (f_min f) (f_sec f) (f_nsec f)) v.
Proof.
  intros D0 D1 R. cbn [parse_chunk]. rewrite getnum_two by assumption.
  destruct ((two c0 c1 <=? 0) || (12 <? two c0 c1)) eqn:E; [lia|].
  reflexivity.
Qed.

Lemma day_chunk_ok f c0 c1 v :
  is_digit c0 = true -> is_digit c1 = true ->
  parse_chunk stdZeroDay f (String c0 (String c1 v))
  = chunk_ok (mkFields (f_year f) (f_month f) (two c0 c1) (f_hour f)
                (f_min f) (f_sec f) (f_nsec f)) v.
Proof.
  intros D0 D1. cbn [parse_chunk]. rewrite getnum_two by assumption.
  reflexivity.
Qed.

Lemma hour_chunk_ok f c0 c1 v :
  is_digit c0 = true -> is_digit c1 = true -> 0 <= two c0 c1 < 24 ->
  parse_chunk stdHour f (String c0 (String c1 v))
  = chunk_ok (mkFields (f_year f) (f_month f) (f_day f) (two c0 c1)
                (f_min f) (f_sec f) (f_nsec f)) v.
Proof.
  intros D0 D1 R. cbn [parse_chunk]. rewrite getnum_two by assumption.
  destruct ((two c0 c1 <? 0) || (24 <=? two c0 c1)) eqn:E; [lia|].
  reflexivity.
Qed.

Lemma minute_chunk_ok f c0 c1 v :
  is_digit c0 = true -> is_digit c1 = true -> 0 <= two c0 c1 < 60 ->
  parse_chunk stdZeroMinute f (String c0 (String c1 v))
  = chunk_ok (mkFields (f_year f) (f_month f) (f_day f) (f_hour f)
                (two c0 c1) (f_sec f) (f_nsec f)) v.
Proof.
  intros D0 D1 R. cbn [parse_chunk]. rewrite getnum_two by assumption.
  destruct ((two c0 c1 <? 0) || (60 <=? two c0 c1)) eqn:E; [lia|].
  reflexivity.
Qed.

Lemma Parse_sound s t :
  Parse_20060102150405 s = Ok t -> stamp_time s = Some t.
Proof.
  unfold Parse_20060102150405, layout_20060102150405.
  destruct (parse_loop _ _ _ _ _) as [[f v]|e] eqn:L; [|discriminate].
  apply parse_loop_cons_inv in L. destruct L as (f1 & v1 & C1 & L).
  apply parse_loop_cons_inv in L. destruct L as (f2 & v2 & C2 & L).
  apply parse_loop_cons_inv in L. destruct L as (f3 & v3 & C3 & L).
  apply parse_loop_cons_inv in L. destruct L as (f4 & v4 & C4 & L).
  apply parse_loop_cons_inv in L. destruct L as (f5 & v5 & C5 & L).
  apply parse_loop_cons_inv in L. destruct L as (f6 & v6 & C6 & L).
  apply parse_loop_nil_inv in L. destruct L as (-> & L). inversion L; subst f v.
  clear L.
  apply year_chunk_inv in C1.
  destruct C1 as (c0 & c1 & c2 & c3 & -> & D0 & D1 & D2 & D3 & ->).
  apply month_chunk_inv in C2. destruct C2 as (c4 & c5 & -> & D4 & D5 & R2 & ->).
  apply day_chunk_inv in C3. destruct C3 as (c6 & c7 & -> & D6 & D7 & ->).
  apply minute_chunk_inv in C5.
  destruct C5 as (c10 & c11 & -> & D10 & D11 & R5 & ->).
  apply hour_chunk_inv in C4.
  destruct C4 as [(c8 & c9 & -> & D8 & D9 & R4 & ->)|C4];
    [|rewrite isDigit_0, D10 in C4; discriminate].
  apply second_chunk_inv in C6; [|reflexivity].
  destruct C6 as (c12 & c13 & rest & ns & -> & D12 & D13 & R6 & F & ->).
  cbn [f_day f_month f_year f_hour f_min f_sec f_nsec set_sec].
  destruct ((two c6 c7 <? 1) || (two c6 c7 >? daysIn (two c4 c5) (num4 c0 c1 c2 c3)))
    eqn:Rd; [discriminate|].
  intros H. inversion H; subst t. clear H.
  cbn [stamp_time forallb].
  rewrite D0, D1, D2, D3, D4, D5, D6, D7, D8, D9, D10, D11, D12, D13.
  cbn [andb]. rewrite F.
  replace ((1 <=? two c4 c5) && (two c4 c5 <=? 12) && (1 <=? two c6 c7)
           && (two c6 c7 <=? daysIn (two c4 c5) (num4 c0 c1 c2 c3))
           && (two c8 c9 <? 24) && (two c10 c11 <? 60)
           && (two c12 c13 <? 60)) with true; [reflexivity|].
  symmetry. repeat (apply andb_true_intro; split); lia.
Qed.

Lemma Parse_complete s t :
  stamp_time s = Some t -> Parse_20060102150405 s = Ok t.
Proof.
  destruct s as [|c0 [|c1 [|c2 [|c3 [|c4 [|c5 [|c6 [|c7 [|c8 [|c9 [|c10
    [|c11 [|c12 [|c13 rest]]]]]]]]]]]]]]; try discriminate.
  cbn [stamp_time forallb].
  destruct (is_digit c0) eqn:D0; [|discriminate].
  destruct (is_digit c1) eqn:D1; [|discriminate].
  destruct (is_digit c2) eqn:D2; [|discriminate].
  destruct (is_digit c3) eqn:D3; [|discriminate].
  destruct (is_digit c4) eqn:D4; [|discriminate].
  destruct (is_digit c5) eqn:D5; [|discriminate].
  destruct (is_digit c6) eqn:D6; [|discriminate].
  destruct (is_digit c7) eqn:D7; [|discriminate].
  destruct (is_digit c8) eqn:D8; [|discriminate].
  destruct (is_digit c9) eqn:D9; [|discriminate].
  destruct (is_digit c10) eqn:D10; [|discriminate].
  destruct (is_digit c11) eqn:D11; [|discriminate].
  destruct (is_digit c12) eqn:D12; [|discriminate].
  destruct (is_digit c13) eqn:D13; [|discriminate].
  cbn [andb]. destruct (frac_nanos rest) as [ns|] eqn:F; [|discriminate].
  destruct (_ && _) eqn:R; [|discriminate].
  intros H. inversion H; subst t. clear H.
  repeat (apply andb_prop in R; destruct R as [R ?]).
  pose proof (two_range _ _ D4 D5). pose proof (two_range _ _ D6 D7).
  pose proof (two_range _ _ D8 D9). pose proof (two_range _ _ D10 D11).
  pose proof (two_range _ _ D12 D13).
  unfold Parse_20060102150405, layout_20060102150405.
  rewrite (parse_loop_cons _ _ _ _ _ _ _ _
             (year_chunk_ok _ c0 c1 c2 c3 _ D0 D1 D2 D3)).
  rewrite (parse_loop_cons _ _ _ _ _ _ _ _
             (month_chunk_ok _ c4 c5 _ D4 D5 ltac:(lia))).
  rewrite (parse_loop_cons _ _ _ _ _ _ _ _ (day_chunk_ok _ c6 c7 _ D6 D7)).
  rewrite (parse_loop_cons _ _ _ _ _ _ _ _
             (hour_chunk_ok _ c8 c9 _ D8 D9 ltac:(lia))).
  rewrite (parse_loop_cons _ _ _ _ _ _ _ _
             (minute_chunk_ok _ c10 c11 _ D10 D11 ltac:(lia))).
  erewrite parse_loop_cons
    by (apply (second_chunk_ok _ c12 c13 rest ns); auto; lia).
  cbn [parse_loop len String.length Z.of_nat Z.eqb negb set_sec
         f_year f_month f_day f_hour f_min f_sec f_nsec].
  destruct ((two c6 c7 <? 1) || (two c6 c7 >? daysIn (two c4 c5) (num4 c0 c1 c2 c3)))
    eqn:Rd; [lia|]. reflexivity.
Qed.

Theorem Parse_stamp s :
  match stamp_time s with
  | Some t => Parse_20060102150405 s = Ok t
  | None => exists e, Parse_20060102150405 s = Err e
  end.
Proof.
  destruct (stamp_time s) as [t|] eqn:E.
  - apply Parse_complete, E.
  - destruct (Parse_20060102150405 s) as [t|e] eqn:P; [|eauto].
    apply Parse_sound in P. congruence.
Qed.

(** *** [Format] *)

Lemma digits_rev_ge fuel q r :
  0 < q -> 0 <= r < 10 ->
  digits_rev (S fuel) (q * 10 + r) = byte_of (48 + r) :: digits_rev fuel q.
Proof.
  intros Hq Hr. cbn [digits_rev].
  destruct (Z.geb_spec (q * 10 + r) 10); [|lia].
  assert (E : (q * 10 + r) / 10 = q)
    by (symmetry; apply Z.div_unique with (r := r); lia).
  rewrite E. do 3 f_equal. lia.
Qed.

Lemma digits_rev_lt fuel r :
  0 <= r < 10 -> digits_rev (S fuel) r = [byte_of (48 + r)].
Proof.
  intros Hr. cbn [digits_rev]. destruct (Z.geb_spec r 10); [lia|].
  reflexivity.
Qed.

Lemma appendInt_2 b d1 d0 :
  0 <= d1 <= 9 -> 0 <= d0 <= 9 ->
  appendInt b (d1 * 10 + d0) 2
  = String.append b (String (dc d1) (String (dc d0) EmptyString)).
Proof.
  intros H1 H0. unfold appendInt.
  destruct (Z.ltb_spec (d1 * 10 + d0) 0); [lia|].
  rewrite u64_small by (change (2 ^ 64) with 18446744073709551616; lia).
  destruct (Z.eq_dec d1 0) as [->|N1].
  - change (0 * 10 + d0) with d0. rewrite digits_rev_lt by lia. reflexivity.
  - rewrite digits_rev_ge by lia. rewrite digits_rev_lt by lia. reflexivity.
Qed.

Lemma appendInt_4 b d3 d2 d1 d0 :
  0 <= d3 <= 9 -> 0 <= d2 <= 9 -> 0 <= d1 <= 9 -> 0 <= d0 <= 9 ->
  appendInt b (((d3 * 10 + d2) * 10 + d1) * 10 + d0) 4
  = String.append b
      (String (dc d3) (String (dc d2) (String (dc d1) (String (dc d0)
         EmptyString)))).
Proof.
  intros H3 H2 H1 H0. unfold appendInt.
  destruct (Z.ltb_spec (((d3 * 10 + d2) * 10 + d1) * 10 + d0) 0); [lia|].
  rewrite u64_small by (change (2 ^ 64) with 18446744073709551616; lia).
  destruct (Z.eq_dec d3 0) as [->|N3].
  - change (0 * 10 + d2) with d2.
    destruct (Z.eq_dec d2 0) as [->|N2].
    + change (0 * 10 + d1) with d1.
      destruct (Z.eq_dec d1 0) as [->|N1].
      * change (0 * 10 + d0) with d0. rewrite digits_rev_lt by lia.
        reflexivity.
      * rewrite digits_rev_ge by lia. rewrite digits_rev_lt by lia.
        reflexivity.
    + rewrite digits_rev_ge by lia. rewrite digits_rev_ge by lia.
      rewrite digits_rev_lt by lia. reflexivity.
  - rewrite digits_rev_ge by lia. rewrite digits_rev_ge by lia.
    rewrite digits_rev_ge by lia. rewrite digits_rev_lt by lia. reflexivity.
Qed.

Lemma appendInt_two b c0 c1 :
  is_digit c0 = true -> is_digit c1 = true ->
  appendInt b (two c0 c1) 2
  = String.append b (String c0 (String c1 EmptyString)).
Proof.
  intros D0 D1. unfold two.
  rewrite appendInt_2 by (apply dval_range; assumption).
  unfold dc. rewrite !digit_char by assumption. reflexivity.
Qed.

Lemma appendInt_num4 b c0 c1 c2 c3 :
  is_digit c0 = true -> is_digit c1 = true -> is_digit c2 = true ->
  is_digit c3 = true ->
  appendInt b (num4 c0 c1 c2 c3) 4
  = String.append b
      (String c0 (String c1 (String c2 (String c3 EmptyString)))).
Proof.
  intros D0 D1 D2 D3. unfold num4.
  rewrite appendInt_4 by (apply dval_range; assumption).
  unfold dc. rewrite !digit_char by assumption. reflexivity.
Qed.

Lemma length_take n : forall s,
  String.length (take n s) = Nat.min n (String.length s).
Proof.
  induction n as [|n IH]; intros [|c s]; cbn; try reflexivity.
  rewrite IH. reflexivity.
Qed.

Lemma frac_nanos_range rest ns :
  frac_nanos rest = Some ns -> 0 <= ns < 1000000000.
Proof.
  destruct rest as [|sep ds]; unfold frac_nanos.
  - intros H. injection H as <-. lia.
  - destruct (commaOrPeriod sep && (0 <? len ds) && all_digits ds) eqn:C;
      [|discriminate].
    apply andb_prop in C. destruct C as [_ Hds].
    intros H.
    assert (E : ns = num (take 9 ds) * 10 ^ (9 - Z.min 9 (len ds)))
      by congruence.
    clear H.
    destruct (atoi_digits (take 9 ds) (all_digits_take 9 ds Hds)
                (take_length_le 9 ds)) as (_ & Hlo & Hhi).
    rewrite length_take in Hhi. unfold len in E.
    set (n := num (take 9 ds)) in *.
    set (k := Z.min 9 (Z.of_nat (String.length ds))) in *.
    replace (Z.of_nat (Nat.min 9 (String.length ds))) with k in Hhi
      by (subst k; lia).
    assert (Hk : 0 <= k <= 9) by (subst k; lia).
    assert (Hp : 0 < 10 ^ (9 - k)) by (apply Z.pow_pos_nonneg; lia).
    assert (E' : 10 ^ k * 10 ^ (9 - k) = 1000000000).
    { rewrite <- Z.pow_add_r by lia. replace (k + (9 - k)) with 9 by lia.
      reflexivity. }
    rewrite E. split; [apply Z.mul_nonneg_nonneg; lia|].
    rewrite <- E'. apply Z.mul_lt_mono_pos_r; assumption.
Qed.

(** Formatting the time of a well-formed timestamp gives back its fourteen
    digits. *)
Lemma Format_stamp s t :
  stamp_time s = Some t -> Format_20060102150405 t = take 14 s.
Proof.
  destruct s as [|c0 [|c1 [|c2 [|c3 [|c4 [|c5 [|c6 [|c7 [|c8 [|c9 [|c10
    [|c11 [|c12 [|c13 rest]]]]]]]]]]]]]]; try discriminate.
  cbn [stamp_time forallb].
  destruct (is_digit c0) eqn:D0; [|discriminate].
  destruct (is_digit c1) eqn:D1; [|discriminate].
  destruct (is_digit c2) eqn:D2; [|discriminate].
  destruct (is_digit c3) eqn:D3; [|discriminate].
  destruct (is_digit c4) eqn:D4; [|discriminate].
  destruct (is_digit c5) eqn:D5; [|discriminate].
  destruct (is_digit c6) eqn:D6; [|discriminate].
  destruct (is_digit c7) eqn:D7; [|discriminate].
  destruct (is_digit c8) eqn:D8; [|discriminate].
  destruct (is_digit c9) eqn:D9; [|discriminate].
  destruct (is_digit c10) eqn:D10; [|discriminate].
  destruct (is_digit c11) eqn:D11; [|discriminate].
  destruct (is_digit c12) eqn:D12; [|discriminate].
  destruct (is_digit c13) eqn:D13; [|discriminate].
  cbn [andb]. destruct (frac_nanos rest) as [ns|] eqn:F; [|discriminate].
  destruct (_ && _) eqn:R; [|discriminate].
  intros H. inversion H; subst t. clear H.
  repeat (apply andb_prop in R; destruct R as [R ?]).
  pose proof (two_range _ _ D4 D5). pose proof (two_range _ _ D6 D7).
  pose proof (two_range _ _ D8 D9). pose proof (two_range _ _ D10 D11).
  pose proof (two_range _ _ D12 D13).
  pose proof (num4_range _ _ _ _ D0 D1 D2 D3).
  pose proof (frac_nanos_range _ _ F).
  assert (Hok : civil_ok (num4 c0 c1 c2 c3) (two c4 c5) (two c6 c7)
                  (two c8 c9) (two c10 c11) (two c12 c13) ns)
    by (constructor; lia).
  unfold Format_20060102150405.
  rewrite (abs_civil _ _ _ _ _ _ _ Hok).
  rewrite (absDate_civil _ _ _ _ _ _ _ Hok).
  rewrite (absClock_civil _ _ _ _ _ _ _ Hok).
  unfold layout_20060102150405. cbn [fold_left format_chunk].
  rewrite appendInt_num4 by assumption.
  rewrite !appendInt_two by assumption.
  reflexivity.
Qed.

End TimeFacts.

(** ** Malformed URLs stay malformed when a path is appended *)

Module URLFacts.
Import url URLSpec.

Lemma parse_unfold rawURL :
  parse rawURL =
    if stringContainsCTLByte rawURL then
      inr (url_errorString "net/url: invalid control character in URL")
    else if String.eqb rawURL "*" then
      inl (mkURL "" "" None "" "*" "" false false "" "" "")
    else
      match getScheme rawURL with
      | inr e => inr e
      | inl (scheme, rest) =>
          let '(rest, forceQuery, rawQuery) := split_query rest in
          parse_tail (strings.ToLower scheme) rest forceQuery rawQuery
      end.
Proof.
  unfold parse, split_query, parse_tail.
  destruct (stringContainsCTLByte rawURL); [reflexivity|].
  destruct (String.eqb rawURL "*"); [reflexivity|].
  destruct (getScheme rawURL) as [[scheme rest]|e]; [|reflexivity].
  cbv zeta.
  destruct (strings.HasSuffix rest "?" && (strings.Count_byte rest "?" =? 1)).
  - reflexivity.
  - destruct (strings.Cut rest "?") as [[r q] f]. reflexivity.
Qed.

(** *** Strings and their extensions *)

Local Abbreviation B c := (String c EmptyString) (only parsing).

Lemma app_nil_r s : String.append s EmptyString = s.
Proof. induction s as [|c s IH]; cbn; [|rewrite IH]; reflexivity. Qed.

Lemma app_assoc s1 s2 s3 :
  String.append (String.append s1 s2) s3
  = String.append s1 (String.append s2 s3).
Proof. induction s1 as [|c s1 IH]; cbn; [|rewrite IH]; reflexivity. Qed.

Lemma length_app s y :
  String.length (String.append s y)
  = (String.length s + String.length y)%nat.
Proof. induction s as [|c s IH]; cbn; [|rewrite IH]; reflexivity. Qed.

Lemma take_app_le n : forall s y,
  (n <= String.length s)%nat -> take n (String.append s y) = take n s.
Proof.
  induction n as [|n IH]; intros [|c s] y H; cbn in *; try reflexivity;
    [lia|]. rewrite IH by lia. reflexivity.
Qed.

Lemma take_app_ge s : forall k y,
  take (String.length s + k) (String.append s y)
  = String.append s (take k y).
Proof.
  induction s as [|c s IH]; intros k y; cbn; [reflexivity|].
  rewrite IH. reflexivity.
Qed.

Lemma drop_app_le n : forall s y,
  (n <= String.length s)%nat ->
  drop n (String.append s y) = String.append (drop n s) y.
Proof.
  induction n as [|n IH]; intros [|c s] y H; cbn in *; try reflexivity;
    [lia|]. apply IH. lia.
Qed.

Lemma HasPrefix_app s : forall p y,
  (String.length p <= String.length s)%nat ->
  strings.HasPrefix (String.append s y) p = strings.HasPrefix s p.
Proof.
  induction s as [|c s IH]; intros [|c0 p] y H; cbn in *;
    try reflexivity; try lia.
  - destruct y; reflexivity.
  - rewrite IH by lia. reflexivity.
Qed.

Lemma Index_nil c : strings.Index EmptyString (B c) = None.
Proof. reflexivity. Qed.

Lemma Index_cons c0 s c :
  strings.Index (String c0 s) (B c)
  = if Ascii.eqb c0 c then Some O
    else option_map S (strings.Index s (B c)).
Proof.
  cbn [strings.Index strings.HasPrefix].
  destruct (Ascii.eqb c0 c); destruct s; reflexivity.
Qed.

Lemma Index_lt s c : forall i,
  strings.Index s (B c) = Some i -> (i < String.length s)%nat.
Proof.
  induction s as [|c0 s IH]; intros i; [discriminate|].
  rewrite Index_cons. destruct (Ascii.eqb c0 c).
  - intros H. injection H as <-. cbn. lia.
  - destruct (strings.Index s (B c)) as [j|]; [|discriminate].
    cbn. intros H. injection H as <-. specialize (IH j eq_refl). lia.
Qed.

Lemma Index_app_some s c y : forall i,
  strings.Index s (B c) = Some i ->
  strings.Index (String.append s y) (B c) = Some i.
Proof.
  induction s as [|c0 s IH]; intros i; [discriminate|].
  cbn [String.append]. rewrite !Index_cons. destruct (Ascii.eqb c0 c); auto.
  destruct (strings.Index s (B c)) as [j|]; [|discriminate].
  rewrite (IH j eq_refl). auto.
Qed.

Lemma Index_app_none s c y :
  strings.Index s (B c) = None ->
  strings.Index (String.append s y) (B c)
  = option_map (fun j => (String.length s + j)%nat) (strings.Index y (B c)).
Proof.
  induction s as [|c0 s IH].
  - intros _. cbn. destruct (strings.Index y (B c)); reflexivity.
  - cbn [String.append]. rewrite !Index_cons. destruct (Ascii.eqb c0 c);
      [discriminate|].
    destruct (strings.Index s (B c)) as [j|]; [discriminate|].
    intros _. rewrite IH by reflexivity.
    destruct (strings.Index y (B c)); reflexivity.
Qed.

Lemma Index_slashed x c i :
  slashed x -> Ascii.eqb "/" c = false ->
  strings.Index x (B c) = Some i ->
  slashed (take i x).
Proof.
  intros [t ->] Hc. rewrite Index_cons, Hc.
  destruct (strings.Index t (B c)) as [j|]; [|discriminate].
  cbn. intros H. injection H as <-. cbn. eexists. reflexivity.
Qed.

(** Cutting an extended string at the first [c], which is not a slash:
    the part before it is the same, or is extended by a string that starts
    with a slash. *)
Lemma Cut_app s x c :
  slashed x -> Ascii.eqb "/" c = false ->
  let '(before, after, _) := strings.Cut s (B c) in
  let '(before', after', _) := strings.Cut (String.append s x) (B c) in
  (before' = before /\ after' = String.append after x
   /\ strings.Index s (B c) <> None)
  \/ (exists x', slashed x' /\ before' = String.append before x'
      /\ after = EmptyString /\ strings.Index s (B c) = None).
Proof.
  intros Hx Hc. unfold strings.Cut.
  destruct (strings.Index s (B c)) as [i|] eqn:E.
  - rewrite (Index_app_some _ _ x _ E). left.
    pose proof (Index_lt _ _ _ E). cbn [String.length].
    rewrite take_app_le, drop_app_le by lia. repeat split. discriminate.
  - rewrite (Index_app_none _ _ x E).
    destruct (strings.Index x (B c)) as [j|] eqn:Ex; cbn [option_map];
      right.
    + exists (take j x). rewrite take_app_ge.
      repeat split. eapply Index_slashed; eauto.
    + exists x. auto.
Qed.

(** *** Errors that an extension by a slash keeps *)

Lemma ishex_slash : ishex "/" = false.
Proof. reflexivity. Qed.

Lemma unescape_check_app mode x n : forall s,
  slashed x -> (String.length s <= n)%nat ->
  unescape_check s mode <> None ->
  unescape_check (String.append s x) mode <> None.
Proof.
  induction n as [|n IH]; intros s Hx Hn.
  - destruct s; [|cbn in Hn; lia]. cbn. congruence.
  - destruct s as [|c rest]; [cbn; congruence|].
    cbn [String.length] in Hn.
    cbn [String.append unescape_check].
    destruct (Ascii.eqb c "%").
    + destruct rest as [|h1 [|h2 rest']].
      * destruct Hx as [t ->]. cbn [String.append].
        destruct t as [|h2 t]; [discriminate|].
        rewrite ishex_slash. cbn. discriminate.
      * destruct Hx as [t ->]. cbn [String.append].
        rewrite ishex_slash. rewrite orb_true_r. discriminate.
      * cbn [String.append take].
        destruct (negb (ishex h1) || negb (ishex h2)); [discriminate|].
        destruct (_ && _ && _); [discriminate|].
        destruct (_ && _ && _ && _); [discriminate|].
        apply IH; [assumption|]. cbn [String.length] in Hn. lia.
    + destruct (_ && _ && _ && _); [discriminate|].
      apply IH; [assumption|lia].
Qed.

Lemma unescape_app mode s x :
  slashed x -> fails (unescape s mode) ->
  fails (unescape (String.append s x) mode).
Proof.
  intros Hx [e He]. unfold unescape in *.
  pose proof (unescape_check_app mode x (String.length s) s Hx (le_n _)) as H.
  destruct (unescape_check s mode) as [e0|]; [|discriminate].
  destruct (unescape_check (String.append s x) mode) as [e1|].
  - eexists. reflexivity.
  - exfalso. apply H; [discriminate|reflexivity].
Qed.

Lemma setPath_fails u p : fails (setPath u p) <-> fails (unescape p encodePath).
Proof.
  unfold setPath. destruct (unescape p encodePath) as [path|e].
  - split; intros [e He]; discriminate.
  - split; intros _; eexists; reflexivity.
Qed.

Lemma setPath_app u u' p x :
  slashed x -> fails (setPath u p) -> fails (setPath u' (String.append p x)).
Proof.
  intros Hx H. apply setPath_fails. apply unescape_app; [assumption|].
  eapply setPath_fails, H.
Qed.

Lemma setPath_nil u : ~ fails (setPath u EmptyString).
Proof. intros [e He]. discriminate. Qed.

Lemma setFragment_app u u' f x :
  slashed x -> fails (setFragment u f) ->
  fails (setFragment u' (String.append f x)).
Proof.
  intros Hx [e He]. unfold setFragment in *.
  destruct (unescape f encodeFragment) as [frag|e0] eqn:E; [discriminate|].
  destruct (unescape_app encodeFragment f x Hx) as [e1 E1].
  { rewrite E. eexists. reflexivity. }
  rewrite E1. eexists. reflexivity.
Qed.

Lemma getScheme_loop_app x : forall s raw i,
  slashed x -> (i + String.length s <= String.length raw)%nat ->
  match getScheme_loop raw i s with
  | inr e =>
      getScheme_loop (String.append raw x) i (String.append s x) = inr e
  | inl (scheme, rest) =>
      getScheme_loop (String.append raw x) i (String.append s x)
      = inl (scheme, String.append rest x)
  end.
Proof.
  induction s as [|c s IH]; intros raw i Hx Hi.
  - destruct Hx as [t ->]. reflexivity.
  - cbn [String.length] in Hi. cbn [String.append getScheme_loop].
    destruct (is_lower c || is_upper c); [apply IH; [assumption|lia]|].
    destruct (time.is_digit c || byte_in c "+-.").
    + destruct (i =? 0)%nat; [reflexivity|]. apply IH; [assumption|lia].
    + destruct (Ascii.eqb c ":"); [|reflexivity].
      destruct (i =? 0)%nat; [reflexivity|].
      rewrite take_app_le by lia. reflexivity.
Qed.

Lemma getScheme_app raw x :
  slashed x ->
  match getScheme raw with
  | inr e => getScheme (String.append raw x) = inr e
  | inl (scheme, rest) =>
      getScheme (String.append raw x) = inl (scheme, String.append rest x)
  end.
Proof.
  intros Hx. unfold getScheme. apply getScheme_loop_app; [assumption|].
  cbn. lia.
Qed.

Lemma eqb_star_app s x : slashed x -> String.eqb (String.append s x) "*" = false.
Proof.
  intros [t ->]. destruct s as [|c [|c' s]]; cbn; try reflexivity;
    destruct (Ascii.eqb c "*"); reflexivity.
Qed.

(** *** The query *)

Lemma Count_app s y c :
  strings.Count_byte (String.append s y) c
  = strings.Count_byte s c + strings.Count_byte y c.
Proof. induction s as [|c0 s IH]; cbn; [|rewrite IH]; lia. Qed.

Lemma Count_nonneg s c : 0 <= strings.Count_byte s c.
Proof.
  induction s as [|c0 s IH]; cbn; [lia|]. destruct (Ascii.eqb c0 c); lia.
Qed.

Lemma HasSuffix_nil c : strings.HasSuffix EmptyString (B c) = false.
Proof. reflexivity. Qed.

Lemma HasSuffix_one c0 c :
  strings.HasSuffix (B c0) (B c) = Ascii.eqb c0 c.
Proof.
  unfold strings.HasSuffix. cbn. destruct (Ascii.eqb c0 c); reflexivity.
Qed.

Lemma HasSuffix_cons c0 c1 s c :
  strings.HasSuffix (String c0 (String c1 s)) (B c)
  = strings.HasSuffix (String c1 s) (B c).
Proof.
  unfold strings.HasSuffix. cbn [String.length Nat.leb Nat.sub drop].
  rewrite Nat.sub_0_r. reflexivity.
Qed.

Lemma HasSuffix_app s c0 t c :
  strings.HasSuffix (String.append s (String c0 t)) (B c)
  = strings.HasSuffix (String c0 t) (B c).
Proof.
  induction s as [|c1 s IH]; [reflexivity|].
  cbn [String.append].
  destruct (String.append s (String c0 t)) as [|c2 r] eqn:E.
  - destruct s; discriminate.
  - rewrite HasSuffix_cons. exact IH.
Qed.

Lemma HasSuffix_Count s c :
  strings.HasSuffix s (B c) = true -> 1 <= strings.Count_byte s c.
Proof.
  induction s as [|c0 [|c1 s] IH].
  - discriminate.
  - rewrite HasSuffix_one. intros H. cbn. rewrite H. lia.
  - rewrite HasSuffix_cons. intros H. specialize (IH H).
    cbn [strings.Count_byte] in *. destruct (Ascii.eqb c0 c); lia.
Qed.

Lemma Index_none_Count s c :
  strings.Index s (B c) = None -> strings.Count_byte s c = 0.
Proof.
  induction s as [|c0 s IH]; [reflexivity|].
  rewrite Index_cons. cbn [strings.Count_byte].
  destruct (Ascii.eqb c0 c); [discriminate|].
  destruct (strings.Index s (B c)); [discriminate|].
  intros _. rewrite IH; reflexivity.
Qed.

Lemma Index_some_Count s c i :
  strings.Index s (B c) = Some i -> 1 <= strings.Count_byte s c.
Proof.
  intros H. destruct (Z.eq_dec (strings.Count_byte s c) 0) as [E|E].
  - exfalso. revert i H E. induction s as [|c0 s IH]; intros i;
      [discriminate|].
    rewrite Index_cons. cbn [strings.Count_byte].
    pose proof (Count_nonneg s c).
    destruct (Ascii.eqb c0 c); [lia|].
    destruct (strings.Index s (B c)) as [j|]; [|discriminate].
    intros _ E. apply (IH j); [reflexivity|lia].
  - pose proof (Count_nonneg s c). lia.
Qed.

(** The one [c] of a string that ends with it is its last byte. *)
Lemma Index_last s c :
  strings.HasSuffix s (B c) = true -> strings.Count_byte s c = 1 ->
  strings.Index s (B c) = Some (String.length s - 1)%nat.
Proof.
  induction s as [|c0 [|c1 s] IH].
  - discriminate.
  - rewrite HasSuffix_one, Index_cons. intros H _. rewrite H. reflexivity.
  - rewrite HasSuffix_cons. intros H C.
    pose proof (HasSuffix_Count _ _ H) as C1.
    cbn [strings.Count_byte] in C, C1.
    rewrite Index_cons. cbn [strings.Count_byte] in IH.
    destruct (Ascii.eqb c0 c); [lia|].
    rewrite IH by (assumption || lia). cbn [String.length option_map].
    f_equal. lia.
Qed.

Lemma question_not_slash : Ascii.eqb "/" "?" = false.
Proof. reflexivity. Qed.

(** The part of [rest] before the query, when [rest] is extended by a
    string that starts with a slash. *)
Lemma split_query_app rest x :
  slashed x ->
  let '(r, _, _) := split_query rest in
  let '(r', _, _) := split_query (String.append rest x) in
  r' = r \/ exists x', slashed x' /\ r' = String.append r x'.
Proof.
  intros Hx.
  assert (Hr : exists i q f,
             split_query rest = (match strings.Index rest (B "?") with
                                 | Some i => take i rest
                                 | None => rest
                                 end, f, q)
             /\ i = 0%nat).
  { unfold split_query.
    destruct (strings.HasSuffix rest "?"
              && (strings.Count_byte rest "?" =? 1)) eqn:C.
    - apply andb_prop in C. destruct C as [C1 C2].
      apply Z.eqb_eq in C2. rewrite (Index_last _ _ C1 C2). eauto.
    - unfold strings.Cut.
      destruct (strings.Index rest "?") as [i|]; eauto. }
  destruct Hr as (_ & q & f & -> & _).
  unfold split_query.
  destruct (strings.HasSuffix (String.append rest x) "?"
            && (strings.Count_byte (String.append rest x) "?" =? 1)) eqn:C.
  - apply andb_prop in C. destruct C as [C1 C2]. apply Z.eqb_eq in C2.
    destruct Hx as [t ->]. rewrite HasSuffix_app in C1.
    rewrite Count_app in C2. pose proof (HasSuffix_Count _ _ C1) as C3.
    destruct (strings.Index rest "?") as [i|] eqn:E.
    + pose proof (Index_some_Count _ _ _ E). lia.
    + right. destruct t as [|c1 t]; [discriminate|].
      exists (String "/" (take (String.length t) (String c1 t))).
      split; [eexists; reflexivity|].
      rewrite length_app. cbn [String.length].
      replace (String.length rest + S (S (String.length t)) - 1)%nat
        with (String.length rest + S (String.length t))%nat by lia.
      rewrite take_app_ge. reflexivity.
  - pose proof (Cut_app rest x "?" Hx question_not_slash) as H.
    unfold strings.Cut in *.
    destruct (strings.Index rest "?") as [i|] eqn:E;
      destruct (strings.Index (String.append rest x) "?") as [j|] eqn:E';
      destruct H as [(H1 & H2 & H3)|(x' & H1 & H2 & H3 & H4)];
      try congruence; auto.
    + right. exists x'. auto.
    + right. exists x'. auto.
Qed.

(** *** The part after the scheme *)

Lemma parse_tail_fails_irrelevant scheme r fq rq fq' rq' :
  fails (parse_tail scheme r fq rq) -> fails (parse_tail scheme r fq' rq').
Proof.
  unfold parse_tail.
  destruct (negb (strings.HasPrefix r "/") && negb (String.eqb scheme ""));
    [intros [e He]; discriminate|].
  destruct (negb (strings.HasPrefix r "/") && _); [intros _; eexists; reflexivity|].
  destruct ((negb (String.eqb scheme "") || negb (strings.HasPrefix r "///"))
            && strings.HasPrefix r "//").
  - destruct (strings.Index (drop 2 r) "/") as [i|];
      (destruct (parseAuthority _) as [[user host]|e];
       [|intros _; eexists; reflexivity]);
      intros H; eapply setPath_fails, setPath_fails, H.
  - destruct (negb (String.eqb scheme "") && strings.HasPrefix r "/");
      intros H; eapply setPath_fails, setPath_fails, H.
Qed.

(** The three strings whose extension by a slash reads differently: none of
    them fails. *)
Lemma parse_tail_short scheme r fq rq :
  r = "" \/ r = "/" \/ r = "//" -> ~ fails (parse_tail scheme r fq rq).
Proof.
  intros [-> | [-> | ->]] [e He]; unfold parse_tail in He;
    destruct (String.eqb scheme ""); vm_compute in He; discriminate.
Qed.

Lemma HasPrefix_app_long r x :
  slashed x -> r <> "" -> r <> "/" -> r <> "//" ->
  strings.HasPrefix (String.append r x) "/" = strings.HasPrefix r "/"
  /\ strings.HasPrefix (String.append r x) "//" = strings.HasPrefix r "//"
  /\ strings.HasPrefix (String.append r x) "///" = strings.HasPrefix r "///".
Proof.
  intros [t ->] H0 H1 H2.
  destruct r as [|c0 [|c1 [|c2 r3]]].
  - congruence.
  - destruct (Ascii.eqb_spec c0 "/") as [->|N]; [congruence|].
    cbn. apply Ascii.eqb_neq in N. rewrite N. auto.
  - cbn. destruct (Ascii.eqb_spec c0 "/") as [->|N0]; cbn; auto.
    destruct (Ascii.eqb_spec c1 "/") as [->|N1]; cbn; auto. congruence.
  - repeat split; apply HasPrefix_app; cbn; lia.
Qed.

Lemma HasPrefix_length s p :
  strings.HasPrefix s p = true -> (String.length p <= String.length s)%nat.
Proof.
  revert p. induction s as [|c s IH]; intros [|c0 p]; cbn; try lia;
    try discriminate.
  intros H. apply andb_prop in H. destruct H as [_ H].
  specialize (IH p H). lia.
Qed.

(** The first segment of a path that is extended by a slash and more. *)
Lemma first_segment_app r x :
  slashed x ->
  fst (fst (strings.Cut (String.append r x) "/"))
  = fst (fst (strings.Cut r "/")).
Proof.
  intros [t ->]. unfold strings.Cut.
  destruct (strings.Index r "/") as [i|] eqn:E.
  - rewrite (Index_app_some _ _ _ _ E). cbn [fst].
    pose proof (Index_lt _ _ _ E). apply take_app_le. lia.
  - rewrite (Index_app_none _ _ _ E). rewrite Index_cons. cbn [fst option_map
      Ascii.eqb Bool.eqb].
    rewrite Nat.add_0_r.
    replace (String.length r) with (String.length r + 0)%nat at 1 by lia.
    rewrite take_app_ge. cbn [take]. apply app_nil_r.
Qed.

Lemma parse_tail_app scheme r x fq rq fq' rq' :
  slashed x ->
  fails (parse_tail scheme r fq rq) ->
  fails (parse_tail scheme (String.append r x) fq' rq').
Proof.
  intros Hx Hf.
  destruct (String.eqb_spec r "") as [E0|N0];
    [exfalso; apply (parse_tail_short scheme r fq rq); [auto|exact Hf]|].
  destruct (String.eqb_spec r "/") as [E1|N1];
    [exfalso; apply (parse_tail_short scheme r fq rq); [auto|exact Hf]|].
  destruct (String.eqb_spec r "//") as [E2|N2];
    [exfalso; apply (parse_tail_short scheme r fq rq); [auto|exact Hf]|].
  destruct (HasPrefix_app_long r x Hx N0 N1 N2) as (P1 & P2 & P3).
  pose proof (first_segment_app r x Hx) as S1.
  revert Hf. unfold parse_tail. rewrite P1, P2, P3.
  destruct (negb (strings.HasPrefix r "/") && negb (String.eqb scheme ""));
    [intros [e He]; discriminate|].
  destruct (strings.Cut r "/") as [[seg a1] b1].
  destruct (strings.Cut (String.append r x) "/") as [[seg' a2] b2].
  cbn [fst] in S1. subst seg'.
  destruct (negb (strings.HasPrefix r "/") && strings.Contains seg ":");
    [intros _; eexists; reflexivity|].
  destruct ((negb (String.eqb scheme "") || negb (strings.HasPrefix r "///"))
            && strings.HasPrefix r "//") eqn:A.
  - apply andb_prop in A. destruct A as [_ A].
    apply HasPrefix_length in A. cbn [String.length] in A.
    rewrite drop_app_le by lia.
    destruct (strings.Index (drop 2 r) "/") as [i|] eqn:E.
    + rewrite (Index_app_some _ _ _ _ E).
      pose proof (Index_lt _ _ _ E).
      rewrite take_app_le, drop_app_le by lia.
      destruct (parseAuthority _) as [[user host]|e];
        [|intros _; eexists; reflexivity].
      apply setPath_app, Hx.
    + rewrite (Index_app_none _ _ _ E).
      destruct Hx as [t ->]. rewrite Index_cons.
      cbn [Ascii.eqb Bool.eqb option_map]. rewrite Nat.add_0_r.
      replace (take (String.length (drop 2 r))
                 (String.append (drop 2 r) (String "/" t)))
        with (drop 2 r)
        by (symmetry;
            replace (String.length (drop 2 r))
              with (String.length (drop 2 r) + 0)%nat at 1 by lia;
            rewrite take_app_ge; apply app_nil_r).
      destruct (parseAuthority _) as [[user host]|e];
        [|intros _; eexists; reflexivity].
      intros H. exfalso. eapply setPath_nil, H.
  - destruct (negb (String.eqb scheme "") && strings.HasPrefix r "/");
      apply setPath_app, Hx.
Qed.

(** *** [parse] and [Parse] *)

Lemma CTL_app_false s x :
  stringContainsCTLByte (String.append s x) = false ->
  stringContainsCTLByte s = false.
Proof.
  induction s as [|c s IH]; [reflexivity|].
  cbn [String.append stringContainsCTLByte].
  destruct ((byte_val c <? 32) || (byte_val c =? 127)); [discriminate|].
  exact IH.
Qed.

Lemma parse_app s x :
  slashed x -> fails (parse s) -> fails (parse (String.append s x)).
Proof.
  intros Hx. rewrite !parse_unfold.
  destruct (stringContainsCTLByte (String.append s x)) eqn:C';
    [intros _; eexists; reflexivity|].
  rewrite (CTL_app_false s x C'), (eqb_star_app s x Hx).
  destruct (String.eqb s "*"); [intros [e He]; discriminate|].
  pose proof (getScheme_app s x Hx) as G.
  destruct (getScheme s) as [[scheme rest]|e]; rewrite G;
    [|intros _; eexists; reflexivity].
  pose proof (split_query_app rest x Hx) as Q.
  destruct (split_query rest) as [[r fq] rq].
  destruct (split_query (String.append rest x)) as [[r' fq'] rq'].
  destruct Q as [->|(x' & Hx' & ->)].
  - apply parse_tail_fails_irrelevant.
  - apply parse_tail_app, Hx'.
Qed.

Lemma hash_not_slash : Ascii.eqb "/" "#" = false.
Proof. reflexivity. Qed.

Lemma eqb_app_slashed s x : slashed x -> String.eqb (String.append s x) "" = false.
Proof. intros [t ->]. destruct s; reflexivity. Qed.

(** A string that does not parse as a URL does not parse either when it is
    extended by a slash and anything more. *)
Lemma Parse_app s x :
  slashed x ->
  (exists e, url.Parse s = Err e) ->
  exists e, url.Parse (String.append s x) = Err e.
Proof.
  intros Hx [e He]. unfold url.Parse in *.
  pose proof (Cut_app s x "#" Hx hash_not_slash) as C.
  destruct (strings.Cut s "#") as [[u frag] f].
  destruct (strings.Cut (String.append s x) "#") as [[u' frag'] f'].
  destruct C as [(-> & -> & _)|(x' & Hx' & -> & -> & _)].
  - destruct (parse u) as [v|c]; [|eexists; reflexivity].
    rewrite (eqb_app_slashed frag x Hx).
    destruct (String.eqb frag ""); [discriminate|].
    destruct (setFragment v frag) as [v'|c] eqn:F; [discriminate|].
    destruct (setFragment_app v v frag x Hx) as [c' F'].
    { rewrite F. eexists. reflexivity. }
    rewrite F'. eexists. reflexivity.
  - destruct (parse u) as [v|c] eqn:P; [discriminate|].
    destruct (parse_app u x' Hx') as [c' P'].
    { rewrite P. eexists. reflexivity. }
    rewrite P'. eexists. reflexivity.
Qed.

End URLFacts.

(** ** The timestamp *)

Section TimestampFacts.
Import time TimeSpec TimeFacts.

Lemma ReplaceAll_byte_app s1 s2 old :
  strings.ReplaceAll_byte (String.append s1 s2) old
  = String.append (strings.ReplaceAll_byte s1 old)
      (strings.ReplaceAll_byte s2 old).
Proof.
  induction s1 as [|c s1 IH]; cbn; [reflexivity|].
  rewrite IH. destruct (Ascii.eqb c old); reflexivity.
Qed.

Lemma ReplaceAll_byte_interior pre post old :
  strings.ReplaceAll_byte (String.append pre (String old post)) old
  = strings.ReplaceAll_byte (String.append pre post) old.
Proof.
  rewrite !ReplaceAll_byte_app. cbn [strings.ReplaceAll_byte].
  rewrite Ascii.eqb_refl. reflexivity.
Qed.

(** Every error of [Parse] is a [*time.ParseError]. *)
Lemma parse_loop_error A V l : forall f v e,
  parse_loop A V l f v = Err e ->
  exists le ve m, e = time_ParseError A V le ve m.
Proof.
  induction l as [|s l IH]; intros f v e; cbn [parse_loop].
  - destruct (negb (len v =? 0)); [|discriminate].
    intros H. injection H as <-. eauto.
  - destruct (parse_chunk s f v) as [f' v'|what v'|hold].
    + apply IH.
    + intros H. injection H as <-. eauto.
    + intros H. injection H as <-. eauto.
Qed.

Lemma Parse_error s e :
  Parse_20060102150405 s = Err e ->
  exists le ve m, e = time_ParseError "20060102150405" s le ve m.
Proof.
  unfold Parse_20060102150405.
  destruct (parse_loop _ _ _ _ _) as [[f v]|e0] eqn:L.
  - destruct (_ || _); [|discriminate].
    intros H. injection H as <-. eauto.
  - intros H. injection H as <-. eapply parse_loop_error, L.
Qed.

Lemma take_14_length s : String.length s = 14%nat -> take 14 s = s.
Proof. intros H. apply take_all. lia. Qed.

End TimestampFacts.

(** C10. [UnmarshalJSON] deletes every double quote of its input, wherever
    it stands, before it parses: a quote inside the token changes nothing,
    and an input that is, without its quotes, the fourteen digits of a valid
    [YYYYMMDDHHMMSS] date and time decodes to that time, which formats back
    to the fourteen digits. *)
Theorem UnmarshalJSON_deletes_all_quotes :
  (forall p pre post,
     UnmarshalJSON p (String.append pre (String dquote post))
     = UnmarshalJSON p (String.append pre post))
  /\ (forall p bytes t,
        String.length (strings.ReplaceAll_byte bytes dquote) = 14%nat ->
        TimeSpec.stamp_time (strings.ReplaceAll_byte bytes dquote) = Some t ->
        UnmarshalJSON p bytes = (mkTimestamp t, None)
        /\ time.Format_20060102150405 t
           = strings.ReplaceAll_byte bytes dquote).
Proof.
  split.
  - intros p pre post. unfold UnmarshalJSON.
    rewrite ReplaceAll_byte_interior. reflexivity.
  - intros p bytes t Hlen Hs. split.
    + unfold UnmarshalJSON. rewrite (TimeFacts.Parse_complete _ _ Hs).
      reflexivity.
    + rewrite (TimeFacts.Format_stamp _ _ Hs). apply take_14_length, Hlen.
Qed.

Lemma UnmarshalJSON_deletes_all_quotes_witness :
  UnmarshalJSON (mkTimestamp (time.mkTime 0 0 time.UTC)) interior_quotes
  = (mkTimestamp (time.Date 2024 1 15 9 30 0 0 time.UTC), None)
  /\ time.Format_20060102150405 (time.Date 2024 1 15 9 30 0 0 time.UTC)
     = "20240115093000".
Proof.
  apply (proj2 UnmarshalJSON_deletes_all_quotes
           (mkTimestamp (time.mkTime 0 0 time.UTC)) interior_quotes
           (time.Date 2024 1 15 9 30 0 0 time.UTC)).
  - reflexivity.
  - vm_compute. reflexivity.
Defined.

(** C4, as amended.  ["20240115093000"] decodes to 2024-01-15 09:30:00 UTC.
    An input decodes exactly when, without its double quotes, it is
    fourteen digits of a valid date and time followed by nothing or by a
    fractional second ([TimeSpec.stamp_time]); every other input fails with
    a [*time.ParseError] and leaves the timestamp as it was. *)
Theorem UnmarshalJSON_format :
  (forall p,
     UnmarshalJSON p (quoted "20240115093000")
     = (mkTimestamp (time.Date 2024 1 15 9 30 0 0 time.UTC), None)
     /\ time.Time_Date (time.Date 2024 1 15 9 30 0 0 time.UTC) = (2024, 1, 15)
     /\ time.Time_Clock (time.Date 2024 1 15 9 30 0 0 time.UTC) = (9, 30, 0)
     /\ time.loc (time.Date 2024 1 15 9 30 0 0 time.UTC) = time.UTC)
  /\ (forall p bytes,
        match TimeSpec.stamp_time (strings.ReplaceAll_byte bytes dquote) with
        | Some t => UnmarshalJSON p bytes = (mkTimestamp t, None)
        | None =>
            exists le ve m,
              UnmarshalJSON p bytes
              = (p, Some (time_ParseError "20060102150405"
                            (strings.ReplaceAll_byte bytes dquote) le ve m))
        end).
Proof.
  split.
  - intros p. repeat split; vm_compute; reflexivity.
  - intros p bytes. unfold UnmarshalJSON.
    pose proof (TimeFacts.Parse_stamp (strings.ReplaceAll_byte bytes dquote))
      as H.
    destruct (TimeSpec.stamp_time _) as [t|].
    + rewrite H. reflexivity.
    + destruct H as (e & H). rewrite H.
      destruct (Parse_error _ _ H) as (le & ve & m & ->). eauto.
Qed.

(** C4, as written, fails: a fractional second after the fourteen digits is
    accepted, so an input of the wrong length with a byte that is not a
    digit decodes. *)
Lemma UnmarshalJSON_accepts_fractional_second :
  String.length (strings.ReplaceAll_byte (quoted "20240115093000.5") dquote)
    <> 14%nat
  /\ TimeSpec.all_digits
       (strings.ReplaceAll_byte (quoted "20240115093000.5") dquote) = false
  /\ UnmarshalJSON (mkTimestamp (time.mkTime 0 0 time.UTC))
       (quoted "20240115093000.5")
     = (mkTimestamp (time.Date 2024 1 15 9 30 0 500000000 time.UTC), None).
Proof.
  split; [vm_compute; discriminate|].
  split; vm_compute; reflexivity.
Qed.

(** C7, as amended.  The time of a timestamp that decodes formats, with the
    layout it was parsed with, to the first fourteen bytes of the input
    without its double quotes: to all of it when nothing follows the
    fourteen digits. *)
Theorem Format_UnmarshalJSON p bytes t :
  UnmarshalJSON p bytes = (mkTimestamp t, None) ->
  time.Format_20060102150405 t
  = take 14 (strings.ReplaceAll_byte bytes dquote)
  /\ (String.length (strings.ReplaceAll_byte bytes dquote) = 14%nat ->
      time.Format_20060102150405 t = strings.ReplaceAll_byte bytes dquote).
Proof.
  unfold UnmarshalJSON.
  destruct (time.Parse_20060102150405 _) as [t'|e] eqn:P; [|discriminate].
  intros H. injection H as <-.
  apply TimeFacts.Parse_sound in P.
  pose proof (TimeFacts.Format_stamp _ _ P) as F.
  split; [exact F|]. intros L. rewrite F. apply take_14_length, L.
Qed.

Lemma Format_UnmarshalJSON_witness :
  time.Format_20060102150405 (time.Date 1999 12 31 23 59 59 0 time.UTC)
  = take 14 (strings.ReplaceAll_byte (quoted "19991231235959") dquote)
  /\ (String.length
        (strings.ReplaceAll_byte (quoted "19991231235959") dquote) = 14%nat ->
      time.Format_20060102150405 (time.Date 1999 12 31 23 59 59 0 time.UTC)
      = strings.ReplaceAll_byte (quoted "19991231235959") dquote).
Proof.
  apply (Format_UnmarshalJSON (mkTimestamp (time.mkTime 0 0 time.UTC))
           (quoted "19991231235959")).
  vm_compute. reflexivity.
Defined.

(** C7, as written, fails: the fractional second of an input is not
    formatted back. *)
Lemma Format_drops_fractional_second :
  UnmarshalJSON (mkTimestamp (time.mkTime 0 0 time.UTC))
    (quoted "20240115093000.5")
  = (mkTimestamp (time.Date 2024 1 15 9 30 0 500000000 time.UTC), None)
  /\ time.Format_20060102150405
       (time.Date 2024 1 15 9 30 0 500000000 time.UTC)
     = "20240115093000"
  /\ time.Format_20060102150405
       (time.Date 2024 1 15 9 30 0 500000000 time.UTC)
     <> strings.ReplaceAll_byte (quoted "20240115093000.5") dquote.
Proof.
  split; [vm_compute; reflexivity|].
  split; [vm_compute; reflexivity|].
  vm_compute. discriminate.
Qed.

(** ** The client *)

Lemma string_app_assoc s1 s2 s3 :
  String.append (String.append s1 s2) s3
  = String.append s1 (String.append s2 s3).
Proof. induction s1 as [|c s1 IH]; cbn; [|rewrite IH]; reflexivity. Qed.

Section FetchFacts.

Variable network : http.Request -> result http.Response.

(** What [fetch] does, by the outcome of [http.NewRequest] and of the
    network. *)
Lemma fetch_unfold a u :
  fetch network a u =
    match http.NewRequest "GET" (url.URL_String u) with
    | Err err => (returns (None, Some err), [])
    | Ok req =>
        (returns
           match network (with_headers a req) with
           | Err err => (None, Some err)
           | Ok resp =>
               if negb (http.StatusCode resp =? http.StatusOK)
               then (Some resp, Some (errors_New "Request Not 200 OK"))
               else (Some resp, None)
           end,
         [ev_request (with_headers a req)])
    end.
Proof.
  unfold fetch. destruct (http.NewRequest _ _) as [req|err]; [|reflexivity].
  fold (with_headers a req). unfold Client_Do, bind, ret.
  destruct (network (with_headers a req)) as [resp|err]; [|reflexivity].
  destruct (negb _); reflexivity.
Qed.

Lemma fetch_requests a u req :
  In req (requests (trace (fetch network a u))) ->
  exists req0,
    http.NewRequest "GET" (url.URL_String u) = Ok req0
    /\ req = with_headers a req0
    /\ trace (fetch network a u) = [ev_request req].
Proof.
  rewrite fetch_unfold.
  destruct (http.NewRequest _ _) as [req0|err]; cbn; [|tauto].
  intros [<-|[]]. eauto.
Qed.

Section ViaFetch.

Context {A : Type}.
Variable decode : string -> M (option A * option error).
Hypothesis decode_sends_nothing :
  forall body, requests (trace (decode body)) = [].

Lemma requests_app t1 t2 :
  requests (t1 ++ t2) = (requests t1 ++ requests t2)%list.
Proof.
  induction t1 as [|[r|e] t1 IH]; cbn; [reflexivity| |exact IH].
  rewrite IH. reflexivity.
Qed.

Lemma trace_bind {B C : Type} (x : B) t (k : B -> M C) :
  trace (bind (returns x, t) k) = (t ++ trace (k x))%list.
Proof. unfold bind, trace. destruct (k x). reflexivity. Qed.

(** A URL that does not parse: the error is returned and nothing is
    sent. *)
Lemma via_fetch_url_error a path e :
  url.Parse (String.append (apiEndpoint a) path) = Err e ->
  via_fetch network a path decode = (returns (None, Some e), []).
Proof.
  intros H. unfold via_fetch, GetApiURL. rewrite H. reflexivity.
Qed.

(** The one request an operation may send. *)
Lemma via_fetch_requests a path req :
  In req (requests (trace (via_fetch network a path decode))) ->
  exists u req0,
    url.Parse (String.append (apiEndpoint a) path) = Ok u
    /\ http.NewRequest "GET" (url.URL_String u) = Ok req0
    /\ req = with_headers a req0
    /\ requests (trace (via_fetch network a path decode)) = [req].
Proof.
  unfold via_fetch, GetApiURL.
  destruct (url.Parse _) as [u|e] eqn:P; [|cbn; tauto].
  rewrite fetch_unfold.
  destruct (http.NewRequest _ _) as [req0|err] eqn:R; [|cbn; tauto].
  rewrite trace_bind. cbn [requests app].
  match goal with
  | |- context [requests (trace ?m)] =>
      assert (N : requests (trace m) = [])
  end.
  { destruct (network (with_headers a req0)) as [resp|err]; [|reflexivity].
    destruct (negb _); [reflexivity|]. apply decode_sends_nothing. }
  rewrite N. intros [<-|[]]. exists u, req0. auto.
Qed.

(** A response that is not 200: an error and no value. *)
Lemma via_fetch_not_200 a path req resp :
  In req (requests (trace (via_fetch network a path decode))) ->
  network req = Ok resp ->
  http.StatusCode resp <> http.StatusOK ->
  via_fetch network a path decode
  = (returns (None, Some (errors_New "Request Not 200 OK")),
     [ev_request req]).
Proof.
  intros Hin Hnet Hs.
  destruct (via_fetch_requests a path req Hin) as (u & req0 & P & R & -> & _).
  unfold via_fetch, GetApiURL. rewrite P, fetch_unfold, R, Hnet.
  destruct (Z.eqb_spec (http.StatusCode resp) http.StatusOK); [tauto|].
  reflexivity.
Qed.

(** A response that is 200: the body is decoded. *)
Lemma via_fetch_200 a path req resp :
  In req (requests (trace (via_fetch network a path decode))) ->
  network req = Ok resp ->
  http.StatusCode resp = http.StatusOK ->
  via_fetch network a path decode
  = (result_of (decode (http.Body resp)),
     ev_request req :: trace (decode (http.Body resp))).
Proof.
  intros Hin Hnet Hs.
  destruct (via_fetch_requests a path req Hin) as (u & req0 & P & R & -> & _).
  unfold via_fetch, GetApiURL. rewrite P, fetch_unfold, R, Hnet.
  destruct (Z.eqb_spec (http.StatusCode resp) http.StatusOK); [|tauto].
  cbn [negb]. unfold bind.
  destruct (decode (http.Body resp)) as [o t]. reflexivity.
Qed.

End ViaFetch.

Lemma decoded_sends_nothing {A : Type} (D : string -> result A) body :
  requests (trace (decoded D body)) = [].
Proof. unfold decoded. destruct (D body); reflexivity. Qed.

Lemma decoded_logged_sends_nothing {A : Type} (D : string -> result A) body :
  requests (trace (decoded_logged D body)) = [].
Proof. unfold decoded_logged. destruct (D body); reflexivity. Qed.

Lemma decoded_hashes_sends_nothing body :
  requests (trace (decoded_hashes body)) = [].
Proof.
  unfold decoded_hashes. destruct (json.Decode_hashes body); reflexivity.
Qed.

End FetchFacts.

Section OperationFacts.

Variable network : http.Request -> result http.Response.
Variable Decode_RevisionInfo : string -> result RevisionInfo.
Variable Decode_Revision : string -> result Revision.
Variable Decode_ServerInfo : string -> result ServerInfo.

(** Each operation is [via_fetch] at its path and decoder. *)
Lemma GetHashChainInfo_via_fetch a id_type id :
  id_type = "genesis_hash" \/ id_type = "title" ->
  GetHashChainInfo network Decode_RevisionInfo a id_type id
  = via_fetch network a
      (String.append
         (String.append (String.append endpoint_get_hash_chain_info id_type)
            "/") id)
      (decoded_logged Decode_RevisionInfo).
Proof. intros [-> | ->]; reflexivity. Qed.

Lemma GetRevisionHashes_via_fetch a h :
  GetRevisionHashes network a h
  = via_fetch network a (String.append endpoint_get_revision_hashes h)
      decoded_hashes.
Proof. reflexivity. Qed.

Lemma GetRevision_via_fetch a h :
  GetRevision network Decode_Revision a h
  = via_fetch network a (String.append endpoint_get_revision h)
      (decoded Decode_Revision).
Proof. reflexivity. Qed.

Lemma GetServerInfo_via_fetch a :
  GetServerInfo network Decode_ServerInfo a
  = via_fetch network a endpoint_get_server_info (decoded Decode_ServerInfo).
Proof. reflexivity. Qed.

(** An [id_type] that is not one of the two: the panic. *)
Lemma GetHashChainInfo_panic a id_type id :
  id_type <> "genesis_hash" -> id_type <> "title" ->
  GetHashChainInfo network Decode_RevisionInfo a id_type id
  = (panics "wtf", []).
Proof.
  intros H1 H2. unfold GetHashChainInfo.
  apply String.eqb_neq in H1. apply String.eqb_neq in H2.
  rewrite H1, H2. reflexivity.
Qed.

(** The path of [GetHashChainInfo], written out. *)
Lemma GetHashChainInfo_composed a id_type id :
  id_type = "genesis_hash" \/ id_type = "title" ->
  GetHashChainInfo network Decode_RevisionInfo a id_type id
  = via_fetch network a
      (String.append "/data_accounting/get_hash_chain_info/"
         (String.append id_type (String.append "/" id)))
      (decoded_logged Decode_RevisionInfo).
Proof.
  intros H. rewrite (GetHashChainInfo_via_fetch a id_type id H).
  unfold endpoint_get_hash_chain_info. rewrite !string_app_assoc.
  reflexivity.
Qed.

End OperationFacts.

(** ** Decoding an empty array *)

Lemma skip_space_app ws s :
  all_space ws = true ->
  json.skip_space (String.append ws s) = json.skip_space s.
Proof.
  induction ws as [|c ws IH]; cbn; [reflexivity|].
  intros H. apply andb_prop in H. destruct H as [Hc Hws].
  rewrite Hc. apply IH, Hws.
Qed.

Lemma Decode_hashes_empty_array ws1 ws2 rest :
  all_space ws1 = true -> all_space ws2 = true ->
  json.Decode_hashes
    (String.append ws1
       (String "[" (String.append ws2 (String "]" rest))))
  = Ok (Some []).
Proof.
  intros H1 H2. unfold json.Decode_hashes, json.readValue.
  rewrite (skip_space_app ws1 _ H1).
  cbn [json.skip_space json.isSpace]. vm_compute (json.isSpace "[").
  cbn iota. cbn [json.scan_value].
  rewrite (skip_space_app ws1 _ H1).
  cbn [json.skip_space]. vm_compute (json.isSpace "["). cbn iota.
  vm_compute (Ascii.eqb "[" "["). cbn iota.
  vm_compute (json.maxNestingDepth <? 0 + 1). cbn iota.
  rewrite (skip_space_app ws2 _ H2).
  cbn [json.skip_space]. vm_compute (json.isSpace "]"). cbn iota.
  vm_compute (Ascii.eqb "]" "]"). cbn iota. reflexivity.
Qed.

(** ** The claims about the client *)

Section ClientClaims.

Variable network : http.Request -> result http.Response.
Variable Decode_RevisionInfo : string -> result RevisionInfo.
Variable Decode_Revision : string -> result Revision.
Variable Decode_ServerInfo : string -> result ServerInfo.

(** C1.  [GetHashChainInfo] with an [id_type] that is neither
    ["genesis_hash"] nor ["title"] panics before anything is sent: the
    error return that follows the panic is never reached. *)
Theorem GetHashChainInfo_invalid_id_type_panics a id_type id :
  id_type <> "genesis_hash" -> id_type <> "title" ->
  GetHashChainInfo network Decode_RevisionInfo a id_type id
  = (panics "wtf", []).
Proof. apply GetHashChainInfo_panic. Qed.

Lemma with_headers_Authorization a req0 :
  http.Header_ req0 = [] ->
  http.Header_Values (http.Header_ (with_headers a req0)) "Authorization"
  = [String.append "Bearer" (authToken a)].
Proof.
  intros H. unfold with_headers, http.Request_Header_Add.
  cbn [http.Header_]. rewrite H. vm_compute. reflexivity.
Qed.

Lemma NewRequest_Header method urlStr req :
  http.NewRequest method urlStr = Ok req -> http.Header_ req = [].
Proof.
  unfold http.NewRequest. destruct (negb _); [discriminate|].
  destruct (url.Parse urlStr); [|discriminate].
  intros H. injection H as <-. reflexivity.
Qed.

Lemma NewRequest_Method urlStr req :
  http.NewRequest "GET" urlStr = Ok req -> http.Method req = "GET".
Proof.
  unfold http.NewRequest. cbn [String.eqb]. destruct (negb _); [discriminate|].
  destruct (url.Parse urlStr); [|discriminate].
  intros H. injection H as <-. reflexivity.
Qed.

(** The Authorization header of every request of every operation is
    ["Bearer"] and the token, with nothing between them. *)
Lemma via_fetch_Authorization {A : Type}
  (decode : string -> M (option A * option error)) a path req :
  (forall body, requests (trace (decode body)) = []) ->
  In req (requests (trace (via_fetch network a path decode))) ->
  http.Header_Values (http.Header_ req) "Authorization"
  = [String.append "Bearer" (authToken a)].
Proof.
  intros N Hin.
  destruct (via_fetch_requests network decode N a path req Hin)
    as (u & req0 & _ & R & -> & _).
  apply with_headers_Authorization. eapply NewRequest_Header, R.
Qed.

(** C3.  A response whose status is not 200 makes [fetch] return the
    response together with an error, and makes each operation return that
    error and no value, whatever the body holds. *)
Theorem not_200_is_an_error a req resp :
  network req = Ok resp -> http.StatusCode resp <> 200 ->
  (forall u,
     In req (requests (trace (fetch network a u))) ->
     fetch network a u
     = (returns (Some resp, Some (errors_New "Request Not 200 OK")),
        [ev_request req]))
  /\ (forall id_type id,
        In req (requests (trace
          (GetHashChainInfo network Decode_RevisionInfo a id_type id))) ->
        GetHashChainInfo network Decode_RevisionInfo a id_type id
        = (returns (None, Some (errors_New "Request Not 200 OK")),
           [ev_request req]))
  /\ (forall h,
        In req (requests (trace (GetRevisionHashes network a h))) ->
        GetRevisionHashes network a h
        = (returns (None, Some (errors_New "Request Not 200 OK")),
           [ev_request req]))
  /\ (forall h,
        In req (requests (trace (GetRevision network Decode_Revision a h))) ->
        GetRevision network Decode_Revision a h
        = (returns (None, Some (errors_New "Request Not 200 OK")),
           [ev_request req]))
  /\ (In req (requests (trace
                (GetServerInfo network Decode_ServerInfo a))) ->
      GetServerInfo network Decode_ServerInfo a
      = (returns (None, Some (errors_New "Request Not 200 OK")),
         [ev_request req])).
Proof.
  intros Hnet Hs. repeat split.
  - intros u Hin.
    destruct (fetch_requests network a u req Hin) as (req0 & R & -> & _).
    rewrite fetch_unfold, R, Hnet.
    destruct (Z.eqb_spec (http.StatusCode resp) http.StatusOK); [tauto|].
    reflexivity.
  - intros id_type id.
    destruct (String.eqb_spec id_type "genesis_hash") as [E1|E1];
      [|destruct (String.eqb_spec id_type "title") as [E2|E2]].
    + rewrite GetHashChainInfo_via_fetch by auto. intros Hin.
      apply via_fetch_not_200 with (resp := resp); auto.
      apply decoded_logged_sends_nothing.
    + rewrite GetHashChainInfo_via_fetch by auto. intros Hin.
      apply via_fetch_not_200 with (resp := resp); auto.
      apply decoded_logged_sends_nothing.
    + rewrite GetHashChainInfo_panic by assumption.
      cbn. tauto.
  - intros h. rewrite GetRevisionHashes_via_fetch. intros Hin.
    apply via_fetch_not_200 with (resp := resp); auto.
    apply decoded_hashes_sends_nothing.
  - intros h. rewrite GetRevision_via_fetch. intros Hin.
    apply via_fetch_not_200 with (resp := resp); auto.
    apply decoded_sends_nothing.
  - rewrite GetServerInfo_via_fetch. intros Hin.
    apply via_fetch_not_200 with (resp := resp); auto.
    apply decoded_sends_nothing.
Qed.

(** C5.  For [id_type] one of ["genesis_hash"] and ["title"], the URL of
    [GetHashChainInfo] is parsed from the base endpoint followed by
    [/data_accounting/get_hash_chain_info/], the [id_type], a slash and the
    [id]: when that string does not parse the error is returned and nothing
    is sent, and a request that is sent is the GET request for it. *)
Theorem GetHashChainInfo_URL a id_type id :
  id_type = "genesis_hash" \/ id_type = "title" ->
  let composed :=
    String.append (apiEndpoint a)
      (String.append "/data_accounting/get_hash_chain_info/"
         (String.append id_type (String.append "/" id))) in
  (forall e,
     url.Parse composed = Err e ->
     GetHashChainInfo network Decode_RevisionInfo a id_type id
     = (returns (None, Some e), []))
  /\ (forall req,
        In req (requests (trace
          (GetHashChainInfo network Decode_RevisionInfo a id_type id))) ->
        exists u req0,
          url.Parse composed = Ok u
          /\ http.NewRequest "GET" (url.URL_String u) = Ok req0
          /\ http.Method req = "GET"
          /\ http.URL req = http.URL req0
          /\ http.Host req = http.Host req0).
Proof.
  intros Hid composed. subst composed.
  rewrite (GetHashChainInfo_composed network Decode_RevisionInfo a _ id Hid).
  split.
  - intros e He. apply via_fetch_url_error, He.
  - intros req Hin.
    destruct (via_fetch_requests network _
                (decoded_logged_sends_nothing Decode_RevisionInfo) a _ req
                Hin)
      as (u & req0 & P & R & -> & _).
    exists u, req0. repeat split; auto.
    change (http.Method (with_headers a req0)) with (http.Method req0).
    eapply NewRequest_Method, R.
Qed.

(** The errors of [url.Parse] are [*url.Error] values of the parse. *)
Lemma Parse_error_kind s e :
  url.Parse s = Err e -> exists u c, e = url_Error "parse" u c.
Proof.
  unfold url.Parse. destruct (strings.Cut s "#") as [[u frag] found].
  destruct (url.parse u) as [v|c]; [|intros H; injection H as <-; eauto].
  destruct (String.eqb frag ""); [discriminate|].
  destruct (url.setFragment v frag) as [v'|c]; [discriminate|].
  intros H. injection H as <-. eauto.
Qed.

(** C6, as amended.  When the base endpoint is malformed (it does not parse
    as a URL), or the base followed by the path of the operation does not
    parse, the operation returns the [*url.Error] of the parse and sends
    nothing.  (The path is appended to the base as it is: a slash in an
    argument is not an error.) *)
Theorem malformed_URL_is_an_error a :
  let malformed (path : string) :=
    (exists e, url.Parse (apiEndpoint a) = Err e)
    \/ (exists e, url.Parse (String.append (apiEndpoint a) path) = Err e) in
  (forall id_type id,
     id_type = "genesis_hash" \/ id_type = "title" ->
     let path :=
       String.append "/data_accounting/get_hash_chain_info/"
         (String.append id_type (String.append "/" id)) in
     malformed path ->
     returns_url_error (String.append (apiEndpoint a) path)
       (GetHashChainInfo network Decode_RevisionInfo a id_type id))
  /\ (forall h,
        let path := String.append "/data_accounting/get_revision_hashes/" h in
        malformed path ->
        returns_url_error (String.append (apiEndpoint a) path)
          (GetRevisionHashes network a h))
  /\ (forall h,
        let path := String.append "/data_accounting/get_revision/" h in
        malformed path ->
        returns_url_error (String.append (apiEndpoint a) path)
          (GetRevision network Decode_Revision a h))
  /\ (let path := "/data_accounting/get_server_info" in
      malformed path ->
      returns_url_error (String.append (apiEndpoint a) path)
        (GetServerInfo network Decode_ServerInfo a)).
Proof.
  intros malformed.
  assert (M : forall t,
             malformed (String "/" t) ->
             exists e u c,
               url.Parse (String.append (apiEndpoint a) (String "/" t))
               = Err e /\ e = url_Error "parse" u c).
  { intros t [H|H].
    - destruct (URLFacts.Parse_app (apiEndpoint a) (String "/" t)) as [e He];
        [eexists; reflexivity|exact H|].
      destruct (Parse_error_kind _ _ He) as (u & c & ->). eauto.
    - destruct H as [e He].
      destruct (Parse_error_kind _ _ He) as (u & c & ->). eauto. }
  repeat split.
  - intros id_type id Hid path Hm. destruct (M _ Hm) as (e & u & c & P & ->).
    exists (url_Error "parse" u c), u, c. repeat split; auto.
    rewrite (GetHashChainInfo_composed network Decode_RevisionInfo a _ id Hid).
    apply via_fetch_url_error, P.
  - intros h path Hm. destruct (M _ Hm) as (e & u & c & P & ->).
    exists (url_Error "parse" u c), u, c. repeat split; auto.
    rewrite GetRevisionHashes_via_fetch. apply via_fetch_url_error, P.
  - intros h path Hm. destruct (M _ Hm) as (e & u & c & P & ->).
    exists (url_Error "parse" u c), u, c. repeat split; auto.
    rewrite GetRevision_via_fetch. apply via_fetch_url_error, P.
  - intros path Hm. destruct (M _ Hm) as (e & u & c & P & ->).
    exists (url_Error "parse" u c), u, c. repeat split; auto.
    rewrite GetServerInfo_via_fetch. apply via_fetch_url_error, P.
Qed.

(** C9.  When the response is 200 and its body is an empty JSON array
    (with any white space before it and between its brackets),
    [GetRevisionHashes] returns an empty slice that is not nil, and no
    error. *)
Theorem GetRevisionHashes_empty_array a h req resp ws1 ws2 rest :
  In req (requests (trace (GetRevisionHashes network a h))) ->
  network req = Ok resp ->
  http.StatusCode resp = 200 ->
  all_space ws1 = true -> all_space ws2 = true ->
  http.Body resp
  = String.append ws1 (String "[" (String.append ws2 (String "]" rest))) ->
  GetRevisionHashes network a h
  = (returns (Some [], None), [ev_request req]).
Proof.
  intros Hin Hnet Hs H1 H2 Hb.
  rewrite GetRevisionHashes_via_fetch in *.
  rewrite (via_fetch_200 network decoded_hashes decoded_hashes_sends_nothing
             a _ req resp Hin Hnet Hs).
  unfold decoded_hashes. rewrite Hb, Decode_hashes_empty_array by assumption.
  reflexivity.
Qed.

End ClientClaims.

(** C8.  [NewAPI] returns the [*url.Error] and no client when the endpoint
    does not parse as a URL, and otherwise a client that holds the endpoint
    and the token it was given. *)
Theorem NewAPI_spec endpoint token :
  match url.Parse endpoint with
  | Err e =>
      NewAPI endpoint token = (None, Some e)
      /\ exists u c, e = url_Error "parse" u c
  | Ok _ =>
      exists a,
        NewAPI endpoint token = (Some a, None)
        /\ apiEndpoint a = endpoint /\ authToken a = token
  end.
Proof.
  unfold NewAPI. destruct (url.Parse endpoint) as [u|e] eqn:P.
  - eexists. split; [reflexivity|]. split; reflexivity.
  - split; [reflexivity|]. eapply Parse_error_kind, P.
Qed.

Lemma GetHashChainInfo_invalid_id_type_panics_witness :
  GetHashChainInfo (answers 200 "{}") no_RevisionInfo example_client
    "hash" "x"
  = (panics "wtf", []).
Proof.
  apply GetHashChainInfo_invalid_id_type_panics; discriminate.
Defined.

(** C2.  The request of an operation of a client whose token is [s3cr3t]
    carries the Authorization header [Bearers3cr3t]: scheme and token are
    joined without the space between them. *)
Theorem Authorization_lacks_the_space :
  requests (trace (GetServerInfo (answers 200 "{}") no_ServerInfo
                     example_client))
  = [example_request "/rest.php/data_accounting/get_server_info"]
  /\ http.Header_Values
       (http.Header_
          (example_request "/rest.php/data_accounting/get_server_info"))
       "Authorization"
     = [String.append "Bearer" (authToken example_client)]
  /\ String.append "Bearer" (authToken example_client)
     <> String.append "Bearer" (String.append " " (authToken example_client)).
Proof.
  split; [vm_compute; reflexivity|].
  split; [vm_compute; reflexivity|].
  vm_compute. discriminate.
Qed.

Lemma not_200_is_an_error_witness :
  GetServerInfo (answers 404 "{}") no_ServerInfo example_client
  = (returns (None, Some (errors_New "Request Not 200 OK")),
     [ev_request
        (example_request "/rest.php/data_accounting/get_server_info")]).
Proof.
  apply (not_200_is_an_error (answers 404 "{}") no_RevisionInfo no_Revision
           no_ServerInfo example_client
           (example_request "/rest.php/data_accounting/get_server_info")
           (http.mkResponse 404 "{}")).
  - reflexivity.
  - cbn. lia.
  - vm_compute. left. reflexivity.
Defined.

Lemma GetHashChainInfo_URL_witness :
  exists u req0,
    url.Parse
      "http://localhost:9352/rest.php/data_accounting/get_hash_chain_info/title/Main_Page"
    = Ok u
    /\ http.NewRequest "GET" (url.URL_String u) = Ok req0
    /\ http.Method
         (example_request
            "/rest.php/data_accounting/get_hash_chain_info/title/Main_Page")
       = "GET"
    /\ http.URL
         (example_request
            "/rest.php/data_accounting/get_hash_chain_info/title/Main_Page")
       = http.URL req0
    /\ http.Host
         (example_request
            "/rest.php/data_accounting/get_hash_chain_info/title/Main_Page")
       = http.Host req0.
Proof.
  apply (proj2 (GetHashChainInfo_URL (answers 200 "{}") no_RevisionInfo
                  example_client "title" "Main_Page"
                  (or_intror eq_refl))).
  vm_compute. left. reflexivity.
Defined.

(** C6, as written, fails: an argument with slashes in it is not an error.
    Its segments become segments of the path that is requested. *)
Lemma injected_path_segments_are_requested :
  GetRevisionHashes (answers 200 "[]") example_client
    "abc/../../get_server_info"
  = (returns (Some [], None),
     [ev_request
        (example_request
           "/rest.php/data_accounting/get_revision_hashes/abc/../../get_server_info")]).
Proof. vm_compute. reflexivity. Qed.

Lemma malformed_URL_is_an_error_witness :
  returns_url_error "http://[::1/data_accounting/get_server_info"
    (GetServerInfo (answers 200 "{}") no_ServerInfo
       (mkAquaProtocol http.zero_Client "http://[::1" "s3cr3t" "")).
Proof.
  apply (malformed_URL_is_an_error (answers 200 "{}") no_RevisionInfo
           no_Revision no_ServerInfo
           (mkAquaProtocol http.zero_Client "http://[::1" "s3cr3t" "")).
  left. eexists. vm_compute. reflexivity.
Defined.

Lemma GetRevisionHashes_empty_array_witness :
  GetRevisionHashes (answers 200 " [ ] ") example_client "abc"
  = (returns (Some [], None),
     [ev_request
        (example_request
           "/rest.php/data_accounting/get_revision_hashes/abc")]).
Proof.
  apply (GetRevisionHashes_empty_array (answers 200 " [ ] ") example_client
           "abc" _ (http.mkResponse 200 " [ ] ") " " " " " ").
  - vm_compute. left. reflexivity.
  - reflexivity.
  - reflexivity.
  - reflexivity.
  - reflexivity.
  - reflexivity.
Defined.

(* ===================================================================== *)
(** * Part III: further properties                                        *)
(* ===================================================================== *)

(** ** The operations, step by step *)

Section StepFacts.

Variable network : http.Request -> result http.Response.

(** An operation, by the outcome of each of its steps. *)
Lemma via_fetch_unfold {A : Type}
  (decode : string -> M (option A * option error)) a path :
  via_fetch network a path decode =
    match url.Parse (String.append (apiEndpoint a) path) with
    | Err e => (returns (None, Some e), [])
    | Ok u =>
        match http.NewRequest "GET" (url.URL_String u) with
        | Err e => (returns (None, Some e), [])
        | Ok req0 =>
            match network (with_headers a req0) with
            | Err e =>
                (returns (None, Some e), [ev_request (with_headers a req0)])
            | Ok resp =>
                if http.StatusCode resp =? http.StatusOK then
                  (result_of (decode (http.Body resp)),
                   ev_request (with_headers a req0)
                   :: trace (decode (http.Body resp)))
                else
                  (returns (None, Some (errors_New "Request Not 200 OK")),
                   [ev_request (with_headers a req0)])
            end
        end
    end.
Proof.
  unfold via_fetch, GetApiURL.
  destruct (url.Parse _) as [u|e]; [|reflexivity].
  rewrite fetch_unfold.
  destruct (http.NewRequest _ _) as [req0|e]; [|reflexivity].
  unfold bind.
  destruct (network (with_headers a req0)) as [resp|e]; [|reflexivity].
  destruct (http.StatusCode resp =? http.StatusOK); [|reflexivity].
  cbn [negb]. destruct (decode (http.Body resp)) as [o t]. reflexivity.
Qed.

Lemma with_headers_Header a req0 :
  http.Header_ req0 = [] ->
  http.Header_ (with_headers a req0) = client_headers a.
Proof.
  intros H. unfold with_headers, http.Request_Header_Add, client_headers.
  cbn [http.Header_]. rewrite H. vm_compute. reflexivity.
Qed.

Lemma with_headers_Method a req0 :
  http.Method (with_headers a req0) = http.Method req0.
Proof. reflexivity. Qed.

(** What is known of a request that [fetch] has built. *)
Lemma built_request a u req0 :
  http.NewRequest "GET" (url.URL_String u) = Ok req0 ->
  http.Method (with_headers a req0) = "GET"
  /\ http.Header_ (with_headers a req0) = client_headers a.
Proof.
  intros R. split.
  - rewrite with_headers_Method. eapply NewRequest_Method, R.
  - apply with_headers_Header. eapply NewRequest_Header, R.
Qed.


Section StepsOfAnOperation.

Context {A : Type}.
Variable decode : string -> M (option A * option error).
Hypothesis decode_sends_nothing :
  forall body, requests (trace (decode body)) = [].

Lemma via_fetch_sole a path req :
  In req (requests (trace (via_fetch network a path decode))) ->
  requests (trace (via_fetch network a path decode)) = [req]
  /\ http.Method req = "GET"
  /\ http.Header_ req = client_headers a.
Proof.
  intros Hin.
  destruct (via_fetch_requests network decode decode_sends_nothing a path
              req Hin) as (u & req0 & _ & R & -> & S).
  split; [exact S|]. eapply built_request, R.
Qed.

Lemma via_fetch_transport_error a path req e :
  In req (requests (trace (via_fetch network a path decode))) ->
  network req = Err e ->
  via_fetch network a path decode
  = (returns (None, Some e), [ev_request req]).
Proof.
  intros Hin Hnet.
  destruct (via_fetch_requests network decode decode_sends_nothing a path
              req Hin) as (u & req0 & P & R & -> & _).
  rewrite via_fetch_unfold, P, R, Hnet. reflexivity.
Qed.

Lemma via_fetch_composed a path req :
  In req (requests (trace (via_fetch network a path decode))) ->
  exists u req0,
    url.Parse (String.append (apiEndpoint a) path) = Ok u
    /\ http.NewRequest "GET" (url.URL_String u) = Ok req0
    /\ http.Method req = "GET"
    /\ http.URL req = http.URL req0
    /\ http.Host req = http.Host req0.
Proof.
  intros Hin.
  destruct (via_fetch_requests network decode decode_sends_nothing a path
              req Hin) as (u & req0 & P & R & -> & _).
  exists u, req0. repeat split; auto.
  rewrite with_headers_Method. eapply NewRequest_Method, R.
Qed.

End StepsOfAnOperation.

(** The value and error of an operation that decodes with [Decode]: one of
    them is nil, and there is no panic. *)
Lemma via_fetch_decoded_shape {A : Type} (Decode : string -> result A)
  (log : bool) a path :
  (exists v,
     result_of (via_fetch network a path
                  (if log then decoded_logged Decode else decoded Decode))
     = returns (Some v, None))
  \/ (exists e,
        result_of (via_fetch network a path
                     (if log then decoded_logged Decode else decoded Decode))
        = returns (None, Some e)).
Proof.
  rewrite via_fetch_unfold.
  destruct (url.Parse _) as [u|e]; [|right; eexists; reflexivity].
  destruct (http.NewRequest _ _) as [req0|e]; [|right; eexists; reflexivity].
  destruct (network _) as [resp|e]; [|right; eexists; reflexivity].
  destruct (_ =? _); [|right; eexists; reflexivity].
  unfold result_of. cbn [fst].
  destruct log; unfold decoded_logged, decoded;
    destruct (Decode (http.Body resp)) as [v|e];
    (left; eexists; reflexivity) || (right; eexists; reflexivity).
Qed.

End StepFacts.

Section OperationsSendOnce.

Variable network : http.Request -> result http.Response.
Variable Decode_RevisionInfo : string -> result RevisionInfo.
Variable Decode_Revision : string -> result Revision.
Variable Decode_ServerInfo : string -> result ServerInfo.

Lemma via_fetch_one_request_at_most {A : Type}
  (decode : string -> M (option A * option error)) a path :
  (forall body, requests (trace (decode body)) = []) ->
  one_request_at_most a (trace (via_fetch network a path decode)).
Proof.
  intros Hd. unfold one_request_at_most.
  destruct (requests (trace (via_fetch network a path decode)))
    as [|req rest] eqn:E; [left; reflexivity|right].
  assert (Hin : In req (requests (trace (via_fetch network a path decode))))
    by (rewrite E; left; reflexivity).
  destruct (via_fetch_sole network decode Hd a path req Hin) as (S & G & H).
  exists req. rewrite <- E. auto.
Qed.

(** X1.  [fetch] and each of the four operations send one request at most.
    A request that is sent is a GET request, and its headers are
    [Content-Type: application/json] and [Authorization] with ["Bearer"]
    followed by the token, and no other. *)
Theorem one_GET_request_at_most a :
  (forall u, one_request_at_most a (trace (fetch network a u)))
  /\ (forall id_type id,
        one_request_at_most a
          (trace (GetHashChainInfo network Decode_RevisionInfo a id_type id)))
  /\ (forall h,
        one_request_at_most a (trace (GetRevisionHashes network a h)))
  /\ (forall h,
        one_request_at_most a
          (trace (GetRevision network Decode_Revision a h)))
  /\ one_request_at_most a
       (trace (GetServerInfo network Decode_ServerInfo a)).
Proof.
  repeat split.
  - intros u. unfold one_request_at_most. rewrite fetch_unfold.
    destruct (http.NewRequest _ _) as [req0|e] eqn:R; [|left; reflexivity].
    right. exists (with_headers a req0). split; [reflexivity|].
    eapply built_request, R.
  - intros id_type id.
    destruct (String.eqb_spec id_type "genesis_hash") as [H1|H1];
      [|destruct (String.eqb_spec id_type "title") as [H2|H2]].
    + rewrite GetHashChainInfo_via_fetch by auto.
      apply via_fetch_one_request_at_most, decoded_logged_sends_nothing.
    + rewrite GetHashChainInfo_via_fetch by auto.
      apply via_fetch_one_request_at_most, decoded_logged_sends_nothing.
    + rewrite GetHashChainInfo_panic by auto. left. reflexivity.
  - intros h. rewrite GetRevisionHashes_via_fetch.
    apply via_fetch_one_request_at_most, decoded_hashes_sends_nothing.
  - intros h. rewrite GetRevision_via_fetch.
    apply via_fetch_one_request_at_most, decoded_sends_nothing.
  - rewrite GetServerInfo_via_fetch.
    apply via_fetch_one_request_at_most, decoded_sends_nothing.
Qed.

(** X2.  When the transport fails on the request of an operation, the
    operation returns the error of the transport as it is, with no value,
    after that one request; nothing is logged. *)
Theorem transport_error_is_returned a req e :
  network req = Err e ->
  (forall id_type id,
     In req (requests (trace
       (GetHashChainInfo network Decode_RevisionInfo a id_type id))) ->
     GetHashChainInfo network Decode_RevisionInfo a id_type id
     = (returns (None, Some e), [ev_request req]))
  /\ (forall h,
        In req (requests (trace (GetRevisionHashes network a h))) ->
        GetRevisionHashes network a h
        = (returns (None, Some e), [ev_request req]))
  /\ (forall h,
        In req (requests (trace (GetRevision network Decode_Revision a h))) ->
        GetRevision network Decode_Revision a h
        = (returns (None, Some e), [ev_request req]))
  /\ (In req (requests (trace (GetServerInfo network Decode_ServerInfo a))) ->
      GetServerInfo network Decode_ServerInfo a
      = (returns (None, Some e), [ev_request req])).
Proof.
  intros Hnet. repeat split.
  - intros id_type id.
    destruct (String.eqb_spec id_type "genesis_hash") as [H1|H1];
      [|destruct (String.eqb_spec id_type "title") as [H2|H2]].
    + rewrite GetHashChainInfo_via_fetch by auto. intros Hin.
      apply via_fetch_transport_error; auto.
      apply decoded_logged_sends_nothing.
    + rewrite GetHashChainInfo_via_fetch by auto. intros Hin.
      apply via_fetch_transport_error; auto.
      apply decoded_logged_sends_nothing.
    + rewrite GetHashChainInfo_panic by auto. cbn. tauto.
  - intros h. rewrite GetRevisionHashes_via_fetch. intros Hin.
    apply via_fetch_transport_error; auto.
    apply decoded_hashes_sends_nothing.
  - intros h. rewrite GetRevision_via_fetch. intros Hin.
    apply via_fetch_transport_error; auto. apply decoded_sends_nothing.
  - rewrite GetServerInfo_via_fetch. intros Hin.
    apply via_fetch_transport_error; auto. apply decoded_sends_nothing.
Qed.

Lemma result_of_decoded {A : Type} (D : string -> result A) body :
  result_of (decoded D body) = returns (verdict (D body)).
Proof. unfold decoded. destruct (D body); reflexivity. Qed.

Lemma result_of_decoded_logged {A : Type} (D : string -> result A) body :
  result_of (decoded_logged D body) = returns (verdict (D body)).
Proof. unfold decoded_logged. destruct (D body); reflexivity. Qed.

Lemma result_of_decoded_hashes body :
  result_of (decoded_hashes body)
  = returns (verdict_hashes (json.Decode_hashes body)).
Proof.
  unfold decoded_hashes. destruct (json.Decode_hashes body); reflexivity.
Qed.

(** X3.  When the answer to the request of an operation has status 200, what
    the operation returns is decided by the body alone: the value decoded
    from it with a nil error, or the error of the decoder with no value. *)
Theorem status_200_is_decoded a req resp :
  network req = Ok resp ->
  http.StatusCode resp = http.StatusOK ->
  (forall id_type id,
     In req (requests (trace
       (GetHashChainInfo network Decode_RevisionInfo a id_type id))) ->
     result_of (GetHashChainInfo network Decode_RevisionInfo a id_type id)
     = returns (verdict (Decode_RevisionInfo (http.Body resp))))
  /\ (forall h,
        In req (requests (trace (GetRevisionHashes network a h))) ->
        result_of (GetRevisionHashes network a h)
        = returns (verdict_hashes (json.Decode_hashes (http.Body resp))))
  /\ (forall h,
        In req (requests (trace (GetRevision network Decode_Revision a h))) ->
        result_of (GetRevision network Decode_Revision a h)
        = returns (verdict (Decode_Revision (http.Body resp))))
  /\ (In req (requests (trace (GetServerInfo network Decode_ServerInfo a))) ->
      result_of (GetServerInfo network Decode_ServerInfo a)
      = returns (verdict (Decode_ServerInfo (http.Body resp)))).
Proof.
  intros Hnet Hs. repeat split.
  - intros id_type id.
    destruct (String.eqb_spec id_type "genesis_hash") as [H1|H1];
      [|destruct (String.eqb_spec id_type "title") as [H2|H2]].
    + rewrite GetHashChainInfo_via_fetch by auto. intros Hin.
      rewrite (via_fetch_200 network _
                 (decoded_logged_sends_nothing Decode_RevisionInfo)
                 a _ req resp Hin Hnet Hs).
      apply result_of_decoded_logged.
    + rewrite GetHashChainInfo_via_fetch by auto. intros Hin.
      rewrite (via_fetch_200 network _
                 (decoded_logged_sends_nothing Decode_RevisionInfo)
                 a _ req resp Hin Hnet Hs).
      apply result_of_decoded_logged.
    + rewrite GetHashChainInfo_panic by auto. cbn. tauto.
  - intros h. rewrite GetRevisionHashes_via_fetch. intros Hin.
    rewrite (via_fetch_200 network _ decoded_hashes_sends_nothing
               a _ req resp Hin Hnet Hs).
    apply result_of_decoded_hashes.
  - intros h. rewrite GetRevision_via_fetch. intros Hin.
    rewrite (via_fetch_200 network _ (decoded_sends_nothing Decode_Revision)
               a _ req resp Hin Hnet Hs).
    apply result_of_decoded.
  - rewrite GetServerInfo_via_fetch. intros Hin.
    rewrite (via_fetch_200 network _ (decoded_sends_nothing Decode_ServerInfo)
               a _ req resp Hin Hnet Hs).
    apply result_of_decoded.
Qed.


Lemma logs_via_fetch {A : Type}
  (decode : string -> M (option A * option error)) a path :
  logs (trace (via_fetch network a path decode)) = []
  \/ exists req resp,
       In req (requests (trace (via_fetch network a path decode)))
       /\ network req = Ok resp
       /\ http.StatusCode resp = http.StatusOK
       /\ logs (trace (via_fetch network a path decode))
          = logs (trace (decode (http.Body resp)))
       /\ result_of (via_fetch network a path decode)
          = result_of (decode (http.Body resp)).
Proof.
  rewrite via_fetch_unfold.
  destruct (url.Parse _) as [u|e]; [|left; reflexivity].
  destruct (http.NewRequest _ _) as [req0|e]; [|left; reflexivity].
  destruct (network _) as [resp|e] eqn:N; [|left; reflexivity].
  destruct (Z.eqb_spec (http.StatusCode resp) http.StatusOK) as [S|S];
    [|left; reflexivity].
  right. exists (with_headers a req0), resp.
  repeat split; auto. cbn. left. reflexivity.
Qed.

Lemma logs_decoded {A : Type} (D : string -> result A) body :
  logs (trace (decoded D body)) = [].
Proof. unfold decoded. destruct (D body); reflexivity. Qed.

Lemma logs_decoded_hashes body : logs (trace (decoded_hashes body)) = [].
Proof.
  unfold decoded_hashes. destruct (json.Decode_hashes body); reflexivity.
Qed.

Lemma logs_via_fetch_none {A : Type}
  (decode : string -> M (option A * option error)) a path :
  (forall body, logs (trace (decode body)) = []) ->
  logs (trace (via_fetch network a path decode)) = [].
Proof.
  intros Hd.
  destruct (logs_via_fetch decode a path)
    as [H|(req & resp & _ & _ & _ & H & _)]; [exact H|].
  rewrite H. apply Hd.
Qed.


Lemma via_fetch_hashes_shape a path :
  (exists hs,
     result_of (via_fetch network a path decoded_hashes)
     = returns (hs, None))
  \/ (exists e,
        result_of (via_fetch network a path decoded_hashes)
        = returns (None, Some e)).
Proof.
  rewrite via_fetch_unfold.
  destruct (url.Parse _) as [u|e]; [|right; eexists; reflexivity].
  destruct (http.NewRequest _ _) as [req0|e]; [|right; eexists; reflexivity].
  destruct (network _) as [resp|e]; [|right; eexists; reflexivity].
  destruct (_ =? _); [|right; eexists; reflexivity].
  unfold result_of. cbn [fst]. unfold decoded_hashes.
  destruct (json.Decode_hashes (http.Body resp)) as [v|e];
    (left; eexists; reflexivity) || (right; eexists; reflexivity).
Qed.

(** X5.  No operation dereferences a nil pointer, and the only panic is the
    one of [GetHashChainInfo] on an [id_type] that is not one of the two.
    [GetHashChainInfo], [GetRevision] and [GetServerInfo] return a record
    with a nil error, or no record with an error, never both and never
    neither; [GetRevisionHashes] returns a nil error, or a nil slice with an
    error. *)
Theorem value_or_error a :
  (forall id_type id,
     (exists v,
        result_of (GetHashChainInfo network Decode_RevisionInfo a id_type id)
        = returns (Some v, None))
     \/ (exists e,
           result_of
             (GetHashChainInfo network Decode_RevisionInfo a id_type id)
           = returns (None, Some e))
     \/ (result_of (GetHashChainInfo network Decode_RevisionInfo a id_type id)
         = panics "wtf"
         /\ id_type <> "genesis_hash" /\ id_type <> "title"))
  /\ (forall h,
        (exists hs,
           result_of (GetRevisionHashes network a h) = returns (hs, None))
        \/ (exists e,
              result_of (GetRevisionHashes network a h)
              = returns (None, Some e)))
  /\ (forall h,
        (exists v,
           result_of (GetRevision network Decode_Revision a h)
           = returns (Some v, None))
        \/ (exists e,
              result_of (GetRevision network Decode_Revision a h)
              = returns (None, Some e)))
  /\ ((exists v,
         result_of (GetServerInfo network Decode_ServerInfo a)
         = returns (Some v, None))
      \/ (exists e,
            result_of (GetServerInfo network Decode_ServerInfo a)
            = returns (None, Some e))).
Proof.
  repeat split.
  - intros id_type id.
    destruct (String.eqb_spec id_type "genesis_hash") as [H1|H1];
      [|destruct (String.eqb_spec id_type "title") as [H2|H2]].
    3: rewrite GetHashChainInfo_panic by auto; right; right; auto.
    all: rewrite GetHashChainInfo_via_fetch by auto.
    all: destruct (via_fetch_decoded_shape network Decode_RevisionInfo true a
                     (String.append
                        (String.append
                           (String.append endpoint_get_hash_chain_info
                              id_type) "/") id)) as [H|H]; auto.
  - intros h. rewrite GetRevisionHashes_via_fetch.
    apply via_fetch_hashes_shape.
  - intros h. rewrite GetRevision_via_fetch.
    apply (via_fetch_decoded_shape network Decode_Revision false).
  - rewrite GetServerInfo_via_fetch.
    apply (via_fetch_decoded_shape network Decode_ServerInfo false).
Qed.

(** X7.  The URLs of [GetRevisionHashes], [GetRevision] and
    [GetServerInfo] are parsed from the base endpoint followed by
    [/data_accounting/get_revision_hashes/] and the hash,
    [/data_accounting/get_revision/] and the hash, and
    [/data_accounting/get_server_info]: when that string does not parse the
    error is returned and nothing is sent, and a request that is sent is the
    GET request for it. *)
Theorem other_operations_URL a :
  (forall h,
     goes_to
       (String.append (apiEndpoint a)
          (String.append "/data_accounting/get_revision_hashes/" h))
       (GetRevisionHashes network a h))
  /\ (forall h,
        goes_to
          (String.append (apiEndpoint a)
             (String.append "/data_accounting/get_revision/" h))
          (GetRevision network Decode_Revision a h))
  /\ goes_to
       (String.append (apiEndpoint a) "/data_accounting/get_server_info")
       (GetServerInfo network Decode_ServerInfo a).
Proof.
  unfold goes_to. repeat split.
  - intros e He. rewrite GetRevisionHashes_via_fetch.
    apply via_fetch_url_error, He.
  - intros req. rewrite GetRevisionHashes_via_fetch.
    apply via_fetch_composed, decoded_hashes_sends_nothing.
  - intros e He. rewrite GetRevision_via_fetch.
    apply via_fetch_url_error, He.
  - intros req. rewrite GetRevision_via_fetch.
    apply via_fetch_composed, decoded_sends_nothing.
  - intros e He. rewrite GetServerInfo_via_fetch.
    apply via_fetch_url_error, He.
  - intros req. rewrite GetServerInfo_via_fetch.
    apply via_fetch_composed, decoded_sends_nothing.
Qed.

(** X6.  [fetch] does not panic, and when the error it returns is nil the
    response it returns is not: it is the answer of the transport to the one
    request sent, and its status is 200. *)
Theorem fetch_nil_error a u :
  (exists r, result_of (fetch network a u) = returns r)
  /\ (forall o,
        result_of (fetch network a u) = returns (o, None) ->
        exists req resp,
          o = Some resp
          /\ trace (fetch network a u) = [ev_request req]
          /\ network req = Ok resp
          /\ http.StatusCode resp = http.StatusOK).
Proof.
  rewrite fetch_unfold.
  destruct (http.NewRequest _ _) as [req0|e] eqn:R.
  - split; [eexists; reflexivity|]. cbn. intros o.
    destruct (network (with_headers a req0)) as [resp|e] eqn:N;
      [|discriminate].
    destruct (Z.eqb_spec (http.StatusCode resp) http.StatusOK) as [S|S];
      cbn; [|discriminate].
    intros H. injection H as <-. exists (with_headers a req0), resp. auto.
  - split; [eexists; reflexivity|]. cbn. discriminate.
Qed.

End OperationsSendOnce.

(** ** Decoding an array of revision hashes *)

Lemma plain_byte_inv c :
  plain_byte c = true ->
  Ascii.eqb c dquote = false /\ Ascii.eqb c "\" = false
  /\ (byte_val c <? 32) = false /\ (byte_val c <? 128) = true.
Proof.
  unfold plain_byte. intros H.
  apply andb_prop in H. destruct H as [H H4].
  apply andb_prop in H. destruct H as [H H3].
  apply andb_prop in H. destruct H as [H1 H2].
  apply negb_true_iff, Z.eqb_neq in H3, H4.
  apply Z.leb_le in H1. apply Z.ltb_lt in H2.
  repeat split.
  - apply Ascii.eqb_neq. intros ->. apply H3. reflexivity.
  - apply Ascii.eqb_neq. intros ->. apply H4. reflexivity.
  - apply Z.ltb_ge. lia.
  - apply Z.ltb_lt. lia.
Qed.

Lemma scan_string_plain s rest :
  plain s = true ->
  json.scan_string (String.append s (String dquote rest))
  = json.scanned s rest.
Proof.
  induction s as [|c s IH]; intros H.
  - reflexivity.
  - cbn in H. apply andb_prop in H. destruct H as [Hc Hs].
    destruct (plain_byte_inv c Hc) as (Q & B & L & _).
    cbn [String.append json.scan_string]. rewrite Q, B, L, (IH Hs).
    reflexivity.
Qed.

Lemma unquote_plain s : plain s = true -> json.unquote s = s.
Proof.
  unfold json.unquote. induction s as [|c s IH]; intros H; [reflexivity|].
  cbn in H. apply andb_prop in H. destruct H as [Hc Hs].
  destruct (plain_byte_inv c Hc) as (_ & B & _ & U).
  cbn [json.unquote_from]. rewrite B, U, (IH Hs). reflexivity.
Qed.

Lemma scan_value_hash fuel depth h rest :
  plain_hash h = true ->
  json.scan_value (S fuel) depth (String.append (hash_text h) rest)
  = json.scanned (hash_value h) rest.
Proof.
  destruct h as [s|]; intros H.
  - unfold hash_text, quoted. cbn [String.append json.scan_value].
    cbn [json.skip_space]. vm_compute (json.isSpace dquote). cbn iota.
    vm_compute (Ascii.eqb dquote "["). vm_compute (Ascii.eqb dquote "{").
    rewrite Ascii.eqb_refl. cbn iota.
    rewrite string_app_assoc. cbn [String.append].
    rewrite scan_string_plain by exact H. reflexivity.
  - reflexivity.
Qed.

Lemma hash_text_head h rest :
  exists c s,
    String.append (hash_text h) rest = String c s
    /\ json.isSpace c = false /\ Ascii.eqb c "]" = false.
Proof.
  destruct h as [s|].
  - exists dquote. eexists. split; [reflexivity|]. split; reflexivity.
  - exists "n"%char. eexists. split; [reflexivity|]. split; reflexivity.
Qed.

Lemma scan_elements_hashes hs : forall fuel depth rest,
  forallb plain_hash hs = true ->
  (List.length hs < fuel)%nat ->
  json.scan_elements fuel depth (String.append (hashes_tail_text hs) rest)
  = json.scanned (map hash_value hs) rest.
Proof.
  induction hs as [|h hs IH]; intros fuel depth rest H F.
  - destruct fuel as [|fuel]; [cbn in F; lia|]. reflexivity.
  - destruct fuel as [|fuel]; [cbn in F; lia|].
    cbn in H. apply andb_prop in H. destruct H as [Hh Hhs].
    cbn [hashes_tail_text String.append json.scan_elements json.skip_space].
    vm_compute (json.isSpace ","). cbn iota.
    vm_compute (Ascii.eqb "," "]"). vm_compute (Ascii.eqb "," ",").
    cbn iota.
    destruct fuel as [|fuel]; [cbn in F; lia|].
    rewrite string_app_assoc, scan_value_hash by exact Hh.
    rewrite IH; [reflexivity|exact Hhs|cbn in F; lia].
Qed.

Lemma scan_value_hashes hs fuel rest :
  forallb plain_hash hs = true ->
  (List.length hs < fuel)%nat ->
  json.scan_value (S fuel) 0 (String.append (hashes_text hs) rest)
  = json.scanned (json.Array (map hash_value hs)) rest.
Proof.
  intros H F. destruct hs as [|h hs]; [reflexivity|].
  cbn in H. apply andb_prop in H. destruct H as [Hh Hhs].
  cbn [hashes_text String.append json.scan_value json.skip_space].
  vm_compute (json.isSpace "["). cbn iota.
  vm_compute (Ascii.eqb "[" "["). cbn iota.
  vm_compute (json.maxNestingDepth <? 0 + 1). cbn iota.
  rewrite string_app_assoc.
  destruct (hash_text_head h
              (String.append (hashes_tail_text hs) rest))
    as (c & s & E & Sp & Br).
  rewrite E. cbn [json.skip_space]. rewrite Sp, Br. rewrite <- E.
  destruct fuel as [|fuel]; [cbn in F; lia|].
  rewrite scan_value_hash by exact Hh.
  rewrite scan_elements_hashes; [reflexivity|exact Hhs|cbn in F; lia].
Qed.

Lemma unmarshal_hashes_plain hs :
  forallb plain_hash hs = true ->
  json.unmarshal_hashes (map hash_value hs) = Ok hs.
Proof.
  induction hs as [|h hs IH]; intros H; [reflexivity|].
  cbn in H. apply andb_prop in H. destruct H as [Hh Hhs].
  cbn [map json.unmarshal_hashes]. rewrite (IH Hhs).
  destruct h as [s|]; cbn; [rewrite unquote_plain by exact Hh|]; reflexivity.
Qed.

Lemma hash_text_length h rest :
  (String.length rest < String.length (String.append (hash_text h) rest))%nat.
Proof.
  destruct h as [s|]; [|cbn; lia].
  unfold hash_text, quoted. cbn [String.append String.length].
  rewrite string_app_assoc, URLFacts.length_app.
  cbn [String.append String.length]. lia.
Qed.

Lemma hashes_tail_text_length hs rest :
  (List.length hs
   < String.length (String.append (hashes_tail_text hs) rest))%nat.
Proof.
  induction hs as [|h hs IH]; [cbn; lia|].
  cbn [hashes_tail_text List.length]. rewrite !string_app_assoc.
  cbn [String.append String.length].
  pose proof (hash_text_length h (String.append (hashes_tail_text hs) rest)).
  lia.
Qed.

Lemma hashes_text_length hs rest :
  (List.length hs < String.length (String.append (hashes_text hs) rest))%nat.
Proof.
  destruct hs as [|h hs]; [cbn; lia|].
  cbn [hashes_text List.length]. rewrite !string_app_assoc.
  cbn [String.append String.length].
  pose proof (hash_text_length h (String.append (hashes_tail_text hs) rest)).
  pose proof (hashes_tail_text_length hs rest).
  lia.
Qed.

Lemma Decode_hashes_text hs rest :
  forallb plain_hash hs = true ->
  json.Decode_hashes (String.append (hashes_text hs) rest) = Ok (Some hs).
Proof.
  intros H. unfold json.Decode_hashes, json.readValue.
  assert (E : exists s, String.append (hashes_text hs) rest = String "[" s).
  { destruct hs; eexists; reflexivity. }
  destruct E as [s E].
  replace (json.skip_space (String.append (hashes_text hs) rest))
    with (String "[" s) by (rewrite E; reflexivity).
  rewrite scan_value_hashes; [|exact H|apply hashes_text_length].
  rewrite unmarshal_hashes_plain by exact H. reflexivity.
Qed.

Lemma Decode_hashes_null ws rest :
  all_space ws = true ->
  json.Decode_hashes (String.append ws (String.append "null" rest)) = Ok None.
Proof.
  intros H. unfold json.Decode_hashes, json.readValue.
  rewrite (skip_space_app ws _ H). cbn [String.append json.skip_space].
  vm_compute (json.isSpace "n"). cbn iota.
  cbn [json.scan_value]. rewrite (skip_space_app ws _ H).
  reflexivity.
Qed.

Lemma Decode_hashes_blank ws :
  all_space ws = true ->
  json.Decode_hashes ws = Err (json_error io_EOF).
Proof.
  intros H. unfold json.Decode_hashes, json.readValue.
  replace (json.skip_space ws) with EmptyString; [reflexivity|].
  rewrite <- (URLFacts.app_nil_r ws) at 1.
  rewrite (skip_space_app ws _ H). reflexivity.
Qed.

(** ** The revision hashes that are returned *)

Section RevisionHashes.

Variable network : http.Request -> result http.Response.

Lemma GetRevisionHashes_200 a h req resp :
  In req (requests (trace (GetRevisionHashes network a h))) ->
  network req = Ok resp ->
  http.StatusCode resp = http.StatusOK ->
  GetRevisionHashes network a h
  = (returns (verdict_hashes (json.Decode_hashes (http.Body resp))),
     [ev_request req]).
Proof.
  intros Hin Hnet Hs. rewrite GetRevisionHashes_via_fetch in *.
  rewrite (via_fetch_200 network decoded_hashes decoded_hashes_sends_nothing
             a _ req resp Hin Hnet Hs).
  unfold decoded_hashes.
  destruct (json.Decode_hashes (http.Body resp)); reflexivity.
Qed.


(** X9.  When the response is 200 and its body is the JSON [null] (after
    any white space), [GetRevisionHashes] returns a nil slice and a nil
    error: the one case in which an operation returns neither a value nor an
    error. *)
Theorem GetRevisionHashes_null a h req resp ws rest :
  In req (requests (trace (GetRevisionHashes network a h))) ->
  network req = Ok resp ->
  http.StatusCode resp = http.StatusOK ->
  all_space ws = true ->
  http.Body resp = String.append ws (String.append "null" rest) ->
  GetRevisionHashes network a h
  = (returns (None, None), [ev_request req]).
Proof.
  intros Hin Hnet Hs Hw Hb.
  rewrite (GetRevisionHashes_200 a h req resp Hin Hnet Hs), Hb.
  rewrite (Decode_hashes_null ws rest Hw). reflexivity.
Qed.

(** X10.  When the response is 200 and its body is empty, or white space
    only, [GetRevisionHashes] returns the error [io.EOF] and no slice. *)
Theorem GetRevisionHashes_empty_body a h req resp :
  In req (requests (trace (GetRevisionHashes network a h))) ->
  network req = Ok resp ->
  http.StatusCode resp = http.StatusOK ->
  all_space (http.Body resp) = true ->
  GetRevisionHashes network a h
  = (returns (None, Some (json_error io_EOF)), [ev_request req]).
Proof.
  intros Hin Hnet Hs Hw.
  rewrite (GetRevisionHashes_200 a h req resp Hin Hnet Hs).
  rewrite (Decode_hashes_blank _ Hw). reflexivity.
Qed.

End RevisionHashes.

(** ** The civil time of a timestamp *)

Section TimestampFields.
Import time TimeSpec TimeFacts.

(** A well-formed timestamp, taken apart. *)
Lemma stamp_time_inv s t :
  stamp_time s = Some t ->
  exists c0 c1 c2 c3 c4 c5 c6 c7 c8 c9 c10 c11 c12 c13 rest ns,
    s = String c0 (String c1 (String c2 (String c3 (String c4 (String c5
          (String c6 (String c7 (String c8 (String c9 (String c10
          (String c11 (String c12 (String c13 rest)))))))))))))
    /\ forallb is_digit
         [c0; c1; c2; c3; c4; c5; c6; c7; c8; c9; c10; c11; c12; c13] = true
    /\ frac_nanos rest = Some ns
    /\ civil_ok (num4 c0 c1 c2 c3) (two c4 c5) (two c6 c7) (two c8 c9)
         (two c10 c11) (two c12 c13) ns
    /\ t = Date (num4 c0 c1 c2 c3) (two c4 c5) (two c6 c7) (two c8 c9)
             (two c10 c11) (two c12 c13) ns UTC.
Proof.
  destruct s as [|c0 [|c1 [|c2 [|c3 [|c4 [|c5 [|c6 [|c7 [|c8 [|c9 [|c10
    [|c11 [|c12 [|c13 rest]]]]]]]]]]]]]]; try discriminate.
  cbn [stamp_time].
  destruct (forallb _ _) eqn:D; [|discriminate].
  destruct (frac_nanos rest) as [ns|] eqn:F; [|discriminate].
  destruct (_ && _) eqn:R; [|discriminate].
  intros H. injection H as <-.
  exists c0, c1, c2, c3, c4, c5, c6, c7, c8, c9, c10, c11, c12, c13, rest, ns.
  split; [reflexivity|]. split; [exact D|]. split; [exact F|].
  split; [|reflexivity].
  cbn [forallb] in D.
  repeat (apply andb_prop in D; destruct D as [? D]).
  repeat (apply andb_prop in R; destruct R as [R ?]).
  pose proof (two_range c4 c5 ltac:(assumption) ltac:(assumption)).
  pose proof (two_range c6 c7 ltac:(assumption) ltac:(assumption)).
  pose proof (two_range c8 c9 ltac:(assumption) ltac:(assumption)).
  pose proof (two_range c10 c11 ltac:(assumption) ltac:(assumption)).
  pose proof (two_range c12 c13 ltac:(assumption) ltac:(assumption)).
  pose proof (num4_range c0 c1 c2 c3 ltac:(assumption) ltac:(assumption)
                ltac:(assumption) ltac:(assumption)).
  pose proof (frac_nanos_range _ _ F).
  constructor; lia.
Qed.

Lemma Nanosecond_civil year month day hour min sec nsec :
  civil_ok year month day hour min sec nsec ->
  Time_Nanosecond (Date year month day hour min sec nsec UTC) = nsec.
Proof.
  intros Hok. rewrite (Date_civil _ _ _ _ _ _ _ Hok).
  destruct Hok as [_ _ _ _ _ _ Hn].
  unfold Time_Nanosecond. cbn [wall].
  change (2 ^ 30 - 1) with (Z.ones 30).
  rewrite Z.land_ones by lia. apply Z.mod_small.
  change (2 ^ 30) with 1073741824. lia.
Qed.

Lemma Time_Date_civil year month day hour min sec nsec :
  civil_ok year month day hour min sec nsec ->
  Time_Date (Date year month day hour min sec nsec UTC) = (year, month, day).
Proof.
  intros Hok. unfold Time_Date.
  rewrite (abs_civil _ _ _ _ _ _ _ Hok), (absDate_civil _ _ _ _ _ _ _ Hok).
  reflexivity.
Qed.

Lemma Time_Clock_civil year month day hour min sec nsec :
  civil_ok year month day hour min sec nsec ->
  Time_Clock (Date year month day hour min sec nsec UTC) = (hour, min, sec).
Proof.
  intros Hok. unfold Time_Clock.
  rewrite (abs_civil _ _ _ _ _ _ _ Hok).
  apply (absClock_civil _ _ _ _ _ _ _ Hok).
Qed.

Lemma loc_Date year month day hour min sec nsec :
  loc (Date year month day hour min sec nsec UTC) = UTC.
Proof. destruct (Date year month day hour min sec nsec UTC) as [w e []]. reflexivity. Qed.

Lemma num_two c d : num (String c (String d EmptyString)) = two c d.
Proof. unfold num, two. cbn [num_from]. lia. Qed.

Lemma num_num4 c0 c1 c2 c3 :
  num (String c0 (String c1 (String c2 (String c3 EmptyString))))
  = num4 c0 c1 c2 c3.
Proof. unfold num, num4. cbn [num_from]. lia. Qed.

End TimestampFields.

(** X11.  The time of a timestamp that decodes is the date and time of day
    its digits spell, in UTC: the year is the value of the first four bytes
    of the input without its double quotes, the month, day, hour, minute and
    second are the values of the five pairs of bytes that follow, and the
    nanoseconds are those of the fractional second after the fourteenth
    byte, zero when there is none. *)
Theorem UnmarshalJSON_civil_time p bytes t :
  UnmarshalJSON p bytes = (mkTimestamp t, None) ->
  let s := strings.ReplaceAll_byte bytes dquote in
  time.Time_Date t
  = (TimeSpec.num (take 4 s), TimeSpec.num (take 2 (drop 4 s)),
     TimeSpec.num (take 2 (drop 6 s)))
  /\ time.Time_Clock t
     = (TimeSpec.num (take 2 (drop 8 s)), TimeSpec.num (take 2 (drop 10 s)),
        TimeSpec.num (take 2 (drop 12 s)))
  /\ TimeSpec.frac_nanos (drop 14 s) = Some (time.Time_Nanosecond t)
  /\ time.loc t = time.UTC.
Proof.
  unfold UnmarshalJSON.
  destruct (time.Parse_20060102150405 _) as [t'|e] eqn:P; [|discriminate].
  intros H. injection H as <-. cbv zeta.
  apply TimeFacts.Parse_sound in P.
  destruct (stamp_time_inv _ _ P)
    as (c0 & c1 & c2 & c3 & c4 & c5 & c6 & c7 & c8 & c9 & c10 & c11 & c12
        & c13 & rest & ns & -> & _ & F & Hok & ->).
  cbn [take drop].
  rewrite !num_two, num_num4, F.
  rewrite (Time_Date_civil _ _ _ _ _ _ _ Hok).
  rewrite (Time_Clock_civil _ _ _ _ _ _ _ Hok).
  rewrite (Nanosecond_civil _ _ _ _ _ _ _ Hok).
  repeat split. apply loc_Date.
Qed.

Lemma UnmarshalJSON_civil_time_witness :
  time.Time_Date (time.Date 2000 2 29 23 59 58 500000000 time.UTC)
  = (2000, 2, 29)
  /\ time.Time_Clock (time.Date 2000 2 29 23 59 58 500000000 time.UTC)
     = (23, 59, 58)
  /\ Some 500000000
     = Some (time.Time_Nanosecond
               (time.Date 2000 2 29 23 59 58 500000000 time.UTC))
  /\ time.loc (time.Date 2000 2 29 23 59 58 500000000 time.UTC) = time.UTC.
Proof.
  apply (UnmarshalJSON_civil_time (mkTimestamp (time.mkTime 0 0 time.UTC))
           (quoted "20000229235958.5")
           (time.Date 2000 2 29 23 59 58 500000000 time.UTC)).
  vm_compute. reflexivity.
Defined.

(** X12.  Timestamps that differ in their fourteen digits decode to times
    that differ: when two inputs decode to the same time, the first fourteen
    bytes of the two, without their double quotes, are the same. *)
Theorem UnmarshalJSON_injective p1 p2 bytes1 bytes2 t :
  UnmarshalJSON p1 bytes1 = (mkTimestamp t, None) ->
  UnmarshalJSON p2 bytes2 = (mkTimestamp t, None) ->
  take 14 (strings.ReplaceAll_byte bytes1 dquote)
  = take 14 (strings.ReplaceAll_byte bytes2 dquote).
Proof.
  unfold UnmarshalJSON.
  destruct (time.Parse_20060102150405 (strings.ReplaceAll_byte bytes1 _))
    as [t1|e] eqn:P1; [|discriminate].
  destruct (time.Parse_20060102150405 (strings.ReplaceAll_byte bytes2 _))
    as [t2|e] eqn:P2; [|discriminate].
  intros H1 H2. injection H1 as <-. injection H2 as ->.
  apply TimeFacts.Parse_sound in P1, P2.
  rewrite <- (TimeFacts.Format_stamp _ _ P1), <- (TimeFacts.Format_stamp _ _ P2).
  reflexivity.
Qed.

(** ** Plain URLs *)

Module PlainURL.
Import url URLSpec URLFacts.

Local Abbreviation B c := (String c EmptyString) (only parsing).

Ltac each_byte c :=
  destruct c as [[] [] [] [] [] [] [] []]; vm_compute;
  try (intros; discriminate); repeat split; try reflexivity.

Lemma all_bytes_app p s t :
  all_bytes p (String.append s t) = all_bytes p s && all_bytes p t.
Proof.
  induction s as [|c s IH]; cbn; [reflexivity|].
  rewrite IH. apply andb_assoc.
Qed.

Lemma all_bytes_impl (p q : ascii -> bool) s :
  (forall c, p c = true -> q c = true) ->
  all_bytes p s = true -> all_bytes q s = true.
Proof.
  intros Hpq. induction s as [|c s IH]; cbn; [reflexivity|].
  intros H. apply andb_prop in H. destruct H as [Hc Hs].
  rewrite (Hpq c Hc), (IH Hs). reflexivity.
Qed.

(** *** The kinds of bytes *)

Lemma lower_no_delimiter c : is_lower c = true -> no_delimiter c = true.
Proof. each_byte c. Qed.

Lemma name_no_delimiter c : name_byte c = true -> no_delimiter c = true.
Proof. each_byte c. Qed.

Lemma digit_no_delimiter c : time.is_digit c = true -> no_delimiter c = true.
Proof. each_byte c. Qed.

Lemma path_no_delimiter c : path_byte c = true -> no_delimiter c = true.
Proof. each_byte c. Qed.

Lemma name_kept c : name_byte c = true -> kept_in encodeHost c = true.
Proof. each_byte c. Qed.

Lemma digit_kept c : time.is_digit c = true -> kept_in encodeHost c = true.
Proof. each_byte c. Qed.

Lemma path_kept c : path_byte c = true -> kept_in encodePath c = true.
Proof. each_byte c. Qed.

Lemma name_not_slash c : name_byte c = true -> Ascii.eqb c "/" = false.
Proof. each_byte c. Qed.

Lemma name_not_colon c : name_byte c = true -> Ascii.eqb c ":" = false.
Proof. each_byte c. Qed.

Lemma digit_not_slash c : time.is_digit c = true -> Ascii.eqb c "/" = false.
Proof. each_byte c. Qed.

Lemma digit_not_colon c : time.is_digit c = true -> Ascii.eqb c ":" = false.
Proof. each_byte c. Qed.

Lemma no_delimiter_inv c :
  no_delimiter c = true ->
  ((byte_val c <? 32) || (byte_val c =? 127)) = false
  /\ Ascii.eqb c "?" = false /\ Ascii.eqb c "#" = false
  /\ Ascii.eqb c "@" = false /\ Ascii.eqb c "[" = false
  /\ Ascii.eqb c "]" = false /\ Ascii.eqb c "%" = false.
Proof. each_byte c. Qed.

Lemma lower_inv c :
  is_lower c = true ->
  strings.lower_byte c = c /\ Ascii.eqb c "*" = false.
Proof. each_byte c. Qed.

(** *** Bytes that do not occur *)

Lemma Count_absent (p : ascii -> bool) x s :
  (forall c, p c = true -> Ascii.eqb c x = false) ->
  all_bytes p s = true -> strings.Count_byte s x = 0.
Proof.
  intros Hp. induction s as [|c s IH]; cbn; [reflexivity|].
  intros H. apply andb_prop in H. destruct H as [Hc Hs].
  rewrite (Hp c Hc), (IH Hs). reflexivity.
Qed.

Lemma Index_absent s x :
  strings.Count_byte s x = 0 -> strings.Index s (B x) = None.
Proof.
  intros H. destruct (strings.Index s (B x)) as [i|] eqn:E; [|reflexivity].
  pose proof (Index_some_Count s x i E). lia.
Qed.

Lemma LastIndex_absent s x :
  strings.Count_byte s x = 0 -> strings.LastIndex_byte s x = None.
Proof.
  induction s as [|c s IH]; cbn; [reflexivity|].
  pose proof (Count_nonneg s x).
  destruct (Ascii.eqb c x); [lia|].
  intros H0. rewrite IH by lia. reflexivity.
Qed.

Lemma LastIndex_app s x t :
  strings.Count_byte t x = 0 ->
  strings.LastIndex_byte (String.append s (String x t)) x
  = Some (String.length s).
Proof.
  intros Ht. induction s as [|c s IH]; cbn [String.append].
  - cbn. rewrite (LastIndex_absent t x Ht), Ascii.eqb_refl. reflexivity.
  - cbn [strings.LastIndex_byte String.length]. rewrite IH. reflexivity.
Qed.

Lemma HasSuffix_absent s x :
  strings.Count_byte s x = 0 -> strings.HasSuffix s (B x) = false.
Proof.
  intros H. destruct (strings.HasSuffix s (B x)) eqn:E; [|reflexivity].
  pose proof (HasSuffix_Count s x E). lia.
Qed.

Lemma Cut_absent s x :
  strings.Count_byte s x = 0 ->
  strings.Cut s (B x) = (s, EmptyString, false).
Proof.
  intros H. unfold strings.Cut. rewrite (Index_absent s x H). reflexivity.
Qed.

Lemma CTL_app s t :
  stringContainsCTLByte (String.append s t)
  = stringContainsCTLByte s || stringContainsCTLByte t.
Proof.
  induction s as [|c s IH]; cbn; [reflexivity|].
  rewrite IH, !orb_assoc. reflexivity.
Qed.

(** A string without delimiters: what is not in it. *)
Lemma no_delimiter_string s :
  all_bytes no_delimiter s = true ->
  stringContainsCTLByte s = false
  /\ strings.Count_byte s "?" = 0 /\ strings.Count_byte s "#" = 0
  /\ strings.Count_byte s "@" = 0 /\ strings.Count_byte s "[" = 0
  /\ strings.Count_byte s "]" = 0 /\ strings.Count_byte s "%" = 0.
Proof.
  intros H. split.
  - induction s as [|c s IH]; cbn; [reflexivity|].
    cbn in H. apply andb_prop in H. destruct H as [Hc Hs].
    destruct (no_delimiter_inv c Hc) as (C & _). rewrite C, (IH Hs).
    reflexivity.
  - repeat split; apply (Count_absent no_delimiter); auto;
      intros c Hc; apply (no_delimiter_inv c Hc).
Qed.

(** *** [unescape] and [escape] *)

Lemma kept_in_inv mode c :
  kept_in mode c = true ->
  Ascii.eqb c "%" = false /\ shouldEscape c mode = false.
Proof.
  unfold kept_in. intros H. apply andb_prop in H. destruct H as [H1 H2].
  apply negb_true_iff in H1, H2. auto.
Qed.

Lemma unescape_kept mode s :
  mode = encodeHost \/ mode = encodePath ->
  all_bytes (kept_in mode) s = true ->
  unescape s mode = inl s /\ escape s mode = s.
Proof.
  intros Hm H.
  assert (C : unescape_check s mode = None
              /\ unescape_bytes s mode = s /\ escape s mode = s).
  { induction s as [|c s IH]; [repeat split|].
    cbn in H. apply andb_prop in H. destruct H as [Hc Hs].
    destruct (kept_in_inv mode c Hc) as (P & E).
    destruct (IH Hs) as (I1 & I2 & I3).
    cbn [unescape_check unescape_bytes escape]. rewrite P, E, I1, I2, I3.
    destruct Hm as [-> | ->]; cbn [encoding_eqb orb andb].
    - rewrite E, !andb_false_r. repeat split.
    - rewrite !andb_false_r. repeat split. }
  destruct C as (C1 & C2 & C3). unfold unescape. rewrite C1, C2. auto.
Qed.

(** *** The scheme *)

Lemma getScheme_loop_lower raw rest : forall s i,
  all_bytes is_lower s = true ->
  getScheme_loop raw i (String.append s (String ":" rest))
  = if ((i + String.length s)%nat =? 0)%nat
    then inr (url_errorString "missing protocol scheme")
    else inl (take (i + String.length s) raw, rest).
Proof.
  induction s as [|c s IH]; intros i H.
  - cbn [String.append String.length getScheme_loop].
    rewrite Nat.add_0_r. reflexivity.
  - cbn in H. apply andb_prop in H. destruct H as [Hc Hs].
    cbn [String.append String.length getScheme_loop]. rewrite Hc.
    cbn [orb]. rewrite (IH (S i) Hs).
    replace (S i + String.length s)%nat with (i + S (String.length s))%nat
      by lia.
    reflexivity.
Qed.

Lemma getScheme_plain scheme rest :
  plain_scheme scheme = true ->
  getScheme (String.append scheme (String ":" rest)) = inl (scheme, rest).
Proof.
  unfold plain_scheme. intros H. apply andb_prop in H. destruct H as [N L].
  unfold getScheme. rewrite (getScheme_loop_lower _ rest scheme O L).
  cbn [Nat.add]. destruct scheme as [|c s]; [discriminate|].
  cbn [String.length Nat.eqb].
  change (S (String.length s)) with (String.length (String c s)).
  rewrite take_app_le by lia. rewrite TimeFacts.take_length. reflexivity.
Qed.

Lemma ToLower_lower s : all_bytes is_lower s = true -> strings.ToLower s = s.
Proof.
  induction s as [|c s IH]; cbn; [reflexivity|].
  intros H. apply andb_prop in H. destruct H as [Hc Hs].
  destruct (lower_inv c Hc) as (E & _). rewrite E, (IH Hs). reflexivity.
Qed.

(** *** The host *)

Lemma HasPrefix_absent s x :
  strings.Count_byte s x = 0 -> strings.HasPrefix s (B x) = false.
Proof.
  destruct s as [|c s]; [reflexivity|]. cbn.
  pose proof (Count_nonneg s x).
  destruct (Ascii.eqb c x); [lia|reflexivity].
Qed.

Lemma all_port_digits_eq s : all_port_digits s = all_bytes time.is_digit s.
Proof. induction s as [|c s IH]; cbn; [|rewrite IH]; reflexivity. Qed.

Lemma plain_port_inv port :
  plain_port port = true ->
  port = EmptyString
  \/ exists d ds,
       port = String ":" (String d ds)
       /\ all_bytes time.is_digit (String d ds) = true.
Proof.
  destruct port as [|c ds]; [auto|]. cbn [plain_port]. intros H.
  apply andb_prop in H. destruct H as [H D].
  apply andb_prop in H. destruct H as [C N].
  apply Ascii.eqb_eq in C. subst c.
  destruct ds as [|d ds]; [discriminate|]. right. eauto.
Qed.

(** What a plain host is made of. *)
Lemma plain_host name port :
  plain_name name = true -> plain_port port = true ->
  all_bytes no_delimiter (String.append name port) = true
  /\ all_bytes (kept_in encodeHost) (String.append name port) = true
  /\ strings.Count_byte (String.append name port) "/" = 0
  /\ String.eqb (String.append name port) "" = false.
Proof.
  unfold plain_name. intros Hn Hp.
  apply andb_prop in Hn. destruct Hn as [Ne Hn].
  rewrite !all_bytes_app, Count_app.
  rewrite (all_bytes_impl _ _ name name_no_delimiter Hn).
  rewrite (all_bytes_impl _ _ name name_kept Hn).
  rewrite (Count_absent name_byte "/" name name_not_slash Hn).
  assert (E : String.eqb (String.append name port) "" = false)
    by (destruct name; [discriminate|reflexivity]).
  destruct (plain_port_inv port Hp) as [-> | (d & ds & -> & D)];
    [repeat split; exact E|].
  set (dd := String d ds) in *.
  cbn [all_bytes strings.Count_byte].
  rewrite (all_bytes_impl _ _ _ digit_no_delimiter D).
  rewrite (all_bytes_impl _ _ _ digit_kept D).
  rewrite (Count_absent time.is_digit "/" _ digit_not_slash D).
  repeat split; exact E.
Qed.

Lemma drop_app_length s t : drop (String.length s) (String.append s t) = t.
Proof. induction s as [|c s IH]; cbn; auto. Qed.

Lemma take_app_length s t : take (String.length s) (String.append s t) = s.
Proof. induction s as [|c s IH]; cbn; [|rewrite IH]; auto. Qed.

Lemma parseHost_plain name port :
  plain_name name = true -> plain_port port = true ->
  parseHost (String.append name port) = inl (String.append name port).
Proof.
  intros Hn Hp.
  destruct (plain_host name port Hn Hp) as (D & K & _ & _).
  destruct (no_delimiter_string _ D) as (_ & _ & _ & _ & O & _ & _).
  destruct (unescape_kept encodeHost _ (or_introl eq_refl) K) as (U & _).
  unfold parseHost. rewrite (HasPrefix_absent _ "[" O).
  unfold plain_name in Hn. apply andb_prop in Hn. destruct Hn as [_ Hn].
  destruct (plain_port_inv port Hp) as [-> | (d & ds & -> & Dg)].
  - rewrite app_nil_r in *.
    rewrite (LastIndex_absent name ":"
               (Count_absent name_byte ":" name name_not_colon Hn)).
    exact U.
  - rewrite (LastIndex_app name ":" (String d ds)
               (Count_absent time.is_digit ":" _ digit_not_colon Dg)).
    rewrite drop_app_length.
    unfold validOptionalPort. rewrite all_port_digits_eq, Dg. exact U.
Qed.

Lemma parseAuthority_plain name port :
  plain_name name = true -> plain_port port = true ->
  parseAuthority (String.append name port)
  = inl (None, String.append name port).
Proof.
  intros Hn Hp.
  destruct (plain_host name port Hn Hp) as (D & _).
  destruct (no_delimiter_string _ D) as (_ & _ & _ & A & _).
  unfold parseAuthority. rewrite (LastIndex_absent _ "@" A).
  rewrite (parseHost_plain name port Hn Hp). reflexivity.
Qed.

Lemma removeEmptyPort_plain name port :
  plain_name name = true -> plain_port port = true ->
  http.removeEmptyPort (String.append name port) = String.append name port.
Proof.
  intros Hn Hp. unfold http.removeEmptyPort, strings.TrimSuffix.
  destruct (http.hasPort _); [|reflexivity].
  replace (strings.HasSuffix (String.append name port) ":") with false;
    [reflexivity|].
  symmetry. unfold plain_name in Hn. apply andb_prop in Hn.
  destruct Hn as [_ Hn].
  destruct (plain_port_inv port Hp) as [-> | (d & ds & -> & Dg)].
  - rewrite app_nil_r. apply HasSuffix_absent.
    apply (Count_absent name_byte ":" name name_not_colon Hn).
  - rewrite HasSuffix_app, HasSuffix_cons. apply HasSuffix_absent.
    apply (Count_absent time.is_digit ":" _ digit_not_colon Dg).
Qed.

(** *** The path *)

Lemma plain_path_inv p :
  plain_path p = true ->
  (p = EmptyString \/ slashed p)
  /\ all_bytes no_delimiter p = true
  /\ all_bytes (kept_in encodePath) p = true.
Proof.
  unfold plain_path. intros H. apply andb_prop in H. destruct H as [S P].
  split.
  - destruct p as [|c t]; [auto|right].
    cbn [String.eqb orb strings.HasPrefix] in S.
    apply andb_prop in S. destruct S as [S _].
    apply Ascii.eqb_eq in S. subst c.
    exists t. reflexivity.
  - split; [apply (all_bytes_impl _ _ p path_no_delimiter P)|
            apply (all_bytes_impl _ _ p path_kept P)].
Qed.

Lemma setPath_plain u p :
  plain_path p = true ->
  setPath u p
  = inl (mkURL (Scheme u) (Opaque u) (User u) (Host u) p EmptyString
           (OmitHost u) (ForceQuery u) (RawQuery u) (Fragment u)
           (RawFragment u)).
Proof.
  intros H. destruct (plain_path_inv p H) as (_ & _ & K).
  destruct (unescape_kept encodePath p (or_intror eq_refl) K) as (U & E).
  unfold setPath. rewrite U, E, String.eqb_refl. reflexivity.
Qed.

Lemma EscapedPath_plain scheme host p :
  plain_path p = true -> EscapedPath (plain_URL scheme host p) = p.
Proof.
  intros H. destruct (plain_path_inv p H) as (S & _ & K).
  destruct (unescape_kept encodePath p (or_intror eq_refl) K) as (_ & E).
  unfold EscapedPath, plain_URL. cbn [RawPath Path String.eqb negb andb].
  rewrite E. destruct S as [-> | [t ->]]; reflexivity.
Qed.

(** The split of the authority and the path. *)
Lemma Index_host_path host p :
  strings.Count_byte host "/" = 0 -> p = EmptyString \/ slashed p ->
  match strings.Index (String.append host p) "/" with
  | Some i =>
      (take i (String.append host p), drop i (String.append host p))
  | None => (String.append host p, EmptyString)
  end = (host, p).
Proof.
  intros H [-> | [t ->]].
  - rewrite app_nil_r, (Index_absent host "/" H). reflexivity.
  - rewrite (Index_app_none host "/" _ (Index_absent host "/" H)).
    rewrite Index_cons. cbn [Ascii.eqb Bool.eqb option_map].
    rewrite Nat.add_0_r, take_app_length, drop_app_length. reflexivity.
Qed.

(** *** [url.Parse] and [URL.String] on a plain URL *)

(** The text of a plain URL. *)
Lemma plain_text_no_delimiter scheme name port p :
  plain_scheme scheme = true -> plain_name name = true ->
  plain_port port = true -> plain_path p = true ->
  all_bytes no_delimiter
    (String "/" (String "/" (String.append (String.append name port) p)))
  = true
  /\ all_bytes no_delimiter
       (String.append scheme
          (String ":" (String "/" (String "/"
             (String.append (String.append name port) p))))) = true.
Proof.
  intros Hs Hn Hp Hq.
  destruct (plain_host name port Hn Hp) as (D & _).
  destruct (plain_path_inv p Hq) as (_ & Dp & _).
  unfold plain_scheme in Hs. apply andb_prop in Hs. destruct Hs as [_ Hs].
  assert (R : all_bytes no_delimiter
                (String "/" (String "/"
                   (String.append (String.append name port) p))) = true).
  { cbn [all_bytes]. rewrite all_bytes_app, D, Dp. reflexivity. }
  split; [exact R|].
  rewrite all_bytes_app, (all_bytes_impl _ _ scheme lower_no_delimiter Hs).
  cbn [all_bytes andb]. cbn [all_bytes] in R.
  replace (no_delimiter ":") with true by reflexivity. exact R.
Qed.

Lemma parse_tail_plain scheme name port p :
  plain_scheme scheme = true -> plain_name name = true ->
  plain_port port = true -> plain_path p = true ->
  parse_tail scheme
    (String "/" (String "/" (String.append (String.append name port) p)))
    false EmptyString
  = inl (plain_URL scheme (String.append name port) p).
Proof.
  intros Hs Hn Hp Hq.
  destruct (plain_host name port Hn Hp) as (_ & _ & C & _).
  destruct (plain_path_inv p Hq) as (S & _ & _).
  assert (Es : String.eqb scheme "" = false).
  { unfold plain_scheme in Hs. apply andb_prop in Hs. destruct Hs as [N _].
    apply negb_true_iff, N. }
  unfold parse_tail.
  set (host := String.append name port) in *.
  replace (strings.HasPrefix (String "/" (String "/" (String.append host p)))
             "/") with true by reflexivity.
  replace (strings.HasPrefix (String "/" (String "/" (String.append host p)))
             "//") with true
    by (cbn; destruct (String.append host p); reflexivity).
  rewrite Es. cbn [negb andb orb drop].
  rewrite (Index_host_path host p C S).
  subst host. rewrite (parseAuthority_plain name port Hn Hp).
  rewrite setPath_plain by exact Hq. reflexivity.
Qed.

Lemma parse_plain scheme name port p :
  plain_scheme scheme = true -> plain_name name = true ->
  plain_port port = true -> plain_path p = true ->
  parse (String.append scheme
           (String ":" (String "/" (String "/"
              (String.append (String.append name port) p)))))
  = inl (plain_URL scheme (String.append name port) p).
Proof.
  intros Hs Hn Hp Hq.
  destruct (plain_text_no_delimiter scheme name port p Hs Hn Hp Hq)
    as (Dr & Dw).
  destruct (no_delimiter_string _ Dw) as (CTL & _).
  destruct (no_delimiter_string _ Dr) as (_ & Q & _).
  rewrite parse_unfold, CTL.
  assert (L : all_bytes is_lower scheme = true).
  { unfold plain_scheme in Hs. apply andb_prop in Hs. apply Hs. }
  assert (St : String.eqb
                 (String.append scheme
                    (String ":" (String "/" (String "/"
                       (String.append (String.append name port) p))))) "*"
               = false).
  { destruct scheme as [|c sc]; [discriminate|].
    cbn in L. apply andb_prop in L. destruct L as [Lc _].
    destruct (lower_inv c Lc) as (_ & E).
    cbn [String.append String.eqb]. rewrite E. reflexivity. }
  rewrite St, (getScheme_plain scheme _ Hs).
  unfold split_query.
  rewrite (HasSuffix_absent _ "?" Q), (Cut_absent _ "?" Q).
  cbn [andb]. rewrite (ToLower_lower scheme L).
  apply parse_tail_plain; assumption.
Qed.

Lemma Parse_plain scheme name port p :
  plain_scheme scheme = true -> plain_name name = true ->
  plain_port port = true -> plain_path p = true ->
  url.Parse (String.append scheme
               (String ":" (String "/" (String "/"
                  (String.append (String.append name port) p)))))
  = Ok (plain_URL scheme (String.append name port) p).
Proof.
  intros Hs Hn Hp Hq.
  destruct (plain_text_no_delimiter scheme name port p Hs Hn Hp Hq)
    as (_ & Dw).
  destruct (no_delimiter_string _ Dw) as (_ & _ & F & _).
  unfold url.Parse. rewrite (Cut_absent _ "#" F).
  rewrite (parse_plain scheme name port p Hs Hn Hp Hq). reflexivity.
Qed.

Lemma URL_String_plain scheme name port p :
  plain_scheme scheme = true -> plain_name name = true ->
  plain_port port = true -> plain_path p = true ->
  URL_String (plain_URL scheme (String.append name port) p)
  = String.append scheme
      (String ":" (String "/" (String "/"
         (String.append (String.append name port) p)))).
Proof.
  intros Hs Hn Hp Hq.
  destruct (plain_host name port Hn Hp) as (_ & K & _ & Eh).
  destruct (unescape_kept encodeHost _ (or_introl eq_refl) K) as (_ & E).
  destruct (plain_path_inv p Hq) as (S & _ & _).
  assert (Es : String.eqb scheme "" = false).
  { unfold plain_scheme in Hs. apply andb_prop in Hs. destruct Hs as [N _].
    apply negb_true_iff, N. }
  unfold URL_String.
  rewrite (EscapedPath_plain scheme _ p Hq).
  unfold plain_URL.
  cbn [Scheme Opaque User Host Path OmitHost ForceQuery RawQuery Fragment
         RawFragment].
  rewrite Es, Eh, E. cbn [String.eqb negb orb andb].
  replace (negb (String.eqb p "") && negb (strings.HasPrefix p "/") && true)
    with false
    by (destruct S as [-> | [t ->]]; [reflexivity|];
        cbn; destruct t; reflexivity).
  replace (String.eqb
             (String.append
                (String.append (String.append scheme ":") "//")
                (String.append name port)) "")
    with false
    by (destruct scheme; [discriminate|reflexivity]).
  rewrite !app_assoc. reflexivity.
Qed.

Lemma NewRequest_plain scheme name port p :
  plain_scheme scheme = true -> plain_name name = true ->
  plain_port port = true -> plain_path p = true ->
  http.NewRequest "GET"
    (String.append scheme
       (String ":" (String "/" (String "/"
          (String.append (String.append name port) p)))))
  = Ok (http.mkRequest "GET"
          (plain_URL scheme (String.append name port) p) []
          (String.append name port)).
Proof.
  intros Hs Hn Hp Hq. unfold http.NewRequest.
  cbn [String.eqb].
  replace (http.validMethod "GET") with true by reflexivity.
  cbn [negb]. rewrite (Parse_plain scheme name port p Hs Hn Hp Hq).
  unfold plain_URL.
  cbn [Scheme Opaque User Host Path RawPath OmitHost ForceQuery RawQuery
         Fragment RawFragment].
  rewrite (removeEmptyPort_plain name port Hn Hp). reflexivity.
Qed.

End PlainURL.

(** ** The request for a plain URL *)

Section PlainRequests.

Variable network : http.Request -> result http.Response.
Variable Decode_RevisionInfo : string -> result RevisionInfo.
Variable Decode_Revision : string -> result Revision.
Variable Decode_ServerInfo : string -> result ServerInfo.

Lemma via_fetch_plain {A : Type}
  (decode : string -> M (option A * option error)) a path scheme name port p :
  (forall body, requests (trace (decode body)) = []) ->
  plain_scheme scheme = true -> plain_name name = true ->
  plain_port port = true -> plain_path p = true ->
  String.append (apiEndpoint a) path
  = String.append scheme
      (String ":" (String "/" (String "/"
         (String.append (String.append name port) p)))) ->
  requests (trace (via_fetch network a path decode))
  = [plain_request a scheme (String.append name port) p].
Proof.
  intros Hd Hs Hn Hp Hq E.
  rewrite via_fetch_unfold, E.
  rewrite (PlainURL.Parse_plain scheme name port p Hs Hn Hp Hq).
  rewrite (PlainURL.URL_String_plain scheme name port p Hs Hn Hp Hq).
  rewrite (PlainURL.NewRequest_plain scheme name port p Hs Hn Hp Hq).
  assert (W : with_headers a
                (http.mkRequest "GET"
                   (plain_URL scheme (String.append name port) p) []
                   (String.append name port))
              = plain_request a scheme (String.append name port) p)
    by reflexivity.
  rewrite W.
  destruct (network _) as [resp|e]; [|reflexivity].
  destruct (_ =? _); [|reflexivity].
  cbn [trace snd requests]. rewrite Hd. reflexivity.
Qed.

(** The text of a base endpoint followed by a path of the service. *)
Lemma plain_composed scheme name port bpath path :
  String.append
    (String.append scheme
       (String.append "://"
          (String.append name (String.append port bpath)))) path
  = String.append scheme
      (String ":" (String "/" (String "/"
         (String.append (String.append name port)
            (String.append bpath path))))).
Proof.
  rewrite !string_app_assoc. reflexivity.
Qed.

Lemma plain_path_app bpath path :
  plain_path bpath = true ->
  URLSpec.slashed path -> all_bytes path_byte path = true ->
  plain_path (String.append bpath path) = true.
Proof.
  unfold plain_path. intros H [t ->] P.
  apply andb_prop in H. destruct H as [S B].
  rewrite PlainURL.all_bytes_app, B, P, andb_true_r.
  destruct bpath as [|c b]; [cbn; destruct t; reflexivity|].
  cbn [String.eqb orb strings.HasPrefix String.append] in *.
  apply andb_prop in S. destruct S as [-> _].
  destruct (String.append b (String "/" t)); reflexivity.
Qed.

(** X13.  With a base endpoint [scheme://host/path] of a lower-case scheme,
    a host name of letters, digits, hyphens and periods with or without a
    port, and a path of unreserved bytes and slashes, and with arguments of
    such bytes, each operation sends exactly one request: the GET request
    for the base endpoint followed by the path of the operation and its
    arguments, byte for byte, with the two headers of the client. *)
Theorem plain_URL_is_requested a scheme name port bpath :
  plain_scheme scheme = true -> plain_name name = true ->
  plain_port port = true -> plain_path bpath = true ->
  apiEndpoint a
  = String.append scheme
      (String.append "://" (String.append name (String.append port bpath))) ->
  (forall id_type id,
     id_type = "genesis_hash" \/ id_type = "title" ->
     all_bytes path_byte id = true ->
     requests (trace
       (GetHashChainInfo network Decode_RevisionInfo a id_type id))
     = [plain_request a scheme (String.append name port)
          (String.append bpath
             (String.append "/data_accounting/get_hash_chain_info/"
                (String.append id_type (String.append "/" id))))])
  /\ (forall h,
        all_bytes path_byte h = true ->
        requests (trace (GetRevisionHashes network a h))
        = [plain_request a scheme (String.append name port)
             (String.append bpath
                (String.append "/data_accounting/get_revision_hashes/" h))])
  /\ (forall h,
        all_bytes path_byte h = true ->
        requests (trace (GetRevision network Decode_Revision a h))
        = [plain_request a scheme (String.append name port)
             (String.append bpath
                (String.append "/data_accounting/get_revision/" h))])
  /\ requests (trace (GetServerInfo network Decode_ServerInfo a))
     = [plain_request a scheme (String.append name port)
          (String.append bpath "/data_accounting/get_server_info")].
Proof.
  intros Hs Hn Hp Hb Ha.
  assert (V : forall {A : Type}
                (decode : string -> M (option A * option error)) path,
             (forall body, requests (trace (decode body)) = []) ->
             URLSpec.slashed path -> all_bytes path_byte path = true ->
             requests (trace (via_fetch network a path decode))
             = [plain_request a scheme (String.append name port)
                  (String.append bpath path)]).
  { intros A decode path Hd Sl Pb.
    apply via_fetch_plain; auto.
    - apply plain_path_app; assumption.
    - rewrite Ha. apply plain_composed. }
  repeat split.
  - intros id_type id Hid Pid.
    rewrite (GetHashChainInfo_composed network Decode_RevisionInfo a _ id Hid).
    apply V; [apply decoded_logged_sends_nothing|eexists; reflexivity|].
    rewrite !PlainURL.all_bytes_app, Pid.
    destruct Hid as [-> | ->]; reflexivity.
  - intros h Ph. rewrite GetRevisionHashes_via_fetch.
    apply V; [apply decoded_hashes_sends_nothing|eexists; reflexivity|].
    unfold endpoint_get_revision_hashes.
    rewrite PlainURL.all_bytes_app, Ph. reflexivity.
  - intros h Ph. rewrite GetRevision_via_fetch.
    apply V; [apply decoded_sends_nothing|eexists; reflexivity|].
    unfold endpoint_get_revision.
    rewrite PlainURL.all_bytes_app, Ph. reflexivity.
  - rewrite GetServerInfo_via_fetch.
    apply V; [apply decoded_sends_nothing|eexists; reflexivity|reflexivity].
Qed.

End PlainRequests.

(** ** A base endpoint with a query *)

Module QueryURL.
Import url URLSpec URLFacts PlainURL.

Local Abbreviation B c := (String c EmptyString) (only parsing).

Lemma query_byte_inv c :
  query_byte c = true ->
  ((byte_val c <? 32) || (byte_val c =? 127)) = false
  /\ Ascii.eqb c "#" = false.
Proof.
  unfold query_byte. intros H. apply andb_prop in H. destruct H as [H1 H2].
  apply negb_true_iff in H1, H2. auto.
Qed.

Lemma path_query_byte c : path_byte c = true -> query_byte c = true.
Proof. each_byte c. Qed.

Lemma query_string q :
  all_bytes query_byte q = true ->
  stringContainsCTLByte q = false /\ strings.Count_byte q "#" = 0.
Proof.
  intros H. split.
  - induction q as [|c q IH]; cbn; [reflexivity|].
    cbn in H. apply andb_prop in H. destruct H as [Hc Hq].
    destruct (query_byte_inv c Hc) as (C & _). rewrite C, (IH Hq).
    reflexivity.
  - apply (Count_absent query_byte); auto.
    intros c Hc. apply (query_byte_inv c Hc).
Qed.

(** The part of the URL after the scheme is split at its first question
    mark. *)
Lemma split_query_at pre q :
  strings.Count_byte pre "?" = 0 -> q <> EmptyString ->
  split_query (String.append pre (String "?" q)) = (pre, false, q).
Proof.
  intros P N. unfold split_query.
  assert (G : strings.HasSuffix (String.append pre (String "?" q)) "?"
              && (strings.Count_byte (String.append pre (String "?" q)) "?"
                  =? 1) = false).
  { destruct (strings.HasSuffix _ _) eqn:S; [|reflexivity].
    rewrite HasSuffix_app in S.
    destruct q as [|c q]; [congruence|].
    rewrite HasSuffix_cons in S. apply HasSuffix_Count in S.
    rewrite Count_app, P. cbn [strings.Count_byte Ascii.eqb Bool.eqb].
    cbn [andb]. apply Z.eqb_neq.
    change (strings.Count_byte (String c q) "?")
      with ((if Ascii.eqb c "?" then 1 else 0) + strings.Count_byte q "?")
      in S.
    cbn [strings.Count_byte]. lia. }
  rewrite G. unfold strings.Cut.
  rewrite (Index_app_none pre "?" _ (Index_absent pre "?" P)).
  rewrite Index_cons. cbn [Ascii.eqb Bool.eqb option_map String.length].
  rewrite Nat.add_0_r, take_app_length.
  replace (String.length pre + 1)%nat with (S (String.length pre)) by lia.
  replace (drop (S (String.length pre)) (String.append pre (String "?" q)))
    with q; [reflexivity|].
  clear. induction pre as [|c pre IH]; cbn; auto.
Qed.

Lemma parse_tail_query scheme name port p q :
  plain_scheme scheme = true -> plain_name name = true ->
  plain_port port = true -> plain_path p = true ->
  parse_tail scheme
    (String "/" (String "/" (String.append (String.append name port) p)))
    false q
  = inl (query_URL scheme (String.append name port) p q).
Proof.
  intros Hs Hn Hp Hq.
  destruct (plain_host name port Hn Hp) as (_ & _ & C & _).
  destruct (plain_path_inv p Hq) as (S & _ & _).
  assert (Es : String.eqb scheme "" = false).
  { unfold plain_scheme in Hs. apply andb_prop in Hs. destruct Hs as [N _].
    apply negb_true_iff, N. }
  unfold parse_tail.
  set (host := String.append name port) in *.
  replace (strings.HasPrefix (String "/" (String "/" (String.append host p)))
             "/") with true by reflexivity.
  replace (strings.HasPrefix (String "/" (String "/" (String.append host p)))
             "//") with true
    by (cbn; destruct (String.append host p); reflexivity).
  rewrite Es. cbn [negb andb orb drop].
  rewrite (Index_host_path host p C S).
  subst host. rewrite (parseAuthority_plain name port Hn Hp).
  rewrite setPath_plain by exact Hq. reflexivity.
Qed.

Lemma Parse_query scheme name port p q :
  plain_scheme scheme = true -> plain_name name = true ->
  plain_port port = true -> plain_path p = true ->
  all_bytes query_byte q = true -> q <> EmptyString ->
  url.Parse (query_text scheme name port p q)
  = Ok (query_URL scheme (String.append name port) p q).
Proof.
  intros Hs Hn Hp Hq Hb Nq. unfold query_text.
  destruct (plain_text_no_delimiter scheme name port p Hs Hn Hp Hq)
    as (Dr & Dw).
  destruct (no_delimiter_string _ Dr) as (Cr & Qr & Fr & _).
  destruct (query_string q Hb) as (Cq & Fq).
  assert (L : all_bytes is_lower scheme = true).
  { unfold plain_scheme in Hs. apply andb_prop in Hs. apply Hs. }
  assert (Ds : all_bytes no_delimiter scheme = true)
    by (apply (all_bytes_impl _ _ scheme lower_no_delimiter L)).
  destruct (no_delimiter_string _ Ds) as (Cs & _ & Fs & _).
  set (pre := String "/" (String "/"
                (String.append (String.append name port) p))) in *.
  set (rest := String "/" (String "/"
                 (String.append (String.append (String.append name port) p)
                    (String "?" q)))).
  assert (Er : rest = String.append pre (String "?" q)) by reflexivity.
  assert (F : strings.Count_byte (String.append scheme (String ":" rest)) "#"
              = 0).
  { rewrite Count_app, Fs. cbn [strings.Count_byte Ascii.eqb Bool.eqb].
    fold (strings.Count_byte rest "#"). rewrite Er, Count_app, Fr.
    cbn [strings.Count_byte Ascii.eqb Bool.eqb]. rewrite Fq. reflexivity. }
  assert (C : stringContainsCTLByte (String.append scheme (String ":" rest))
              = false).
  { rewrite CTL_app, Cs. cbn [stringContainsCTLByte orb].
    fold (stringContainsCTLByte rest). rewrite Er, CTL_app, Cr.
    replace ((byte_val ":" <? 32) || (byte_val ":" =? 127)) with false
      by reflexivity.
    cbn [stringContainsCTLByte orb].
    replace ((byte_val "?" <? 32) || (byte_val "?" =? 127)) with false
      by reflexivity.
    exact Cq. }
  unfold url.Parse. rewrite (Cut_absent _ "#" F).
  rewrite parse_unfold, C.
  assert (St : String.eqb (String.append scheme (String ":" rest)) "*"
               = false).
  { destruct scheme as [|c sc]; [discriminate|].
    cbn in L. apply andb_prop in L. destruct L as [Lc _].
    destruct (lower_inv c Lc) as (_ & E).
    cbn [String.append String.eqb]. rewrite E. reflexivity. }
  rewrite St, (getScheme_plain scheme _ Hs), Er.
  rewrite (split_query_at pre q Qr Nq).
  rewrite (ToLower_lower scheme L).
  subst pre. rewrite (parse_tail_query scheme name port p q Hs Hn Hp Hq).
  reflexivity.
Qed.

Lemma URL_String_query scheme name port p q :
  plain_scheme scheme = true -> plain_name name = true ->
  plain_port port = true -> plain_path p = true ->
  q <> EmptyString ->
  URL_String (query_URL scheme (String.append name port) p q)
  = query_text scheme name port p q.
Proof.
  intros Hs Hn Hp Hq Nq.
  pose proof (URL_String_plain scheme name port p Hs Hn Hp Hq) as P.
  unfold URL_String in *. unfold plain_URL in P. unfold query_URL.
  cbn [Scheme Opaque User Host Path OmitHost ForceQuery RawQuery Fragment
         RawFragment] in *.
  change (EscapedPath
            (mkURL scheme "" None (String.append name port) p "" false false
               q "" ""))
    with (EscapedPath
            (mkURL scheme "" None (String.append name port) p "" false false
               "" "" "")).
  cbn [String.eqb negb orb] in P.
  destruct (String.eqb_spec q "") as [E|_]; [congruence|].
  cbn [String.eqb negb orb].
  rewrite P. unfold query_text. rewrite !app_assoc.
  cbn [String.append]. rewrite !app_assoc. reflexivity.
Qed.

Lemma NewRequest_query scheme name port p q :
  plain_scheme scheme = true -> plain_name name = true ->
  plain_port port = true -> plain_path p = true ->
  all_bytes query_byte q = true -> q <> EmptyString ->
  http.NewRequest "GET" (query_text scheme name port p q)
  = Ok (http.mkRequest "GET"
          (query_URL scheme (String.append name port) p q) []
          (String.append name port)).
Proof.
  intros Hs Hn Hp Hq Hb Nq. unfold http.NewRequest.
  cbn [String.eqb].
  replace (http.validMethod "GET") with true by reflexivity.
  cbn [negb]. rewrite (Parse_query scheme name port p q Hs Hn Hp Hq Hb Nq).
  unfold query_URL.
  cbn [Scheme Opaque User Host Path RawPath OmitHost ForceQuery RawQuery
         Fragment RawFragment].
  rewrite (removeEmptyPort_plain name port Hn Hp). reflexivity.
Qed.

End QueryURL.

Section QueryRequests.

Variable network : http.Request -> result http.Response.
Variable Decode_RevisionInfo : string -> result RevisionInfo.
Variable Decode_Revision : string -> result Revision.
Variable Decode_ServerInfo : string -> result ServerInfo.

Lemma via_fetch_query {A : Type}
  (decode : string -> M (option A * option error)) a path scheme name port p
  q :
  (forall body, requests (trace (decode body)) = []) ->
  plain_scheme scheme = true -> plain_name name = true ->
  plain_port port = true -> plain_path p = true ->
  all_bytes query_byte q = true -> q <> EmptyString ->
  String.append (apiEndpoint a) path = query_text scheme name port p q ->
  requests (trace (via_fetch network a path decode))
  = [query_request a scheme (String.append name port) p q].
Proof.
  intros Hd Hs Hn Hp Hq Hb Nq E.
  rewrite via_fetch_unfold, E.
  rewrite (QueryURL.Parse_query scheme name port p q Hs Hn Hp Hq Hb Nq).
  rewrite (QueryURL.URL_String_query scheme name port p q Hs Hn Hp Hq Nq).
  rewrite (QueryURL.NewRequest_query scheme name port p q Hs Hn Hp Hq Hb Nq).
  assert (W : with_headers a
                (http.mkRequest "GET"
                   (query_URL scheme (String.append name port) p q) []
                   (String.append name port))
              = query_request a scheme (String.append name port) p q)
    by reflexivity.
  rewrite W.
  destruct (network _) as [resp|e]; [|reflexivity].
  destruct (_ =? _); [|reflexivity].
  cbn [trace snd requests]. rewrite Hd. reflexivity.
Qed.

Lemma query_composed scheme name port bpath bq path :
  String.append
    (String.append scheme
       (String.append "://"
          (String.append name
             (String.append port
                (String.append bpath (String.append "?" bq)))))) path
  = query_text scheme name port bpath (String.append bq path).
Proof.
  unfold query_text. rewrite !string_app_assoc. reflexivity.
Qed.


End QueryRequests.

(** ** Instances *)

Lemma transport_error_is_returned_witness :
  GetServerInfo (refuses (other_error "connection refused")) no_ServerInfo
    example_client
  = (returns (None, Some (other_error "connection refused")),
     [ev_request
        (example_request "/rest.php/data_accounting/get_server_info")]).
Proof.
  apply (proj2 (proj2 (proj2
           (transport_error_is_returned
              (refuses (other_error "connection refused"))
              no_RevisionInfo no_Revision no_ServerInfo example_client
              (example_request "/rest.php/data_accounting/get_server_info")
              (other_error "connection refused") eq_refl)))).
  vm_compute. left. reflexivity.
Defined.

Lemma status_200_is_decoded_witness :
  result_of (GetRevisionHashes (answers 200 "[]") example_client "abc")
  = returns (verdict_hashes (json.Decode_hashes "[]")).
Proof.
  apply (proj1 (proj2
           (status_200_is_decoded (answers 200 "[]")
              no_RevisionInfo no_Revision no_ServerInfo example_client
              (example_request
                 "/rest.php/data_accounting/get_revision_hashes/abc")
              (http.mkResponse 200 "[]") eq_refl eq_refl)) "abc").
  vm_compute. left. reflexivity.
Defined.


Lemma fetch_nil_error_witness :
  exists req resp,
    Some (http.mkResponse 200 "{}") = Some resp
    /\ trace (fetch (answers 200 "{}") example_client
                (plain_URL "http" "localhost:9352" "/rest.php"))
       = [ev_request req]
    /\ answers 200 "{}" req = Ok resp
    /\ http.StatusCode resp = http.StatusOK.
Proof.
  apply (proj2 (fetch_nil_error (answers 200 "{}") example_client
                  (plain_URL "http" "localhost:9352" "/rest.php"))
           (Some (http.mkResponse 200 "{}"))).
  vm_compute. reflexivity.
Defined.

Lemma other_operations_URL_witness :
  exists u req0,
    url.Parse "http://localhost:9352/rest.php/data_accounting/get_server_info"
    = Ok u
    /\ http.NewRequest "GET" (url.URL_String u) = Ok req0
    /\ http.Method
         (example_request "/rest.php/data_accounting/get_server_info")
       = "GET"
    /\ http.URL (example_request "/rest.php/data_accounting/get_server_info")
       = http.URL req0
    /\ http.Host
         (example_request "/rest.php/data_accounting/get_server_info")
       = http.Host req0.
Proof.
  apply (proj2 (proj2 (proj2
           (other_operations_URL (answers 200 "{}") no_Revision
              no_ServerInfo example_client)))).
  vm_compute. left. reflexivity.
Defined.


Lemma GetRevisionHashes_null_witness :
  GetRevisionHashes (answers 200 " null") example_client "abc"
  = (returns (None, None),
     [ev_request
        (example_request
           "/rest.php/data_accounting/get_revision_hashes/abc")]).
Proof.
  apply (GetRevisionHashes_null (answers 200 " null") example_client "abc" _
           (http.mkResponse 200 " null") " " "").
  - vm_compute. left. reflexivity.
  - reflexivity.
  - reflexivity.
  - reflexivity.
  - reflexivity.
Defined.

Lemma GetRevisionHashes_empty_body_witness :
  GetRevisionHashes (answers 200 "") example_client "abc"
  = (returns (None, Some (json_error io_EOF)),
     [ev_request
        (example_request
           "/rest.php/data_accounting/get_revision_hashes/abc")]).
Proof.
  apply (GetRevisionHashes_empty_body (answers 200 "") example_client "abc" _
           (http.mkResponse 200 "")).
  - vm_compute. left. reflexivity.
  - reflexivity.
  - reflexivity.
  - reflexivity.
Defined.

Lemma UnmarshalJSON_injective_witness :
  take 14 (strings.ReplaceAll_byte (quoted "20240115093000") dquote)
  = take 14 (strings.ReplaceAll_byte "20240115093000.0" dquote).
Proof.
  apply (UnmarshalJSON_injective
           (mkTimestamp (time.mkTime 0 0 time.UTC))
           (mkTimestamp (time.mkTime 0 0 time.UTC))
           (quoted "20240115093000") "20240115093000.0"
           (time.Date 2024 1 15 9 30 0 0 time.UTC)).
  - vm_compute. reflexivity.
  - vm_compute. reflexivity.
Defined.

Lemma plain_URL_is_requested_witness :
  requests (trace
    (GetRevisionHashes (answers 200 "[]") example_client "0a1b2c"))
  = [example_request "/rest.php/data_accounting/get_revision_hashes/0a1b2c"].
Proof.
  apply (proj1 (proj2 (plain_URL_is_requested (answers 200 "[]")
                         no_RevisionInfo no_Revision no_ServerInfo
                         example_client "http" "localhost" ":9352"
                         "/rest.php" eq_refl eq_refl eq_refl eq_refl
                         eq_refl)) "0a1b2c").
  reflexivity.
Defined.

Lemma value_or_error_witness :
  (exists v,
     result_of (GetServerInfo (answers 404 "{}") no_ServerInfo example_client)
     = returns (Some v, None))
  \/ (exists e,
        result_of
          (GetServerInfo (answers 404 "{}") no_ServerInfo example_client)
        = returns (None, Some e)).
Proof.
  apply (proj2 (proj2 (proj2
           (value_or_error (answers 404 "{}") no_RevisionInfo no_Revision
              no_ServerInfo example_client)))).
Defined.

